(** * Tab / Tabs lifecycle of the browser shell

    A shallow embedding of the [Tab] and [Tabs] classes of
    [packages/electron-chrome-extensions/src/browser/index.ts] (second part of
    the file, lines 209-354), followed by the properties of the tab model.

    JavaScript objects are shared and mutated in place: the same [Tab] object
    is reachable from [Tabs.tabList], from [Tabs.selected] and from the
    window's listener list.  The embedding therefore keeps every [Tab] in a
    store ([heap]) and lets the other structures hold references (indices into
    the store); [===] on objects is equality of references.

    The host is outside the source: Electron's [WebContentsView] and
    [BrowserWindow], and Node's [EventEmitter].  It appears here through what
    the two classes call on it: a view records its visibility, bounds and
    corner radius; a [webContents] can be destroyed and can have its dev tools
    open; a window has a size, child views and resize listeners, and counts
    the calls of [destroy]; [on] appends a listener even when it is already
    registered and [off] removes one registration; emitting an event runs the
    listeners in order and stops at the first that throws.  Sizes and ids are
    integers. *)

From Stdlib Require Import ZArith Lia.
From stdpp Require Import base option gmap list.

(** ** Data *)

(** The argument of [view.setBounds]. *)
Module Bounds.
Record t := mk { x : Z; y : Z; width : Z; height : Z }.
End Bounds.

(** A [Tab] object together with the host surface (a [WebContentsView] and
    its [webContents]) that it exclusively owns.  The first five fields are
    the JavaScript fields of the object; a field that holds an object is
    represented by whether it is defined.  The remaining fields are the state
    of the host surface, which outlives the moment the tab forgets it. *)
Record Tab := mkTab {
  tab_id : Z;                        (* this.id, assigned by the host *)
  tab_window : bool;                 (* this.window is defined *)
  tab_view : bool;                   (* this.view is defined *)
  tab_webContents : bool;            (* this.webContents is defined *)
  tab_destroyed : bool;              (* this.destroyed; undefined reads as false *)
  view_visible : bool;               (* last view.setVisible *)
  view_bounds : option Bounds.t;     (* last view.setBounds *)
  view_borderRadius : option Z;      (* last view.setBorderRadius *)
  view_layouts : nat;                (* number of view.setBounds calls received *)
  wc_destroyed : bool;               (* webContents.isDestroyed() *)
  wc_devTools : bool;                (* webContents.isDevToolsOpened() *)
  wc_destroyedEvents : nat           (* number of webContents.emit('destroyed') *)
}.

(** The host window handed to the [Tabs] constructor.  Child views and resize
    listeners are kept as references to the tab that owns the view, resp.
    whose bound [invalidateLayout] is the listener. *)
Record BrowserWindow := mkWin {
  win_size : Z * Z;                  (* window.getSize() *)
  win_childViews : list nat;         (* window.contentView.children *)
  win_resizeListeners : list nat;    (* window.listeners('resize') *)
  win_destroyCalls : nat             (* number of window.destroy() calls *)
}.

(** The store, the window and the fields of the one [Tabs] object. *)
Record State := mkState {
  heap : list Tab;
  browserWindow : BrowserWindow;
  tabList : list nat;                (* this.tabList *)
  selected : option nat;             (* this.selected; null and undefined are None *)
  window : bool                      (* this.window is defined *)
}.

Inductive Error :=
  | TypeError                        (* property access on undefined *)
  | NotFoundError (tabId : Z).       (* Error(`Tabs.remove: unable to find tab.id = ...`) *)

Inductive Result (A : Type) :=
  | Ok (a : A)
  | Throw (e : Error).
Arguments Ok {A} a.
Arguments Throw {A} e.

(** Notifications of the [Tabs] emitter, with the tab passed as payload. *)
Inductive Event :=
  | TabCreated (tab : nat)
  | TabSelected (tab : nat)
  | TabDestroyed (tab : nat).

(** ** Field updates *)

Definition set_window (b : bool) (t : Tab) : Tab :=
  mkTab (tab_id t) b (tab_view t) (tab_webContents t) (tab_destroyed t)
        (view_visible t) (view_bounds t) (view_borderRadius t) (view_layouts t)
        (wc_destroyed t) (wc_devTools t) (wc_destroyedEvents t).

Definition set_view (b : bool) (t : Tab) : Tab :=
  mkTab (tab_id t) (tab_window t) b (tab_webContents t) (tab_destroyed t)
        (view_visible t) (view_bounds t) (view_borderRadius t) (view_layouts t)
        (wc_destroyed t) (wc_devTools t) (wc_destroyedEvents t).

Definition set_webContents (b : bool) (t : Tab) : Tab :=
  mkTab (tab_id t) (tab_window t) (tab_view t) b (tab_destroyed t)
        (view_visible t) (view_bounds t) (view_borderRadius t) (view_layouts t)
        (wc_destroyed t) (wc_devTools t) (wc_destroyedEvents t).

Definition set_destroyed (b : bool) (t : Tab) : Tab :=
  mkTab (tab_id t) (tab_window t) (tab_view t) (tab_webContents t) b
        (view_visible t) (view_bounds t) (view_borderRadius t) (view_layouts t)
        (wc_destroyed t) (wc_devTools t) (wc_destroyedEvents t).

Definition setVisible (b : bool) (t : Tab) : Tab :=
  mkTab (tab_id t) (tab_window t) (tab_view t) (tab_webContents t) (tab_destroyed t)
        b (view_bounds t) (view_borderRadius t) (view_layouts t)
        (wc_destroyed t) (wc_devTools t) (wc_destroyedEvents t).

Definition setBounds (b : Bounds.t) (t : Tab) : Tab :=
  mkTab (tab_id t) (tab_window t) (tab_view t) (tab_webContents t) (tab_destroyed t)
        (view_visible t) (Some b) (view_borderRadius t) (S (view_layouts t))
        (wc_destroyed t) (wc_devTools t) (wc_destroyedEvents t).

Definition setBorderRadius (r : Z) (t : Tab) : Tab :=
  mkTab (tab_id t) (tab_window t) (tab_view t) (tab_webContents t) (tab_destroyed t)
        (view_visible t) (view_bounds t) (Some r) (view_layouts t)
        (wc_destroyed t) (wc_devTools t) (wc_destroyedEvents t).

Definition closeDevTools (t : Tab) : Tab :=
  mkTab (tab_id t) (tab_window t) (tab_view t) (tab_webContents t) (tab_destroyed t)
        (view_visible t) (view_bounds t) (view_borderRadius t) (view_layouts t)
        (wc_destroyed t) false (wc_destroyedEvents t).

Definition emitDestroyed (t : Tab) : Tab :=
  mkTab (tab_id t) (tab_window t) (tab_view t) (tab_webContents t) (tab_destroyed t)
        (view_visible t) (view_bounds t) (view_borderRadius t) (view_layouts t)
        (wc_destroyed t) (wc_devTools t) (S (wc_destroyedEvents t)).

Definition destroyWebContents (t : Tab) : Tab :=
  mkTab (tab_id t) (tab_window t) (tab_view t) (tab_webContents t) (tab_destroyed t)
        (view_visible t) (view_bounds t) (view_borderRadius t) (view_layouts t)
        true (wc_devTools t) (wc_destroyedEvents t).

Definition set_childViews (l : list nat) (w : BrowserWindow) : BrowserWindow :=
  mkWin (win_size w) l (win_resizeListeners w) (win_destroyCalls w).

Definition set_resizeListeners (l : list nat) (w : BrowserWindow) : BrowserWindow :=
  mkWin (win_size w) (win_childViews w) l (win_destroyCalls w).

Definition set_size (sz : Z * Z) (w : BrowserWindow) : BrowserWindow :=
  mkWin sz (win_childViews w) (win_resizeListeners w) (win_destroyCalls w).

Definition destroyWindow (w : BrowserWindow) : BrowserWindow :=
  mkWin (win_size w) (win_childViews w) (win_resizeListeners w) (S (win_destroyCalls w)).

Definition upd_heap (f : list Tab → list Tab) (s : State) : State :=
  mkState (f (heap s)) (browserWindow s) (tabList s) (selected s) (window s).

Definition upd_win (f : BrowserWindow → BrowserWindow) (s : State) : State :=
  mkState (heap s) (f (browserWindow s)) (tabList s) (selected s) (window s).

Definition set_tabList (l : list nat) (s : State) : State :=
  mkState (heap s) (browserWindow s) l (selected s) (window s).

Definition set_selected (o : option nat) (s : State) : State :=
  mkState (heap s) (browserWindow s) (tabList s) o (window s).

Definition set_tabs_window (b : bool) (s : State) : State :=
  mkState (heap s) (browserWindow s) (tabList s) (selected s) b.

(** In-place mutation of the tab object behind a reference. *)
Definition upd_tab (r : nat) (f : Tab → Tab) (s : State) : State :=
  upd_heap (alter f r) s.

(** ** Computations

    A method is a function from the state to a result (a value or a thrown
    error), the state it leaves, and the notifications it delivered to the
    listeners of the [Tabs] emitter, each paired with the state the listener
    observes.  A thrown error keeps the mutations made before it. *)

Definition M (A : Type) : Type := State → Result A * State * list (Event * State).

Definition ret {A} (a : A) : M A := λ s, (Ok a, s, []).

Definition throw {A} (e : Error) : M A := λ s, (Throw e, s, []).

Definition bind {A B} (m : M A) (k : A → M B) : M B :=
  λ s, match m s with
       | (Ok a, s1, l1) =>
           match k a s1 with (res, s2, l2) => (res, s2, l1 ++ l2) end
       | (Throw e, s1, l1) => (Throw e, s1, l1)
       end.

Declare Scope js_scope.
Delimit Scope js_scope with js.
Notation "'let!' x := m 'in' k" := (bind m (λ x, k))
  (at level 10, x name, m at level 100, k at level 200) : js_scope.
Notation "m ;; k" := (bind m (λ _, k))
  (at level 100, k at level 200, right associativity) : js_scope.
Open Scope js_scope.

Definition gets {A} (f : State → A) : M A := λ s, (Ok (f s), s, []).

Definition modify (f : State → State) : M unit := λ s, (Ok tt, f s, []).

Definition when (b : bool) (m : M unit) : M unit := if b then m else ret tt.

(** [this.emit(name, tab)] on the [Tabs] emitter: the listeners run now, on
    the current state. *)
Definition emit (e : Event) : M unit := λ s, (Ok tt, s, [(e, s)]).

(** Reading through a reference.  Every reference the program holds is in the
    store; a reference outside it is answered like [undefined]. *)
Definition deref (r : nat) : M Tab :=
  λ s, match heap s !! r with
       | Some t => (Ok t, s, [])
       | None => (Throw TypeError, s, [])
       end.

(** [o.m(...)] where [o] is a field that may be undefined. *)
Definition defined (b : bool) : M unit := if b then ret tt else throw TypeError.

(** ** The host window *)

(** [emitter.off(name, f)] removes one occurrence of [f], the one added
    last. *)
Fixpoint off (r : nat) (l : list nat) : list nat :=
  match l with
  | [] => []
  | r' :: l' =>
      if bool_decide (r' = r) && negb (bool_decide (r ∈ l')) then l'
      else r' :: off r l'
  end.

(** [emitter.on(name, f)] appends, whether or not [f] is already there. *)
Definition on (r : nat) (l : list nat) : list nat := l ++ [r].

Definition addChildView (r : nat) (l : list nat) : list nat :=
  filter (λ r', r' ≠ r) l ++ [r].

Definition removeChildView (r : nat) (l : list nat) : list nat :=
  filter (λ r', r' ≠ r) l.

(** ** class Tab *)

Definition toolbarHeight : Z := 62.
Definition padding : Z := 4.

(** [new Tab(parentWindow)].  [hostId] is the [webContents.id] the host gives
    to the new view.  With an undefined [parentWindow] the constructor throws
    at [this.window.contentView] and the half-built object is unreachable.
    The visibility of a view before its first [setVisible] is taken from the
    specification ("part of the render tree but not yet visible"); [create]
    calls [show] before anyone can look. *)
Definition Tab_new (hostId : Z) (parentWindow : bool) : M nat :=
  defined parentWindow ;;
  let! r := gets (λ s, length (heap s)) in
  modify (upd_heap (λ h, h ++ [mkTab hostId parentWindow true true false
                                     false None None 0 false false 0])) ;;
  modify (upd_win (λ w, set_childViews (addChildView r (win_childViews w)) w)) ;;
  ret r.

Definition Tab_invalidateLayout (this : nat) : M unit :=
  let! t := deref this in
  defined (tab_window t) ;;
  let! sz := gets (λ s, win_size (browserWindow s)) in
  defined (tab_view t) ;;
  modify (upd_tab this (setBounds
    (Bounds.mk padding
               (toolbarHeight + padding)
               (fst sz - padding * 2)
               (snd sz - toolbarHeight - padding * 2))%Z)) ;;
  modify (upd_tab this (setBorderRadius 8)).

Definition Tab_startResizeListener (this : nat) : M unit :=
  let! t := deref this in
  defined (tab_window t) ;;
  modify (upd_win (λ w, set_resizeListeners (on this (win_resizeListeners w)) w)).

Definition Tab_stopResizeListener (this : nat) : M unit :=
  let! t := deref this in
  defined (tab_window t) ;;
  modify (upd_win (λ w, set_resizeListeners (off this (win_resizeListeners w)) w)).

Definition view_setVisible (this : nat) (b : bool) : M unit :=
  let! t := deref this in
  defined (tab_view t) ;;
  modify (upd_tab this (setVisible b)).

Definition Tab_show (this : nat) : M unit :=
  Tab_invalidateLayout this ;;
  Tab_startResizeListener this ;;
  view_setVisible this true.

Definition Tab_hide (this : nat) : M unit :=
  Tab_stopResizeListener this ;;
  view_setVisible this false.

Definition Tab_destroy (this : nat) : M unit :=
  let! t := deref this in
  if tab_destroyed t then ret tt else
  modify (upd_tab this (set_destroyed true)) ;;
  Tab_hide this ;;
  (let! t := deref this in
   defined (tab_window t) ;;
   modify (upd_win (λ w, set_childViews (removeChildView this (win_childViews w)) w))) ;;
  modify (upd_tab this (set_window false)) ;;
  (let! t := deref this in
   defined (tab_webContents t) ;;
   when (negb (wc_destroyed t))
     (when (wc_devTools t) (modify (upd_tab this closeDevTools)) ;;
      modify (upd_tab this emitDestroyed) ;;
      modify (upd_tab this destroyWebContents))) ;;
  modify (upd_tab this (set_webContents false)) ;;
  modify (upd_tab this (set_view false)).

(** The window firing ['resize']: the size changes and the listeners
    subscribed at that moment run in subscription order. *)
Fixpoint forEach (f : nat → M unit) (l : list nat) : M unit :=
  match l with
  | [] => ret tt
  | r :: l' => f r ;; forEach f l'
  end.

Definition resize (sz : Z * Z) : M unit :=
  modify (upd_win (set_size sz)) ;;
  let! ls := gets (λ s, win_resizeListeners (browserWindow s)) in
  forEach Tab_invalidateLayout ls.

(** ** class Tabs *)

(** [new Tabs(browserWindow)] in a store [h]. *)
Definition Tabs_new (h : list Tab) (w : BrowserWindow) : State :=
  mkState h w [] None true.

Definition has_id (s : State) (tabId : Z) (r : nat) : bool :=
  match heap s !! r with
  | Some t => bool_decide (tab_id t = tabId)
  | None => false
  end.

(** [this.tabList.find((tab) => tab.id === tabId)] *)
Definition Tabs_get (tabId : Z) (s : State) : option nat :=
  List.find (has_id s tabId) (tabList s).

(** [array.findIndex(p)], with [None] for [-1]. *)
Fixpoint findIndex {A} (p : A → bool) (l : list A) : option nat :=
  match l with
  | [] => None
  | a :: l' => if p a then Some 0 else S <$> findIndex p l'
  end.

Definition Tabs_destroy : M unit :=
  let! l := gets tabList in
  forEach Tab_destroy l ;;
  modify (set_tabList []) ;;
  modify (set_selected None) ;;
  let! w := gets window in
  when w
    (modify (upd_win destroyWindow) ;;
     modify (set_tabs_window false)).

Definition Tabs_select (tabId : Z) : M unit :=
  let! found := gets (Tabs_get tabId) in
  match found with
  | None => ret tt
  | Some tab =>
      (let! sel := gets selected in
       match sel with
       | Some cur => Tab_hide cur
       | None => ret tt
       end) ;;
      Tab_show tab ;;
      modify (set_selected (Some tab)) ;;
      emit (TabSelected tab)
  end.

Definition Tabs_create (hostId : Z) : M nat :=
  let! w := gets window in
  let! tab := Tab_new hostId w in
  modify (λ s, set_tabList (tabList s ++ [tab]) s) ;;
  (let! sel := gets selected in
   when (negb (bool_decide (is_Some sel))) (modify (set_selected (Some tab)))) ;;
  Tab_show tab ;;
  emit (TabCreated tab) ;;
  (let! t := deref tab in Tabs_select (tab_id t)) ;;
  ret tab.

Definition Tabs_remove (tabId : Z) : M unit :=
  let! found := gets (λ s, findIndex (has_id s tabId) (tabList s)) in
  match found with
  | None => throw (NotFoundError tabId)
  | Some tabIndex =>
      let! elt := gets (λ s, tabList s !! tabIndex) in
      match elt with
      | None => throw TypeError
      | Some tab =>
          modify (λ s, set_tabList (delete tabIndex (tabList s)) s) ;;
          Tab_destroy tab ;;
          (let! sel := gets selected in
           when (bool_decide (sel = Some tab))
             (modify (set_selected None) ;;
              let! nextTab := gets (λ s,
                match tabList s !! tabIndex with
                | Some n => Some n
                | None => match tabIndex with
                          | O => None
                          | S i => tabList s !! i
                          end
                end) in
              match nextTab with
              | Some n => let! t := deref n in Tabs_select (tab_id t)
              | None => ret tt
              end)) ;;
          emit (TabDestroyed tab) ;;
          let! l := gets tabList in
          when (bool_decide (l = [])) Tabs_destroy
      end
  end.

(** ** Sequences of calls and what can be observed of them *)

Inductive Op :=
  | Create (hostId : Z)
  | Select (tabId : Z)
  | Remove (tabId : Z).

Definition call (op : Op) : M unit :=
  match op with
  | Create hostId => Tabs_create hostId ;; ret tt
  | Select tabId => Tabs_select tabId
  | Remove tabId => Tabs_remove tabId
  end.

(** An observation point is a notification ([Some e]: what a listener of [e]
    sees) or the end of a call ([None]: what the caller sees once the call has
    returned or thrown). *)
Definition notified (l : list (Event * State)) : list (option Event * State) :=
  (λ p, (Some (fst p), snd p)) <$> l.

Fixpoint observe (ops : list Op) (s : State) : list (option Event * State) :=
  match ops with
  | [] => []
  | op :: ops' =>
      match call op s with
      | (_, s', l) => notified l ++ (None, s') :: observe ops' s'
      end
  end.

Definition observations (ops : list Op) (s : State) : list (option Event * State) :=
  (None, s) :: observe ops s.

Fixpoint run (ops : list Op) (s : State) : State :=
  match ops with
  | [] => s
  | op :: ops' => run ops' (snd (fst (call op s)))
  end.

(** Ids the host hands out during a sequence of calls. *)
Fixpoint created (ops : list Op) : list Z :=
  match ops with
  | [] => []
  | Create hostId :: ops' => hostId :: created ops'
  | _ :: ops' => created ops'
  end.

(** What an observer can tell about the collection. *)
Definition is_visible (s : State) (r : nat) : bool :=
  match heap s !! r with
  | Some t => view_visible t
  | None => false
  end.

Definition visible_tabs (s : State) : list nat :=
  filter (λ r, is_visible s r = true) (tabList s).

Definition id_of (s : State) (r : nat) : option Z := tab_id <$> heap s !! r.

(** Tabs of the sequence whose id is the id of the selected tab. *)
Definition selected_tabs (s : State) : list nat :=
  match selected s with
  | Some cur => filter (λ r, id_of s r = id_of s cur) (tabList s)
  | None => []
  end.

(** A new window of 800 x 600. *)
Definition win0 : BrowserWindow := mkWin (800, 600)%Z [] [] 0.

(** ** States reached by the methods, and what is stated of them *)

(** A tab in use: built, attached to its window, not destroyed. *)
Definition liveb (t : Tab) : bool :=
  tab_window t && tab_view t && tab_webContents t && negb (tab_destroyed t).

(** The rectangle [invalidateLayout] computes from the window size. *)
Definition layout (sz : Z * Z) : Bounds.t :=
  (Bounds.mk padding (toolbarHeight + padding)
             (fst sz - padding * 2) (snd sz - toolbarHeight - padding * 2))%Z.

(** [window.on('resize', ...)], [window.off('resize', ...)] and
    [window.contentView.removeChildView(...)] as changes of the window. *)
Definition subscribe (this : nat) (w : BrowserWindow) : BrowserWindow :=
  set_resizeListeners (on this (win_resizeListeners w)) w.

Definition unsubscribe (this : nat) (w : BrowserWindow) : BrowserWindow :=
  set_resizeListeners (off this (win_resizeListeners w)) w.

Definition detach (this : nat) (w : BrowserWindow) : BrowserWindow :=
  set_childViews (removeChildView this (win_childViews w)) w.

(** The state in which the object behind [this] has become [t'] and the
    window [w'], all else as in [s]. *)
Definition touch (this : nat) (t' : Tab) (w' : BrowserWindow) (s : State) : State :=
  mkState (<[this := t']> (heap s)) w' (tabList s) (selected s) (window s).

(** The tab object after [show], and after [destroy]. *)
Definition shownTab (sz : Z * Z) (t : Tab) : Tab :=
  setVisible true (setBorderRadius 8 (setBounds (layout sz) t)).

Definition finalized (t : Tab) : Tab :=
  if wc_destroyed t then t
  else destroyWebContents (emitDestroyed (if wc_devTools t then closeDevTools t else t)).

Definition destroyedTab (t : Tab) : Tab :=
  set_view false (set_webContents false (finalized
    (set_window false (setVisible false (set_destroyed true t))))).

(** The reference [r] leads to a tab in use. *)
Definition is_live (s : State) (r : nat) : bool :=
  match heap s !! r with
  | Some t => liveb t
  | None => false
  end.

(** The states left by [hide], [show] and [destroy] on a tab in use, as
    functions of the state before. *)
Definition on_tab (r : nat) (f : Tab → Tab) (g : BrowserWindow → BrowserWindow)
    (s : State) : State :=
  match heap s !! r with
  | Some t => touch r (f t) (g (browserWindow s)) s
  | None => s
  end.

Definition hiddenS (r : nat) (s : State) : State :=
  on_tab r (setVisible false) (unsubscribe r) s.

Definition shownS (r : nat) (s : State) : State :=
  on_tab r (shownTab (win_size (browserWindow s))) (subscribe r) s.

Definition destroyedS (r : nat) (s : State) : State :=
  on_tab r destroyedTab (λ w, detach r (unsubscribe r w)) s.

(** An id carried by no tab of the sequence. *)
Definition absent (tabId : Z) (s : State) : Prop :=
  ∀ r, r ∈ tabList s → id_of s r ≠ Some tabId.

(** The state left by [select] when the id resolves to [tab]. *)
Definition selectS (tab : nat) (s : State) : State :=
  set_selected (Some tab)
    (shownS tab (match selected s with Some cur => hiddenS cur s | None => s end)).

(** The invariant of the collection. *)
Record wf (s : State) : Prop := mk_wf {
  (* ids are distinct along the sequence *)
  wf_ids : NoDup (id_of s <$> tabList s);
  (* every tab of the sequence is in use *)
  wf_live : Forall (λ r, is_live s r = true) (tabList s);
  (* the selection points into the sequence, and is unset only when it is empty *)
  wf_selected :
    match selected s with Some cur => cur ∈ tabList s | None => tabList s = [] end;
  (* only the selected tab is shown *)
  wf_visible : ∀ r, r ∈ tabList s → is_visible s r = true → selected s = Some r;
  (* tabs live in a window *)
  wf_window : tabList s ≠ [] → window s = true
}.

(** The object [new Tab(window)] builds. *)
Definition newTab (hostId : Z) : Tab :=
  mkTab hostId true true true false false None None 0 false false 0.

(** After [new Tab], [push] and the selection of a first tab. *)
Definition createdS (hostId : Z) (s : State) : State :=
  let tab := length (heap s) in
  mkState (heap s ++ [newTab hostId])
          (set_childViews (addChildView tab (win_childViews (browserWindow s)))
                          (browserWindow s))
          (tabList s ++ [tab])
          (match selected s with Some cur => Some cur | None => Some tab end)
          (window s).

(** What the listeners of [tab-created] see. *)
Definition attachedS (hostId : Z) (s : State) : State :=
  shownS (length (heap s)) (createdS hostId s).

(** What [create] leaves. *)
Definition createS (hostId : Z) (s : State) : State :=
  selectS (length (heap s)) (attachedS hostId s).

(** [this.tabList[tabIndex] || this.tabList[tabIndex - 1]] once the element
    between [l1] and [l2] has been spliced out. *)
Definition next_after (l1 l2 : list nat) : option nat :=
  match l2 with
  | n :: _ => Some n
  | [] => last l1
  end.

(** [Tabs.destroy] when the sequence is already empty. *)
Definition teardownS (s : State) : State :=
  if window s
  then set_tabs_window false (upd_win destroyWindow (set_selected None (set_tabList [] s)))
  else set_selected None (set_tabList [] s).

(** The state left by [remove] of the tab between [l1] and [l2], and the
    notifications it emits with the states their listeners see. *)
Definition removeS (l1 : list nat) (tab : nat) (l2 : list nat) (s : State)
    : State * list (Event * State) :=
  let s1 := destroyedS tab (set_tabList (l1 ++ l2) s) in
  if decide (selected s = Some tab) then
    let s2 := set_selected None s1 in
    match next_after l1 l2 with
    | Some n => let s3 := selectS n s2 in (s3, [(TabSelected n, s3); (TabDestroyed tab, s3)])
    | None => (teardownS s2, [(TabDestroyed tab, s2)])
    end
  else (s1, [(TabDestroyed tab, s1)]).

(** What holds where [tab-created] is emitted for [tab]: the new tab is
    already shown and the previously selected one not yet hidden. *)
Record wf_created (tab : nat) (s : State) : Prop := mk_wf_created {
  wfc_ids : NoDup (id_of s <$> tabList s);
  wfc_selected : ∃ cur, selected s = Some cur ∧ cur ∈ tabList s;
  wfc_visible :
    ∀ r, r ∈ tabList s → is_visible s r = true → selected s = Some r ∨ r = tab
}.

(** What holds of the state a listener sees, and of the state at any
    observation point. *)
Definition event_ok (p : Event * State) : Prop :=
  match fst p with
  | TabCreated tab => wf_created tab (snd p)
  | _ => wf (snd p)
  end.

Definition obs_ok (o : option Event * State) : Prop :=
  match fst o with
  | Some (TabCreated tab) => wf_created tab (snd o)
  | _ => wf (snd o)
  end.

(** The property of the specification: in a collection that is not empty at
    most one tab is shown and exactly one carries the selected id. *)
Definition single_selection (s : State) : Prop :=
  tabList s ≠ [] → length (visible_tabs s) ≤ 1 ∧ length (selected_tabs s) = 1.

(** Calls a holder of a tab can make on it. *)
Inductive TabCall := CallShow | CallHide | CallDestroy.

Definition tab_call (c : TabCall) (this : nat) : M unit :=
  match c with
  | CallShow => Tab_show this
  | CallHide => Tab_hide this
  | CallDestroy => Tab_destroy this
  end.

(** The state after a series of calls on one tab, errors being caught by the
    caller. *)
Fixpoint tab_calls (cs : list TabCall) (this : nat) (s : State) : State :=
  match cs with
  | [] => s
  | c :: cs' => tab_calls cs' this (snd (fst (tab_call c this s)))
  end.

(** A tab on which [destroy] has run to its end. *)
Definition is_destroyed (s : State) (r : nat) : bool :=
  match heap s !! r with
  | Some t => tab_destroyed t && negb (tab_window t) && negb (tab_view t)
              && negb (tab_webContents t) && wc_destroyed t && negb (view_visible t)
  | None => false
  end.

(** The claim of the specification as it stands: after [destroy], each of
    [show], [hide] and [destroy] returns normally and changes nothing. *)
Definition destroyed_calls_are_noops : Prop :=
  ∀ s this t s', heap s !! this = Some t → liveb t = true →
    Tab_destroy this s = (Ok tt, s', []) →
    ∀ c, tab_call c this s' = (Ok tt, s', []).

(** Number of subscriptions of a tab to its window's resize notification. *)
Definition subscriptions (s : State) (this : nat) : nat :=
  length (filter (λ r, r = this) (win_resizeListeners (browserWindow s))).

(** Number of layout recomputations a tab's surface has received. *)
Definition layouts (s : State) (this : nat) : nat :=
  match heap s !! this with
  | Some t => view_layouts t
  | None => 0
  end.

(** The claim of the specification as it stands, for a collection created on
    any window and any series of calls in which the host hands out distinct
    ids: the property holds at every observation point. *)
Definition single_selection_everywhere : Prop :=
  ∀ h w ops, NoDup (created ops) →
    Forall (λ o, single_selection (snd o)) (observations ops (Tabs_new h w)).

(** What holds at an observation point. *)
Definition observed_ok (o : option Event * State) : Prop :=
  let s := snd o in
  match fst o with
  | Some (TabCreated tab) =>
      (∀ r, r ∈ visible_tabs s → selected s = Some r ∨ r = tab) ∧
      length (visible_tabs s) ≤ 2 ∧ length (selected_tabs s) = 1
  | _ => single_selection s ∧ (tabList s = [] → selected s = None)
  end.

(** The collection after its destruction: no tab, no selection, no window. *)
Definition terminal (s : State) : Prop :=
  tabList s = [] ∧ selected s = None ∧ window s = false.

(** The [tab-destroyed] notifications. *)
Definition is_TabDestroyed (e : Event) : bool :=
  match e with
  | TabDestroyed _ => true
  | _ => false
  end.

(** ** The rest of class Tab, and what is stated of it *)

(** [loadURL(url)]: [return this.view.webContents.loadURL(url)].  The host's
    part, which is not in the source, is the parameter [webContents_loadURL]. *)
Definition Tab_loadURL {U A} (webContents_loadURL : nat → U → M A)
    (this : nat) (url : U) : M A :=
  let! t := deref this in
  defined (tab_view t) ;;
  webContents_loadURL this url.

(** [reload()]: [this.view.webContents.reload()], with the host's part as the
    parameter [webContents_reload]. *)
Definition Tab_reload (webContents_reload : nat → M unit) (this : nat) : M unit :=
  let! t := deref this in
  defined (tab_view t) ;;
  webContents_reload this.

(** Number of registrations of the listener [r] in a listener list. *)
Definition registrations (r : nat) (l : list nat) : nat :=
  length (filter (λ r', r' = r) l).

(** What one layout recomputation for the window size [sz] does to a tab. *)
Definition relayout (sz : Z * Z) (t : Tab) : Tab :=
  setBorderRadius 8 (setBounds (layout sz) t).

(** The bounds last given to the surface of a tab. *)
Definition bounds_of (s : State) (r : nat) : option Bounds.t :=
  match heap s !! r with
  | Some t => view_bounds t
  | None => None
  end.

(** ** What is stated of class Tabs beyond the above *)

(** The names and payloads of the notifications of a call, in order. *)
Definition events (l : list (Event * State)) : list Event := fst <$> l.

(** [tab.id] read through a reference. *)
Definition the_id (s : State) (r : nat) : Z :=
  match heap s !! r with
  | Some t => tab_id t
  | None => 0%Z
  end.

(** The state in which [select] shows its target: the previous selection,
    if any, is hidden. *)
Definition before_show (s : State) : State :=
  match selected s with Some cur => hiddenS cur s | None => s end.

(** The selected tab is shown and subscribed to the resize notification. *)
Definition selected_shown (s : State) : Prop :=
  ∀ cur, selected s = Some cur →
    is_visible s cur = true ∧ 1 ≤ subscriptions s cur.

(** A tab strip as its user sees it: the ids in order, the selected id, and
    whether the strip still has its window. *)
Record Strip := mkStrip {
  strip_ids : list Z;
  strip_selected : option Z;
  strip_open : bool
}.

Definition strip_of (s : State) : Strip :=
  mkStrip (the_id s <$> tabList s) (the_id s <$> selected s) (window s).

(** What create, select and remove do to a strip. *)
Definition strip_call (op : Op) (a : Strip) : Strip :=
  match op with
  | Create i =>
      if strip_open a then mkStrip (strip_ids a ++ [i]) (Some i) true else a
  | Select i =>
      if bool_decide (i ∈ strip_ids a)
      then mkStrip (strip_ids a) (Some i) (strip_open a)
      else a
  | Remove i =>
      match findIndex (λ j, bool_decide (j = i)) (strip_ids a) with
      | None => a
      | Some k =>
          let ids := delete k (strip_ids a) in
          if bool_decide (ids = []) then mkStrip [] None false
          else if bool_decide (strip_selected a = Some i)
          then mkStrip ids
                 (match ids !! k with Some n => Some n | None => last ids end)
                 (strip_open a)
          else mkStrip ids (strip_selected a) (strip_open a)
      end
  end.

Fixpoint strip_run (ops : list Op) (a : Strip) : Strip :=
  match ops with
  | [] => a
  | op :: ops' => strip_run ops' (strip_call op a)
  end.

(** ** class ElectronChromeExtensions: the registry of instances

    [sessionMap] is private to the module: only the constructor writes it and
    only [fromSession] reads it.  Sessions and instances are objects, known
    here by their references.  What the constructor calls outside the source
    is a parameter: [checkLicense], and all it does after registering itself
    ([setup]: the router, the store, the APIs, the listener for loaded
    extensions, the preload script), each giving the error it throws, if
    any.  Neither constructs an instance of the class. *)

Inductive CtorError (E : Type) :=
  | InstanceExists      (* Error(`Extensions instance already exists for the given session`) *)
  | Thrown (e : E).     (* an error thrown by code outside the source *)
Arguments InstanceExists {E}.
Arguments Thrown {E} e.

(** The part of [ChromeExtensionOptions] the constructor reads itself. *)
Record Options (L : Type) := mkOptions {
  opt_license : L;
  opt_session : option nat
}.
Arguments mkOptions {L} _ _.
Arguments opt_license {L} _.
Arguments opt_session {L} _.

(** [ElectronChromeExtensions.fromSession(session)] *)
Definition fromSession (session : nat) (sessionMap : gmap nat nat) : option nat :=
  sessionMap !! session.

(** [new ElectronChromeExtensions(opts)], for the new object [this].  [opts]
    may be undefined, and then so is the license;
    [electronSession.defaultSession] is [defaultSession]. *)
Definition construct {L E} (checkLicense : option L → option E)
    (setup : nat → nat → option E) (defaultSession : nat)
    (this : nat) (opts : option (Options L)) (sessionMap : gmap nat nat)
    : (CtorError E + nat) * gmap nat nat :=
  let license := opt_license <$> opts in
  let session := default defaultSession (opts ≫= opt_session) in
  match checkLicense license with
  | Some e => (inl (Thrown e), sessionMap)
  | None =>
      if bool_decide (is_Some (sessionMap !! session))
      then (inl InstanceExists, sessionMap)
      else
        let sessionMap := <[session := this]> sessionMap in
        match setup session this with
        | Some e => (inl (Thrown e), sessionMap)
        | None => (inr this, sessionMap)
        end
  end.

(** The session an options object stands for. *)
Definition session_of {L} (defaultSession : nat) (opts : option (Options L)) : nat :=
  default defaultSession (opts ≫= opt_session).

(** A series of constructions, each with its new object and its options; the
    errors are caught by the callers. *)
Fixpoint constructions {L E} (checkLicense : option L → option E)
    (setup : nat → nat → option E) (defaultSession : nat)
    (calls : list (nat * option (Options L))) (sessionMap : gmap nat nat)
    : gmap nat nat :=
  match calls with
  | [] => sessionMap
  | (this, opts) :: calls' =>
      constructions checkLicense setup defaultSession calls'
        (snd (construct checkLicense setup defaultSession this opts sessionMap))
  end.

(** ** Evaluating computations *)

Section Evaluation.
Context {A B : Type}.
Implicit Types (k : A → M B) (s : State).

Lemma bind_ok (m : M A) k s a s1 l1 :
  m s = (Ok a, s1, l1) →
  bind m k s = (fst (fst (k a s1)), snd (fst (k a s1)), l1 ++ snd (k a s1)).
Proof. unfold bind. intros ->. by destruct (k a s1) as [[??]?]. Qed.

Lemma bind_throw (m : M A) k s e s1 l1 :
  m s = (Throw e, s1, l1) → bind m k s = (Throw e, s1, l1).
Proof. unfold bind. by intros ->. Qed.

Lemma bind_quiet (m : M A) k s a s1 :
  m s = (Ok a, s1, []) → bind m k s = k a s1.
Proof. unfold bind. intros ->. by destruct (k a s1) as [[??]?]. Qed.

Lemma bind_ret (a : A) k s : bind (ret a) k s = k a s.
Proof. by apply bind_quiet. Qed.

Lemma bind_gets (f : State → A) k s : bind (gets f) k s = k (f s) s.
Proof. by apply bind_quiet. Qed.
End Evaluation.

Section EvaluationUnit.
Context {B : Type}.
Implicit Types (k : unit → M B) (s : State).

Lemma bind_modify (f : State → State) k s : bind (modify f) k s = k tt (f s).
Proof. by apply bind_quiet. Qed.

Lemma bind_defined k s : bind (defined true) k s = k tt s.
Proof. by apply bind_quiet. Qed.

Lemma bind_when_false (m : M unit) k s : bind (when false m) k s = k tt s.
Proof. by apply bind_quiet. Qed.

Lemma bind_emit e k s :
  bind (emit e) k s = (fst (fst (k tt s)), snd (fst (k tt s)), (e, s) :: snd (k tt s)).
Proof. unfold bind, emit. by destruct (k tt s) as [[??]?]. Qed.
End EvaluationUnit.

Lemma bind_deref {B} (k : Tab → M B) s r t :
  heap s !! r = Some t → bind (deref r) k s = k t s.
Proof. intros H. apply bind_quiet. unfold deref. by rewrite H. Qed.

Lemma bind_assoc {A B C} (m : M A) (k : A → M B) (h : B → M C) s :
  bind (bind m k) h s = bind m (λ a, bind (k a) h) s.
Proof.
  unfold bind. destruct (m s) as [[[a|e] s1] l1]; [|done].
  destruct (k a s1) as [[[b|e] s2] l2]; [|done].
  destruct (h b s2) as [[res s3] l3]. by rewrite (assoc_L (++)).
Qed.

(** ** What the methods of [Tab] do to a tab that is in use *)

Lemma alter_Some {A} (f : A → A) (l : list A) i x :
  l !! i = Some x → alter f i l = <[i := f x]> l.
Proof.
  intros H. apply list_eq. intros j. destruct (decide (i = j)) as [<-|Hne].
  - rewrite list_lookup_alter_eq, H, list_lookup_insert_eq; [done|].
    by eapply lookup_lt_Some.
  - by rewrite list_lookup_alter_ne, list_lookup_insert_ne.
Qed.

Lemma alter_insert {A} (f : A → A) (l : list A) i x y :
  l !! i = Some y → alter f i (<[i := x]> l) = <[i := f x]> l.
Proof.
  intros H. erewrite alter_Some; [apply list_insert_insert_eq|].
  apply list_lookup_insert_eq. by eapply lookup_lt_Some.
Qed.

Lemma upd_tab_touch this f t s :
  heap s !! this = Some t →
  upd_tab this f s = touch this (f t) (browserWindow s) s.
Proof. intros H. unfold upd_tab, upd_heap, touch. by erewrite alter_Some. Qed.

Lemma upd_tab_touched this f t t' w' s :
  heap s !! this = Some t →
  upd_tab this f (touch this t' w' s) = touch this (f t') w' s.
Proof.
  intros H. unfold upd_tab, upd_heap, touch. cbn. by erewrite alter_insert.
Qed.

Lemma upd_win_touched this f t' w' s :
  upd_win f (touch this t' w' s) = touch this t' (f w') s.
Proof. reflexivity. Qed.

Lemma heap_touch_eq this t t' w' s :
  heap s !! this = Some t → heap (touch this t' w' s) !! this = Some t'.
Proof. intros H. cbn. apply list_lookup_insert_eq. by eapply lookup_lt_Some. Qed.

Lemma heap_touch_ne this r t' w' s :
  this ≠ r → heap (touch this t' w' s) !! r = heap s !! r.
Proof. intros H. cbn. by apply list_lookup_insert_ne. Qed.

Lemma touch_touch this t1 t2 w1 w2 s :
  touch this t2 w2 (touch this t1 w1 s) = touch this t2 w2 s.
Proof. unfold touch. cbn. by rewrite list_insert_insert_eq. Qed.

Section LiveTab.
Variables (s : State) (this : nat) (t : Tab).
Hypothesis Hthis : heap s !! this = Some t.
Hypothesis Hwindow : tab_window t = true.
Hypothesis Hview : tab_view t = true.

Local Abbreviation w := (browserWindow s).

Lemma Tab_invalidateLayout_live :
  Tab_invalidateLayout this s =
    (Ok tt, touch this (setBorderRadius 8 (setBounds (layout (win_size w)) t)) w s, []).
Proof.
  unfold Tab_invalidateLayout.
  erewrite bind_deref by exact Hthis. rewrite Hwindow, bind_defined, bind_gets.
  rewrite Hview, bind_defined, bind_modify. unfold modify.
  erewrite (upd_tab_touch _ _ _ s), upd_tab_touched by exact Hthis. reflexivity.
Qed.

Lemma Tab_startResizeListener_live :
  Tab_startResizeListener this s = (Ok tt, upd_win (subscribe this) s, []).
Proof.
  unfold Tab_startResizeListener.
  erewrite bind_deref by exact Hthis. rewrite Hwindow, bind_defined. reflexivity.
Qed.

Lemma Tab_stopResizeListener_live :
  Tab_stopResizeListener this s = (Ok tt, upd_win (unsubscribe this) s, []).
Proof.
  unfold Tab_stopResizeListener.
  erewrite bind_deref by exact Hthis. rewrite Hwindow, bind_defined. reflexivity.
Qed.

Lemma view_setVisible_live b :
  view_setVisible this b s = (Ok tt, touch this (setVisible b t) w s, []).
Proof.
  unfold view_setVisible.
  erewrite bind_deref by exact Hthis. rewrite Hview, bind_defined.
  unfold modify. by erewrite upd_tab_touch.
Qed.
End LiveTab.

Section LiveTabMethods.
Variables (s : State) (this : nat) (t : Tab).
Hypothesis Hthis : heap s !! this = Some t.
Hypothesis Hwindow : tab_window t = true.
Hypothesis Hview : tab_view t = true.

Local Abbreviation w := (browserWindow s).

Lemma Tab_show_live :
  Tab_show this s =
    (Ok tt, touch this (shownTab (win_size w) t) (subscribe this w) s, []).
Proof.
  unfold Tab_show.
  erewrite bind_quiet by (by eapply Tab_invalidateLayout_live).
  erewrite bind_quiet
    by (eapply Tab_startResizeListener_live; [by eapply heap_touch_eq|done]).
  rewrite upd_win_touched.
  erewrite view_setVisible_live by (by eapply heap_touch_eq || done).
  by rewrite touch_touch.
Qed.

Lemma Tab_hide_live :
  Tab_hide this s = (Ok tt, touch this (setVisible false t) (unsubscribe this w) s, []).
Proof.
  unfold Tab_hide.
  erewrite bind_quiet by (by eapply Tab_stopResizeListener_live).
  erewrite view_setVisible_live by (exact Hthis || done).
  unfold touch. cbn. reflexivity.
Qed.

End LiveTabMethods.

Section LiveTabDestroy.
Variables (s : State) (this : nat) (t : Tab).
Hypothesis Hthis : heap s !! this = Some t.
Hypothesis Hwindow : tab_window t = true.
Hypothesis Hview : tab_view t = true.
Hypothesis HwebContents : tab_webContents t = true.
Hypothesis Hdestroyed : tab_destroyed t = false.

Local Abbreviation w := (browserWindow s).

Lemma Tab_destroy_live :
  Tab_destroy this s =
    (Ok tt, touch this (destroyedTab t) (detach this (unsubscribe this w)) s, []).
Proof.
  unfold Tab_destroy.
  erewrite bind_deref by exact Hthis. rewrite Hdestroyed, bind_modify.
  erewrite upd_tab_touch by exact Hthis.
  erewrite bind_quiet
    by (eapply Tab_hide_live; [by eapply heap_touch_eq|done..]).
  rewrite touch_touch, bind_assoc.
  erewrite bind_deref by (by eapply heap_touch_eq).
  cbn [tab_window setVisible set_destroyed]. rewrite Hwindow.
  rewrite bind_assoc, bind_defined, !bind_modify, upd_win_touched.
  erewrite upd_tab_touched by exact Hthis.
  rewrite bind_assoc.
  erewrite bind_deref by (by eapply heap_touch_eq).
  cbn [tab_webContents set_window setVisible set_destroyed]. rewrite HwebContents.
  rewrite bind_assoc, bind_defined.
  unfold destroyedTab, finalized, detach.
  cbn [wc_destroyed wc_devTools set_window setVisible set_destroyed
       browserWindow touch].
  destruct (wc_destroyed t), (wc_devTools t); cbn [negb when];
    repeat first [ rewrite bind_assoc | rewrite bind_ret | rewrite bind_modify
                 | erewrite upd_tab_touched by exact Hthis ];
    unfold modify; erewrite upd_tab_touched by exact Hthis; reflexivity.
Qed.
End LiveTabDestroy.

(** The same results, as functions of the state alone. *)

Lemma is_live_Some s r :
  is_live s r = true →
  ∃ t, heap s !! r = Some t ∧ tab_window t = true ∧ tab_view t = true ∧
       tab_webContents t = true ∧ tab_destroyed t = false.
Proof.
  unfold is_live, liveb. destruct (heap s !! r) as [t|]; [|done].
  intros H. exists t.
  destruct (tab_window t), (tab_view t), (tab_webContents t), (tab_destroyed t);
    naive_solver.
Qed.

Lemma Tab_show_shownS s r :
  is_live s r = true → Tab_show r s = (Ok tt, shownS r s, []).
Proof.
  intros (t & Ht & ? & ? & _)%is_live_Some.
  unfold shownS, on_tab. rewrite Ht. by apply Tab_show_live.
Qed.

Lemma Tab_hide_hiddenS s r :
  is_live s r = true → Tab_hide r s = (Ok tt, hiddenS r s, []).
Proof.
  intros (t & Ht & ? & ? & _)%is_live_Some.
  unfold hiddenS, on_tab. rewrite Ht. by apply Tab_hide_live.
Qed.

Lemma Tab_destroy_destroyedS s r :
  is_live s r = true → Tab_destroy r s = (Ok tt, destroyedS r s, []).
Proof.
  intros (t & Ht & ? & ? & ? & ?)%is_live_Some.
  unfold destroyedS, on_tab. rewrite Ht. by apply Tab_destroy_live.
Qed.

(** [on_tab] changes one object of the store and the window, nothing else. *)
Section OnTab.
Variables (r : nat) (f : Tab → Tab) (g : BrowserWindow → BrowserWindow).
Implicit Types (s : State).

Lemma tabList_on_tab s : tabList (on_tab r f g s) = tabList s.
Proof. unfold on_tab. by destruct (heap s !! r). Qed.

Lemma selected_on_tab s : selected (on_tab r f g s) = selected s.
Proof. unfold on_tab. by destruct (heap s !! r). Qed.

Lemma window_on_tab s : window (on_tab r f g s) = window s.
Proof. unfold on_tab. by destruct (heap s !! r). Qed.

Lemma heap_on_tab s r' :
  heap (on_tab r f g s) !! r' =
    if decide (r = r') then f <$> heap s !! r' else heap s !! r'.
Proof.
  unfold on_tab. destruct (decide (r = r')) as [<-|Hne].
  - destruct (heap s !! r) as [t|] eqn:Ht; [|by rewrite Ht].
    by erewrite heap_touch_eq.
  - destruct (heap s !! r) as [t|] eqn:Ht; [|done]. by apply heap_touch_ne.
Qed.

Lemma id_of_on_tab s r' :
  (∀ t, tab_id (f t) = tab_id t) → id_of (on_tab r f g s) r' = id_of s r'.
Proof.
  intros Hid. unfold id_of. rewrite heap_on_tab. case_decide; [|done].
  destruct (heap s !! r') as [t|]; [|done]. cbn. by rewrite Hid.
Qed.

Lemma is_live_on_tab s r' :
  r ≠ r' → is_live (on_tab r f g s) r' = is_live s r'.
Proof. intros Hne. unfold is_live. rewrite heap_on_tab. by case_decide. Qed.

Lemma is_live_on_tab_same s r' :
  (∀ t, liveb (f t) = liveb t) → is_live (on_tab r f g s) r' = is_live s r'.
Proof.
  intros Hl. unfold is_live. rewrite heap_on_tab. case_decide; [|done].
  destruct (heap s !! r') as [t|]; [|done]. cbn. by rewrite Hl.
Qed.

Lemma is_visible_on_tab_ne s r' :
  r ≠ r' → is_visible (on_tab r f g s) r' = is_visible s r'.
Proof. intros Hne. unfold is_visible. rewrite heap_on_tab. by case_decide. Qed.

Lemma is_visible_on_tab_eq s b :
  (∀ t, view_visible (f t) = b) → is_live s r = true →
  is_visible (on_tab r f g s) r = b.
Proof.
  intros Hv (t & Ht & _)%is_live_Some. unfold is_visible.
  rewrite heap_on_tab, decide_True, Ht by done. cbn. apply Hv.
Qed.

Lemma is_visible_on_tab_false s r' :
  (∀ t, view_visible (f t) = false) →
  is_visible (on_tab r f g s) r' = true → r ≠ r' ∧ is_visible s r' = true.
Proof.
  intros Hv. unfold is_visible. rewrite heap_on_tab. case_decide as Hr; [|done].
  destruct (heap s !! r') as [t|]; cbn; [|done]. by rewrite Hv.
Qed.

Lemma destroyCalls_on_tab s :
  (∀ w, win_destroyCalls (g w) = win_destroyCalls w) →
  win_destroyCalls (browserWindow (on_tab r f g s)) =
    win_destroyCalls (browserWindow s).
Proof. intros Hg. unfold on_tab. destruct (heap s !! r); [|done]. apply Hg. Qed.
End OnTab.

Lemma tab_id_destroyedTab t : tab_id (destroyedTab t) = tab_id t.
Proof.
  unfold destroyedTab, finalized. cbn.
  by destruct (wc_destroyed t), (wc_devTools t).
Qed.

(** ** Lookup by id *)

Section Find.
Context {A : Type} (p : A → bool).

Lemma find_none l : Forall (λ y, p y = false) l → List.find p l = None.
Proof. induction 1 as [|y l Hy _ IH]; simpl; [done|]. by rewrite Hy. Qed.

Lemma findIndex_none l : Forall (λ y, p y = false) l → findIndex p l = None.
Proof. induction 1 as [|y l Hy _ IH]; cbn; [done|]. by rewrite Hy, IH. Qed.

Lemma find_middle l1 a l2 :
  Forall (λ y, p y = false) l1 → p a = true → List.find p (l1 ++ a :: l2) = Some a.
Proof.
  intros H Ha. induction H as [|y l Hy _ IH]; simpl; [by rewrite Ha|].
  by rewrite Hy.
Qed.

Lemma findIndex_middle l1 a l2 :
  Forall (λ y, p y = false) l1 → p a = true →
  findIndex p (l1 ++ a :: l2) = Some (length l1).
Proof.
  intros H Ha. induction H as [|y l Hy _ IH]; cbn; [by rewrite Ha|].
  by rewrite Hy, IH.
Qed.

Lemma findIndex_Some l i :
  findIndex p l = Some i →
  ∃ l1 a l2, l = l1 ++ a :: l2 ∧ length l1 = i ∧ p a = true ∧
             Forall (λ y, p y = false) l1.
Proof.
  revert i. induction l as [|y l IH]; intros i; cbn; [done|].
  destruct (p y) eqn:Hy.
  - intros [= <-]. by exists [], y, l.
  - destruct (findIndex p l) as [j|]; [|done]. intros [= <-].
    destruct (IH j eq_refl) as (l1 & a & l2 & -> & <- & Ha & Hl1).
    exists (y :: l1), a, l2. repeat split; [done|]. by constructor.
Qed.

Lemma find_Some_split l a :
  List.find p l = Some a →
  ∃ l1 l2, l = l1 ++ a :: l2 ∧ p a = true ∧ Forall (λ y, p y = false) l1.
Proof.
  induction l as [|y l IH]; simpl; [done|].
  destruct (p y) eqn:Hy.
  - intros [= <-]. by exists [], l.
  - intros (l1 & l2 & -> & Ha & Hl1)%IH.
    exists (y :: l1), l2. repeat split; [done|]. by constructor.
Qed.
End Find.

Lemma has_id_true s tabId r : has_id s tabId r = true ↔ id_of s r = Some tabId.
Proof.
  unfold has_id, id_of. destruct (heap s !! r) as [t|]; cbn; [|done].
  rewrite bool_decide_eq_true. naive_solver.
Qed.

Lemma has_id_false s tabId r : has_id s tabId r = false ↔ id_of s r ≠ Some tabId.
Proof. rewrite <-has_id_true. by destruct (has_id s tabId r). Qed.

Lemma absent_has_id tabId s :
  absent tabId s → Forall (λ r, has_id s tabId r = false) (tabList s).
Proof.
  intros H. apply Forall_forall. intros r Hr. apply has_id_false. exact (H r Hr).
Qed.

Lemma Tabs_get_None tabId s : Tabs_get tabId s = None ↔ absent tabId s.
Proof.
  split.
  - unfold Tabs_get, absent. intros H r Hr. apply has_id_false.
    apply list_elem_of_In in Hr.
    by apply (List.find_none _ _ H).
  - intros H. by apply find_none, absent_has_id.
Qed.

(** With distinct ids, the lookup of a tab's id finds that very tab. *)
Lemma NoDup_fmap_middle {A B} (f : A → B) l1 a l2 :
  NoDup (f <$> (l1 ++ a :: l2)) → Forall (λ y, f y ≠ f a) (l1 ++ l2).
Proof.
  rewrite fmap_app, fmap_cons, NoDup_app, NoDup_cons.
  intros (_ & Hl1 & Ha & _). apply Forall_app. split; apply Forall_forall.
  - intros y Hy Heq. eapply Hl1; [by apply list_elem_of_fmap_2|].
    rewrite Heq. left.
  - intros y Hy Heq. apply Ha. rewrite <-Heq. by apply list_elem_of_fmap_2.
Qed.

Lemma Tabs_get_unique s r tabId :
  NoDup (id_of s <$> tabList s) → r ∈ tabList s → id_of s r = Some tabId →
  Tabs_get tabId s = Some r.
Proof.
  intros Hnd (l1 & l2 & Hl)%list_elem_of_split Hid. unfold Tabs_get.
  rewrite Hl in *. apply find_middle; [|by apply has_id_true].
  apply NoDup_fmap_middle in Hnd. apply Forall_app in Hnd as [Hl1 _].
  eapply Forall_impl; [exact Hl1|]. intros y Hy. apply has_id_false. congruence.
Qed.

(** ** Tabs.select *)

Lemma Tabs_select_missing s tabId :
  absent tabId s → Tabs_select tabId s = (Ok tt, s, []).
Proof.
  intros H%Tabs_get_None. unfold Tabs_select. by rewrite bind_gets, H.
Qed.

Lemma Tabs_select_found s tabId tab :
  Tabs_get tabId s = Some tab → is_live s tab = true →
  (∀ cur, selected s = Some cur → is_live s cur = true) →
  Tabs_select tabId s = (Ok tt, selectS tab s, [(TabSelected tab, selectS tab s)]).
Proof.
  intros Hget Htab Hcur. unfold Tabs_select, selectS.
  rewrite bind_gets, Hget, bind_assoc, bind_gets.
  destruct (selected s) as [cur|] eqn:Hsel.
  - erewrite bind_quiet by (by apply Tab_hide_hiddenS, Hcur).
    erewrite bind_quiet
      by (apply Tab_show_shownS; unfold hiddenS; by rewrite is_live_on_tab_same).
    by rewrite bind_modify.
  - rewrite bind_ret. erewrite bind_quiet by (by apply Tab_show_shownS).
    by rewrite bind_modify.
Qed.

(** ** Tabs.remove on an id that is not there *)

Lemma Tabs_remove_missing s tabId :
  absent tabId s → Tabs_remove tabId s = (Throw (NotFoundError tabId), s, []).
Proof.
  intros H%absent_has_id%findIndex_none. unfold Tabs_remove.
  by rewrite bind_gets, H.
Qed.

(** ** The invariant of the collection *)

Lemma wf_Tabs_new h w : wf (Tabs_new h w).
Proof.
  split; cbn; try done.
  - constructor.
  - by intros r ?%elem_of_nil.
Qed.

Lemma Forall_live_elem s r :
  Forall (λ r, is_live s r = true) (tabList s) → r ∈ tabList s → is_live s r = true.
Proof. intros H Hr. by eapply Forall_forall in H. Qed.

Lemma wf_selected_live s cur : wf s → selected s = Some cur → is_live s cur = true.
Proof.
  intros [_ Hl Hs _ _] Hcur. rewrite Hcur in Hs. by eapply Forall_live_elem.
Qed.

Section SelectS.
Variables (tab : nat) (s : State).

Lemma tabList_selectS : tabList (selectS tab s) = tabList s.
Proof.
  unfold selectS, shownS, hiddenS. cbn. rewrite tabList_on_tab.
  destruct (selected s); [apply tabList_on_tab|done].
Qed.

Lemma selected_selectS : selected (selectS tab s) = Some tab.
Proof. reflexivity. Qed.

Lemma window_selectS : window (selectS tab s) = window s.
Proof.
  unfold selectS, shownS, hiddenS. cbn. rewrite window_on_tab.
  destruct (selected s); [apply window_on_tab|done].
Qed.

Lemma id_of_selectS r : id_of (selectS tab s) r = id_of s r.
Proof.
  unfold selectS, shownS, hiddenS.
  change (id_of (set_selected ?o ?s') r) with (id_of s' r).
  rewrite id_of_on_tab by done.
  destruct (selected s); [by apply id_of_on_tab|done].
Qed.

Lemma is_live_selectS r : is_live (selectS tab s) r = is_live s r.
Proof.
  unfold selectS, shownS, hiddenS.
  change (is_live (set_selected ?o ?s') r) with (is_live s' r).
  rewrite is_live_on_tab_same by done.
  destruct (selected s); [by apply is_live_on_tab_same|done].
Qed.

(** After a selection only the target is shown, provided that before it
    nothing but the target and the previous selection was. *)
Lemma is_visible_selectS r :
  is_visible (selectS tab s) r = true →
  r = tab ∨ (is_visible s r = true ∧ selected s ≠ Some r).
Proof.
  unfold selectS, shownS, hiddenS.
  change (is_visible (set_selected ?o ?s') r) with (is_visible s' r).
  intros H. destruct (decide (tab = r)) as [->|Hne]; [by left|]. right.
  rewrite is_visible_on_tab_ne in H by done.
  destruct (selected s) as [cur|]; [|done].
  apply is_visible_on_tab_false in H as [Hcur Hr]; [|done].
  split; [done|congruence].
Qed.

Lemma selectS_wf :
  NoDup (id_of s <$> tabList s) →
  Forall (λ r, is_live s r = true) (tabList s) →
  tab ∈ tabList s →
  (∀ r, r ∈ tabList s → is_visible s r = true → r = tab ∨ selected s = Some r) →
  window s = true →
  wf (selectS tab s).
Proof.
  intros Hids Hlive Htab Hvis Hwin. split.
  - rewrite tabList_selectS.
    erewrite list_fmap_ext; [exact Hids|]. intros ? r _. apply id_of_selectS.
  - rewrite tabList_selectS. eapply Forall_impl; [exact Hlive|].
    intros r Hr. by rewrite is_live_selectS.
  - by rewrite selected_selectS, tabList_selectS.
  - rewrite tabList_selectS, selected_selectS.
    intros r Hr [->|[Hv Hne]]%is_visible_selectS; [done|].
    destruct (Hvis r Hr Hv) as [->|?]; done.
  - by rewrite window_selectS.
Qed.
End SelectS.

Lemma wf_select s tabId tab : wf s → Tabs_get tabId s = Some tab → wf (selectS tab s).
Proof.
  intros [Hids Hlive Hsel Hvis Hwin] Hget.
  assert (tab ∈ tabList s) as Htab.
  { apply find_Some_split in Hget as (l1 & l2 & -> & _).
    apply elem_of_app. right. left. }
  apply selectS_wf; try done.
  - intros r Hr Hv. right. by apply Hvis.
  - apply Hwin. intros Hnil. rewrite Hnil in Htab. by apply elem_of_nil in Htab.
Qed.

(** ** Tabs.create *)

Section Create.
Variables (hostId : Z) (s : State).
Hypothesis Hlive : Forall (λ r, is_live s r = true) (tabList s).

Local Abbreviation tab := (length (heap s)).

Lemma is_live_lt r : is_live s r = true → r < tab.
Proof. intros (t & Ht & _)%is_live_Some. by eapply lookup_lt_Some. Qed.

Lemma heap_createdS_new : heap (createdS hostId s) !! tab = Some (newTab hostId).
Proof. cbn. by apply list_lookup_middle. Qed.

Lemma heap_createdS_old r : r < tab → heap (createdS hostId s) !! r = heap s !! r.
Proof. intros Hr. cbn. by apply lookup_app_l. Qed.

Lemma tab_fresh : tab ∉ tabList s.
Proof. intros Hin. apply (Forall_live_elem _ _ Hlive), is_live_lt in Hin. lia. Qed.

Lemma heap_attachedS_new :
  ∃ t, heap (attachedS hostId s) !! tab = Some t ∧ tab_id t = hostId ∧
       liveb t = true ∧ view_visible t = true.
Proof.
  unfold attachedS, shownS. rewrite heap_on_tab, decide_True by done.
  rewrite heap_createdS_new. cbn. eauto.
Qed.

Lemma heap_attachedS_old r : r < tab → heap (attachedS hostId s) !! r = heap s !! r.
Proof.
  intros Hr. unfold attachedS, shownS. rewrite heap_on_tab.
  rewrite decide_False by lia. by apply heap_createdS_old.
Qed.

Lemma tabList_attachedS : tabList (attachedS hostId s) = tabList s ++ [tab].
Proof. unfold attachedS, shownS. by rewrite tabList_on_tab. Qed.

Lemma selected_attachedS :
  selected (attachedS hostId s) =
    match selected s with Some cur => Some cur | None => Some tab end.
Proof. unfold attachedS, shownS. by rewrite selected_on_tab. Qed.

Lemma window_attachedS : window (attachedS hostId s) = window s.
Proof. unfold attachedS, shownS. by rewrite window_on_tab. Qed.

Lemma id_of_attachedS_new : id_of (attachedS hostId s) tab = Some hostId.
Proof.
  destruct heap_attachedS_new as (t & Ht & <- & _). unfold id_of. by rewrite Ht.
Qed.

Lemma is_live_attachedS_new : is_live (attachedS hostId s) tab = true.
Proof.
  destruct heap_attachedS_new as (t & Ht & _ & ? & _). unfold is_live. by rewrite Ht.
Qed.

Lemma id_of_attachedS_old r : r ∈ tabList s → id_of (attachedS hostId s) r = id_of s r.
Proof.
  intros Hr%(Forall_live_elem _ _ Hlive)%is_live_lt.
  unfold id_of. by rewrite heap_attachedS_old.
Qed.

Lemma is_live_attachedS_old r : r ∈ tabList s → is_live (attachedS hostId s) r = true.
Proof.
  intros Hr. pose proof (Forall_live_elem _ _ Hlive Hr) as Hl.
  unfold is_live in *. by rewrite heap_attachedS_old by (by apply is_live_lt).
Qed.

Lemma is_visible_attachedS_old r :
  r ∈ tabList s → is_visible (attachedS hostId s) r = is_visible s r.
Proof.
  intros Hr%(Forall_live_elem _ _ Hlive)%is_live_lt.
  unfold is_visible. by rewrite heap_attachedS_old.
Qed.

Lemma Forall_live_attachedS :
  Forall (λ r, is_live (attachedS hostId s) r = true) (tabList (attachedS hostId s)).
Proof.
  rewrite tabList_attachedS. apply Forall_app. split.
  - apply Forall_forall. intros r Hr. by apply is_live_attachedS_old.
  - repeat constructor. apply is_live_attachedS_new.
Qed.

Hypothesis Hfresh : absent hostId s.

Lemma Tabs_get_attachedS : Tabs_get hostId (attachedS hostId s) = Some tab.
Proof.
  unfold Tabs_get. rewrite tabList_attachedS. apply find_middle.
  - apply Forall_forall. intros r Hr. apply has_id_false.
    rewrite id_of_attachedS_old by done. by apply Hfresh.
  - apply has_id_true, id_of_attachedS_new.
Qed.

Lemma NoDup_ids_attachedS :
  NoDup (id_of s <$> tabList s) →
  NoDup (id_of (attachedS hostId s) <$> tabList (attachedS hostId s)).
Proof.
  intros Hids. rewrite tabList_attachedS, fmap_app. apply NoDup_app. split; [|split].
  - erewrite list_fmap_ext; [exact Hids|]. intros ? r Hr.
    apply id_of_attachedS_old. eapply list_elem_of_lookup_2, Hr.
  - intros i (r & -> & Hr)%list_elem_of_fmap Hin.
    apply list_elem_of_singleton in Hin. rewrite id_of_attachedS_new in Hin.
    rewrite id_of_attachedS_old in Hin by done. by apply (Hfresh r).
  - apply NoDup_singleton.
Qed.
End Create.

Lemma Tabs_create_no_window hostId s :
  window s = false → Tabs_create hostId s = (Throw TypeError, s, []).
Proof. intros H. unfold Tabs_create, Tab_new. by rewrite bind_gets, H. Qed.

Lemma Tabs_create_live hostId s :
  window s = true →
  Forall (λ r, is_live s r = true) (tabList s) →
  (∀ cur, selected s = Some cur → cur ∈ tabList s) →
  absent hostId s →
  Tabs_create hostId s =
    (Ok (length (heap s)), createS hostId s,
     [(TabCreated (length (heap s)), attachedS hostId s);
      (TabSelected (length (heap s)), createS hostId s)]).
Proof.
  intros Hwin Hlive Hsel Hfresh. unfold Tabs_create, Tab_new.
  rewrite bind_gets, Hwin.
  repeat first [ rewrite bind_assoc | rewrite bind_defined | rewrite bind_gets
               | rewrite bind_modify | rewrite bind_ret ].
  cbn [selected set_tabList upd_win upd_heap tabList heap browserWindow window].
  destruct (heap_attachedS_new hostId s) as (t & Ht & Hid & _).
  assert (∀ k : unit → M nat,
    bind (when (negb (bool_decide (is_Some (selected s))))
               (modify (set_selected (Some (length (heap s)))))) k
         (set_tabList (tabList s ++ [length (heap s)])
            (upd_win (λ w, set_childViews
                             (addChildView (length (heap s)) (win_childViews w)) w)
               (upd_heap (λ h, h ++ [newTab hostId]) s)))
    = k tt (createdS hostId s)) as ->.
  { intros k. unfold createdS, set_tabList, upd_win, upd_heap, set_selected. cbn.
    destruct (selected s) as [cur|].
    - rewrite bool_decide_eq_true_2 by eauto. apply bind_ret.
    - rewrite bool_decide_eq_false_2 by (by intros [? [=]]). apply bind_modify. }
  erewrite bind_quiet
    by (apply Tab_show_shownS; unfold is_live; by rewrite heap_createdS_new).
  fold (attachedS hostId s). rewrite bind_emit, bind_assoc.
  erewrite bind_deref by exact Ht. rewrite Hid.
  erewrite bind_ok.
  2:{ apply Tabs_select_found.
      - by apply Tabs_get_attachedS.
      - by apply is_live_attachedS_new.
      - intros cur. rewrite selected_attachedS. destruct (selected s) as [c|] eqn:Hc.
        + intros [= <-]. apply is_live_attachedS_old; auto.
        + intros [= <-]. by apply is_live_attachedS_new. }
  reflexivity.
Qed.

Lemma wf_create hostId s :
  wf s → window s = true → absent hostId s → wf (createS hostId s).
Proof.
  intros [Hids Hlive Hsel Hvis Hwin] Hw Hfresh. apply selectS_wf.
  - by apply NoDup_ids_attachedS.
  - by apply Forall_live_attachedS.
  - rewrite tabList_attachedS. apply elem_of_app. right. left.
  - rewrite tabList_attachedS, selected_attachedS.
    intros r [Hr|Hr%list_elem_of_singleton]%elem_of_app; [|by left].
    rewrite is_visible_attachedS_old by done.
    intros Hv. right. by rewrite (Hvis r Hr Hv).
  - by rewrite window_attachedS.
Qed.

(** ** Tabs.destroy and Tabs.remove *)

Lemma next_after_lookup l1 l2 :
  match (l1 ++ l2) !! length l1 with
  | Some n => Some n
  | None => match length l1 with
            | O => None
            | S i => (l1 ++ l2) !! i
            end
  end = next_after l1 l2.
Proof.
  rewrite lookup_app_r, Nat.sub_diag by lia. destruct l2 as [|n l2]; [|done].
  cbn. rewrite app_nil_r, last_lookup. by destruct l1.
Qed.

Lemma next_after_elem l1 l2 n : next_after l1 l2 = Some n → n ∈ l1 ++ l2.
Proof.
  unfold next_after. destruct l2 as [|m l2].
  - rewrite app_nil_r. apply last_Some_elem_of.
  - intros [= <-]. apply elem_of_app. right. left.
Qed.

Lemma next_after_None l1 l2 : next_after l1 l2 = None → l1 = [] ∧ l2 = [].
Proof. unfold next_after. destruct l2; [|done]. by intros ->%last_None. Qed.

Lemma Tabs_destroy_empty s :
  tabList s = [] → Tabs_destroy s = (Ok tt, teardownS s, []).
Proof.
  intros Hnil. unfold Tabs_destroy, teardownS.
  rewrite bind_gets, Hnil. cbn [forEach].
  rewrite bind_ret, !bind_modify, bind_gets. cbn [window set_selected set_tabList].
  by destruct (window s).
Qed.

Section Remove.
Variables (s : State) (l1 : list nat) (tab : nat) (l2 : list nat).
Hypothesis Hwf : wf s.
Hypothesis Hlist : tabList s = l1 ++ tab :: l2.

Local Abbreviation s1 := (destroyedS tab (set_tabList (l1 ++ l2) s)).

Lemma removed_not_elem : tab ∉ l1 ++ l2.
Proof.
  pose proof (NoDup_fmap_1 _ _ (wf_ids _ Hwf)) as Hnd. rewrite Hlist in Hnd.
  apply NoDup_app in Hnd as (_ & H1 & [H2 _]%NoDup_cons).
  intros [Hin|Hin]%elem_of_app; [|done]. apply (H1 _ Hin). left.
Qed.

Lemma rest_elem r : r ∈ l1 ++ l2 → r ∈ tabList s ∧ r ≠ tab.
Proof.
  intros Hr. split.
  - rewrite Hlist. apply elem_of_app in Hr as [?|?]; apply elem_of_app; [by left|].
    right. by right.
  - intros ->. by apply removed_not_elem.
Qed.

Lemma removed_live : is_live s tab = true.
Proof.
  apply (Forall_live_elem _ _ (wf_live _ Hwf)). rewrite Hlist.
  apply elem_of_app. right. left.
Qed.

Lemma tabList_removed : tabList s1 = l1 ++ l2.
Proof. unfold destroyedS. by rewrite tabList_on_tab. Qed.

Lemma selected_removed : selected s1 = selected s.
Proof. unfold destroyedS. by rewrite selected_on_tab. Qed.

Lemma window_removed : window s1 = window s.
Proof. unfold destroyedS. by rewrite window_on_tab. Qed.

Lemma id_of_removed r : id_of s1 r = id_of s r.
Proof.
  unfold destroyedS. by rewrite id_of_on_tab by apply tab_id_destroyedTab.
Qed.

Lemma is_live_removed r : r ∈ l1 ++ l2 → is_live s1 r = true.
Proof.
  intros [Hr Hne]%rest_elem. unfold destroyedS.
  rewrite is_live_on_tab by done. exact (Forall_live_elem _ _ (wf_live _ Hwf) Hr).
Qed.

Lemma is_visible_removed r : r ∈ l1 ++ l2 → is_visible s1 r = is_visible s r.
Proof.
  intros [Hr Hne]%rest_elem. unfold destroyedS.
  by rewrite is_visible_on_tab_ne.
Qed.

Lemma NoDup_ids_removed : NoDup (id_of s1 <$> l1 ++ l2).
Proof.
  pose proof (wf_ids _ Hwf) as Hnd. rewrite Hlist in Hnd.
  erewrite list_fmap_ext; [|intros ? r _; apply id_of_removed].
  rewrite fmap_app in *. rewrite fmap_cons in Hnd.
  apply NoDup_app in Hnd as (H1 & H2 & [H3 H4]%NoDup_cons).
  apply NoDup_app. repeat split; [done| |done].
  intros i Hi Hi2. apply (H2 i Hi). by right.
Qed.

Lemma removed_window : window s = true.
Proof. apply (wf_window _ Hwf). rewrite Hlist. by destruct l1. Qed.

Lemma wf_removeS : wf (fst (removeS l1 tab l2 s)).
Proof.
  unfold removeS. cbv zeta. case_decide as Hsel.
  - destruct (next_after l1 l2) as [n|] eqn:Hn; cbn [fst].
    + apply selectS_wf; cbn [tabList selected window set_selected].
      * change (id_of (set_selected None s1)) with (id_of s1).
        rewrite tabList_removed. apply NoDup_ids_removed.
      * rewrite tabList_removed. apply Forall_forall. intros r Hr.
        change (is_live (set_selected None s1) r) with (is_live s1 r).
        by apply is_live_removed.
      * rewrite tabList_removed. by apply next_after_elem.
      * rewrite tabList_removed. intros r Hr.
        change (is_visible (set_selected None s1) r) with (is_visible s1 r).
        rewrite is_visible_removed by done. intros Hv.
        apply rest_elem in Hr as [Hr Hne].
        pose proof (wf_visible _ Hwf r Hr Hv). congruence.
      * rewrite window_removed. apply removed_window.
    + unfold teardownS. cbn [window set_selected]. rewrite window_removed, removed_window.
      split; cbn; try done; [constructor|by intros r ?%elem_of_nil].
  - cbn [fst]. split.
    + rewrite tabList_removed. apply NoDup_ids_removed.
    + rewrite tabList_removed. apply Forall_forall. intros r Hr. by apply is_live_removed.
    + rewrite selected_removed, tabList_removed. pose proof (wf_selected _ Hwf) as Hs.
      destruct (selected s) as [cur|].
      * rewrite Hlist in Hs.
        apply elem_of_app in Hs as [?|[->|?]%elem_of_cons]; [| done |];
          apply elem_of_app; auto.
      * rewrite Hlist in Hs. by destruct l1.
    + rewrite tabList_removed, selected_removed. intros r Hr.
      rewrite is_visible_removed by done. apply (wf_visible _ Hwf).
      by apply rest_elem.
    + intros _. rewrite window_removed. apply removed_window.
Qed.
End Remove.

Lemma Tabs_remove_found s l1 tab l2 tabId :
  wf s → tabList s = l1 ++ tab :: l2 → id_of s tab = Some tabId →
  Tabs_remove tabId s = (Ok tt, fst (removeS l1 tab l2 s), snd (removeS l1 tab l2 s)).
Proof.
  intros Hwf Hlist Hid. unfold Tabs_remove.
  rewrite bind_gets, Hlist. erewrite findIndex_middle.
  2:{ pose proof (wf_ids _ Hwf) as Hnd. rewrite Hlist in Hnd.
      apply NoDup_fmap_middle, Forall_app in Hnd as [Hl1 _].
      eapply Forall_impl; [exact Hl1|]. intros r Hr. apply has_id_false. congruence. }
  2:{ by apply has_id_true. }
  rewrite bind_gets, Hlist, list_lookup_middle by done.
  rewrite bind_modify, Hlist, delete_middle.
  erewrite bind_quiet
    by (apply Tab_destroy_destroyedS; exact (removed_live s l1 tab l2 Hwf Hlist)).
  set (s1 := destroyedS tab (set_tabList (l1 ++ l2) s)).
  assert (tabList s1 = l1 ++ l2) as Htl by (by eapply tabList_removed).
  assert (selected s1 = selected s) as Hsel by (by eapply selected_removed).
  rewrite bind_assoc, bind_gets, Hsel. unfold removeS. fold s1.
  destruct (decide (selected s = Some tab)) as [Hcur|Hcur].
  - rewrite bool_decide_eq_true_2 by done. cbn [when].
    rewrite !bind_assoc, bind_modify, bind_assoc, bind_gets.
    cbn [tabList set_selected]. rewrite Htl, next_after_lookup.
    destruct (next_after l1 l2) as [n|] eqn:Hn; cbn [fst snd].
    + pose proof (next_after_elem _ _ _ Hn) as Hin.
      pose proof (is_live_removed s l1 tab l2 Hwf Hlist n Hin) as Hlive.
      destruct (is_live_Some _ _ Hlive) as (t & Ht & _).
      rewrite bind_assoc. erewrite bind_deref by exact Ht.
      erewrite bind_ok.
      2:{ apply Tabs_select_found; [|exact Hlive|done].
          apply Tabs_get_unique; cbn [tabList set_selected].
          - rewrite Htl. by eapply NoDup_ids_removed.
          - by rewrite Htl.
          - change (tab_id <$> heap s1 !! n = Some (tab_id t)).
            unfold s1. by rewrite Ht. }
      cbn [fst snd]. rewrite bind_emit, bind_gets, tabList_selectS.
      cbn [tabList set_selected]. rewrite Htl.
      rewrite bool_decide_eq_false_2; [done|].
      intros Hnil. rewrite Hnil in Hin. by apply elem_of_nil in Hin.
    + rewrite bind_ret, bind_emit, bind_gets. cbn [tabList set_selected].
      rewrite Htl. apply next_after_None in Hn as [-> ->].
      rewrite bool_decide_eq_true_2 by done. cbn [when].
      by rewrite Tabs_destroy_empty.
  - rewrite bool_decide_eq_false_2 by done.
    rewrite bind_when_false, bind_emit, bind_gets, Htl. cbn [fst snd].
    rewrite bool_decide_eq_false_2; [done|].
    pose proof (wf_selected _ Hwf) as Hs. intros Hnil.
    apply app_eq_nil in Hnil as [-> ->].
    destruct (selected s) as [cur|]; rewrite Hlist in Hs; [|done].
    apply list_elem_of_singleton in Hs. congruence.
Qed.

(** ** Calls preserve the invariant *)

Lemma wf_created_attachedS hostId s :
  wf s → absent hostId s → wf_created (length (heap s)) (attachedS hostId s).
Proof.
  intros Hwf Hfresh. pose proof (wf_live _ Hwf) as Hlive. split.
  - by apply NoDup_ids_attachedS, wf_ids.
  - rewrite selected_attachedS, tabList_attachedS.
    pose proof (wf_selected _ Hwf) as Hs. destruct (selected s) as [cur|].
    + exists cur. split; [done|]. apply elem_of_app. by left.
    + eexists. split; [done|]. apply elem_of_app. right. left.
  - rewrite tabList_attachedS, selected_attachedS.
    intros r [Hr|Hr%list_elem_of_singleton]%elem_of_app; [|by right].
    rewrite is_visible_attachedS_old by done.
    intros Hv. left. by rewrite (wf_visible _ Hwf r Hr Hv).
Qed.

Lemma absent_selectS tab s j : absent j s → absent j (selectS tab s).
Proof.
  unfold absent. rewrite tabList_selectS. intros H r Hr.
  rewrite id_of_selectS. by apply H.
Qed.

Lemma call_Create hostId s :
  wf s → absent hostId s →
  call (Create hostId) s =
    if window s
    then (Ok tt, createS hostId s,
          [(TabCreated (length (heap s)), attachedS hostId s);
           (TabSelected (length (heap s)), createS hostId s)])
    else (Throw TypeError, s, []).
Proof.
  intros Hwf Hfresh. cbn [call]. destruct (window s) eqn:Hwin.
  - assert (∀ cur, selected s = Some cur → cur ∈ tabList s) as Hsel.
    { intros cur Hcur. pose proof (wf_selected _ Hwf) as Hs. by rewrite Hcur in Hs. }
    by rewrite (bind_ok _ _ _ _ _ _
                  (Tabs_create_live hostId s Hwin (wf_live _ Hwf) Hsel Hfresh)).
  - by rewrite (bind_throw _ _ _ _ _ _ (Tabs_create_no_window hostId s Hwin)).
Qed.

Lemma call_Select tabId s :
  wf s →
  call (Select tabId) s =
    match Tabs_get tabId s with
    | Some tab => (Ok tt, selectS tab s, [(TabSelected tab, selectS tab s)])
    | None => (Ok tt, s, [])
    end.
Proof.
  intros Hwf. cbn [call]. destruct (Tabs_get tabId s) as [tab|] eqn:Hget.
  - apply Tabs_select_found; [done| |intros cur; by apply wf_selected_live].
    apply (Forall_live_elem _ _ (wf_live _ Hwf)).
    apply find_Some_split in Hget as (l1 & l2 & -> & _).
    apply elem_of_app. right. left.
  - by apply Tabs_select_missing, Tabs_get_None.
Qed.

Lemma call_Remove tabId s :
  wf s →
  (∃ l1 tab l2, tabList s = l1 ++ tab :: l2 ∧ id_of s tab = Some tabId ∧
     call (Remove tabId) s = (Ok tt, fst (removeS l1 tab l2 s), snd (removeS l1 tab l2 s))) ∨
  (absent tabId s ∧ call (Remove tabId) s = (Throw (NotFoundError tabId), s, [])).
Proof.
  intros Hwf. cbn [call]. destruct (Tabs_get tabId s) as [tab|] eqn:Hget.
  - left. apply find_Some_split in Hget as (l1 & l2 & Hl & Hid%has_id_true & _).
    exists l1, tab, l2. repeat split; [done..|]. by apply Tabs_remove_found.
  - right. apply Tabs_get_None in Hget. split; [done|]. by apply Tabs_remove_missing.
Qed.

Ltac each_event :=
  repeat first [ apply Forall_cons_2 | apply Forall_nil_2 ];
  unfold event_ok; cbn [fst snd].

Lemma events_removeS s l1 tab l2 :
  wf s → tabList s = l1 ++ tab :: l2 → Forall event_ok (snd (removeS l1 tab l2 s)).
Proof.
  intros Hwf Hlist. pose proof (wf_removeS s l1 tab l2 Hwf Hlist) as Hfin.
  unfold removeS in *. case_decide as Hsel.
  - destruct (next_after l1 l2) as [n|] eqn:Hn; cbn [fst snd] in *.
    + by each_event.
    + each_event. apply next_after_None in Hn as [-> ->].
      split; cbn [tabList selected set_selected];
        erewrite ?tabList_removed by done; try done.
      * constructor.
      * by intros r ?%elem_of_nil.
  - cbn [fst snd] in *. by each_event.
Qed.

Lemma absent_removeS s l1 tab l2 j :
  wf s → tabList s = l1 ++ tab :: l2 → absent j s → absent j (fst (removeS l1 tab l2 s)).
Proof.
  intros Hwf Hlist Habs.
  assert (absent j (destroyedS tab (set_tabList (l1 ++ l2) s))) as H1.
  { intros r. erewrite tabList_removed, id_of_removed by done.
    intros [Hr _]%(rest_elem s l1 tab l2 Hwf Hlist). by apply Habs. }
  unfold removeS. case_decide; [|done].
  destruct (next_after l1 l2) as [n|]; cbn [fst].
  - by apply absent_selectS.
  - unfold teardownS. intros r. by destruct (window _); intros ?%elem_of_nil.
Qed.

Lemma call_wf op s :
  wf s → (∀ i, op = Create i → absent i s) →
  wf (snd (fst (call op s))) ∧ Forall event_ok (snd (call op s)) ∧
  ∀ j, absent j s → op ≠ Create j → absent j (snd (fst (call op s))).
Proof.
  intros Hwf Hfresh. destruct op as [i|i|i].
  - rewrite call_Create by auto. destruct (window s) eqn:Hwin; cbn [fst snd].
    + pose proof (wf_create i s Hwf Hwin (Hfresh i eq_refl)) as Hfin.
      split; [done|]. split.
      * each_event; [|done]. by apply wf_created_attachedS; auto.
      * intros j Hj Hne. apply absent_selectS. intros r.
        rewrite tabList_attachedS by apply wf_live, Hwf.
        intros [Hr|Hr%list_elem_of_singleton]%elem_of_app.
        -- rewrite id_of_attachedS_old by (done || apply wf_live, Hwf). by apply Hj.
        -- subst r. rewrite id_of_attachedS_new. congruence.
    + split; [done|split; [constructor|done]].
  - rewrite call_Select by done. destruct (Tabs_get i s) as [tab|] eqn:Hget; cbn [fst snd].
    + pose proof (wf_select _ _ _ Hwf Hget). split; [done|]. split.
      * by each_event.
      * intros j Hj _. by apply absent_selectS.
    + split; [done|split; [constructor|done]].
  - destruct (call_Remove i s Hwf) as [(l1 & tab & l2 & Hl & Hid & ->)|[Habs ->]];
      cbn [fst snd].
    + split; [by apply wf_removeS|]. split; [by apply events_removeS|].
      intros j Hj _. by apply absent_removeS.
    + split; [done|split; [constructor|done]].
Qed.

(** ** Sequences of calls *)

Lemma obs_ok_notified l : Forall event_ok l → Forall obs_ok (notified l).
Proof.
  unfold notified. intros H. apply Forall_fmap. eapply Forall_impl; [exact H|].
  intros [e st]. unfold event_ok, obs_ok. cbn. by destruct e.
Qed.

Lemma observe_ok ops : ∀ s,
  wf s → NoDup (created ops) → (∀ i, i ∈ created ops → absent i s) →
  Forall obs_ok (observe ops s) ∧ wf (run ops s).
Proof.
  induction ops as [|op ops IH]; intros s Hwf Hnd Hfresh; cbn [observe run].
  - split; [constructor|done].
  - assert (∀ i, op = Create i → absent i s) as Hop.
    { intros i ->. apply Hfresh. left. }
    destruct (call_wf op s Hwf Hop) as (Hwf' & Hev & Habs).
    destruct (call op s) as [[res s'] l] eqn:Hcall. cbn [fst snd] in *.
    assert (NoDup (created ops) ∧ ∀ i, i ∈ created ops → absent i s') as [Hnd' Hfresh'].
    { destruct op as [j|j|j]; cbn [created] in *.
      - apply NoDup_cons in Hnd as [Hj Hnd]. split; [done|]. intros i Hi.
        apply Habs; [apply Hfresh; by right|]. intros [= ->]. done.
      - split; [done|]. intros i Hi. apply Habs; [by apply Hfresh|done].
      - split; [done|]. intros i Hi. apply Habs; [by apply Hfresh|done]. }
    destruct (IH s' Hwf' Hnd' Hfresh') as [Hobs Hrun]. split; [|done].
    apply Forall_app. split; [by apply obs_ok_notified|].
    apply Forall_cons. split; [exact Hwf'|exact Hobs].
Qed.

(** ** What the invariant says to an observer *)

Section Counting.
Context {A B : Type}.

Lemma length_le_1 (l : list A) a :
  NoDup l → (∀ x, x ∈ l → x = a) → length l ≤ 1.
Proof.
  destruct l as [|x [|y l]]; cbn; [lia..|]. intros Hnd H. exfalso.
  apply NoDup_cons in Hnd as [Hx _]. apply Hx.
  rewrite (H x), (H y); [left|right; left|left].
Qed.

Lemma length_le_2 (l : list A) a b :
  NoDup l → (∀ x, x ∈ l → x = a ∨ x = b) → length l ≤ 2.
Proof.
  destruct l as [|x [|y [|z l]]]; cbn; [lia..|]. intros Hnd H. exfalso.
  apply NoDup_cons in Hnd as [Hx [Hy _]%NoDup_cons].
  apply not_elem_of_cons in Hx as [Hxy [Hxz _]%not_elem_of_cons].
  apply not_elem_of_cons in Hy as [Hyz _].
  destruct (H x), (H y), (H z); try congruence;
    repeat first [ left | right ].
Qed.

Lemma filter_none (P : A → Prop) `{∀ x, Decision (P x)} (l : list A) :
  Forall (λ x, ¬ P x) l → filter P l = [].
Proof.
  induction 1 as [|x l Hx _ IH]; [done|]. by rewrite filter_cons_False.
Qed.

Lemma filter_same_image `{EqDecision B} (f : A → B) (l : list A) a :
  NoDup (f <$> l) → a ∈ l → filter (λ x, f x = f a) l = [a].
Proof.
  intros Hnd (l1 & l2 & ->)%list_elem_of_split.
  apply NoDup_fmap_middle, Forall_app in Hnd as [H1 H2].
  rewrite filter_app, filter_cons_True by done.
  by rewrite !filter_none.
Qed.
End Counting.

Lemma selected_tabs_one s cur :
  NoDup (id_of s <$> tabList s) → selected s = Some cur → cur ∈ tabList s →
  length (selected_tabs s) = 1.
Proof.
  intros Hnd Hsel Hin. unfold selected_tabs. rewrite Hsel.
  by rewrite (filter_same_image (id_of s)).
Qed.

Lemma elem_of_visible_tabs s r :
  r ∈ visible_tabs s ↔ is_visible s r = true ∧ r ∈ tabList s.
Proof. unfold visible_tabs. by rewrite list_elem_of_filter. Qed.

Lemma wf_single_selection s : wf s → single_selection s.
Proof.
  intros Hwf Hne. pose proof (wf_selected _ Hwf) as Hsel.
  destruct (selected s) as [cur|] eqn:Hcur; [|done]. split.
  - apply (length_le_1 _ cur).
    + apply NoDup_filter. eapply NoDup_fmap_1, wf_ids, Hwf.
    + intros r [Hv Hr]%elem_of_visible_tabs.
      pose proof (wf_visible _ Hwf r Hr Hv). congruence.
  - eapply selected_tabs_one; [by apply wf_ids|done..].
Qed.

Lemma wf_empty_unselected s : wf s → tabList s = [] → selected s = None.
Proof.
  intros Hwf Hnil. pose proof (wf_selected _ Hwf) as Hsel.
  destruct (selected s); [|done]. rewrite Hnil in Hsel. by apply elem_of_nil in Hsel.
Qed.

Lemma wf_created_selection tab s :
  wf_created tab s →
  (∀ r, r ∈ visible_tabs s → selected s = Some r ∨ r = tab) ∧
  length (visible_tabs s) ≤ 2 ∧ length (selected_tabs s) = 1.
Proof.
  intros [Hids (cur & Hcur & Hin) Hvis].
  assert (∀ r, r ∈ visible_tabs s → selected s = Some r ∨ r = tab) as H.
  { intros r [Hv Hr]%elem_of_visible_tabs. by apply Hvis. }
  split; [done|]. split.
  - apply (length_le_2 _ cur tab).
    + apply NoDup_filter. by eapply NoDup_fmap_1.
    + intros r [Hr| ->]%H; [left; congruence|by right].
  - by eapply selected_tabs_one.
Qed.

(** * Properties *)

(** ** Layout *)

(** C5. The layout recomputation of a tab attached to a window that reports
    the size (winWidth, winHeight) succeeds and sets the bounds of the surface
    to x = padding, y = chromeHeight + padding, width = winWidth - 2 * padding,
    height = winHeight - chromeHeight - 2 * padding, where the chrome height is
    62 and the padding 4; for 800 x 600 that is {x:4, y:66, width:792,
    height:530}.  [show] leaves the same bounds and makes the tab visible. *)
Theorem invalidateLayout_bounds s this t winWidth winHeight :
  heap s !! this = Some t → tab_window t = true → tab_view t = true →
  win_size (browserWindow s) = (winWidth, winHeight) →
  let b := Bounds.mk padding (toolbarHeight + padding)
                     (winWidth - 2 * padding)
                     (winHeight - toolbarHeight - 2 * padding) in
  toolbarHeight = 62%Z ∧ padding = 4%Z ∧
  (∃ s', Tab_invalidateLayout this s = (Ok tt, s', []) ∧
         view_bounds <$> heap s' !! this = Some (Some b)) ∧
  (∃ s', Tab_show this s = (Ok tt, s', []) ∧
         view_bounds <$> heap s' !! this = Some (Some b) ∧
         is_visible s' this = true) ∧
  ((winWidth, winHeight) = (800, 600)%Z → b = Bounds.mk 4 66 792 530).
Proof.
  intros Ht Hw Hv Hsz b.
  assert (layout (win_size (browserWindow s)) = b) as Hb.
  { rewrite Hsz. unfold layout, b. cbn [fst snd]. f_equal; lia. }
  split; [done|]. split; [done|]. split; [|split].
  - eexists. split; [by apply Tab_invalidateLayout_live|].
    erewrite heap_touch_eq by done. cbn. by rewrite Hb.
  - eexists. split; [by apply Tab_show_live|]. unfold is_visible.
    erewrite heap_touch_eq by done. cbn. by rewrite Hb.
  - intros [= -> ->]. reflexivity.
Qed.

Lemma invalidateLayout_bounds_witness :
  let s := snd (fst (Tabs_create 7 (Tabs_new [] win0))) in
  ∃ s', Tab_invalidateLayout 0 s = (Ok tt, s', []) ∧
        view_bounds <$> heap s' !! 0 = Some (Some (Bounds.mk 4 66 792 530)).
Proof.
  intros s.
  refine (proj1 (proj2 (proj2 (invalidateLayout_bounds s 0
    (mkTab 7 true true true false true (Some (Bounds.mk 4 66 792 530)) (Some 8%Z) 2
           false false 0) 800 600 _ _ _ _))));
    reflexivity.
Defined.

(** ** Lifecycle of a tab *)

Lemma is_destroyed_Some s r :
  is_destroyed s r = true →
  ∃ t, heap s !! r = Some t ∧ tab_destroyed t = true ∧ tab_window t = false.
Proof.
  unfold is_destroyed. destruct (heap s !! r) as [t|]; [|done]. intros H. exists t.
  destruct (tab_destroyed t), (tab_window t); naive_solver.
Qed.

Lemma is_destroyed_destroyedTab t :
  tab_destroyed (destroyedTab t) && negb (tab_window (destroyedTab t))
  && negb (tab_view (destroyedTab t)) && negb (tab_webContents (destroyedTab t))
  && wc_destroyed (destroyedTab t) && negb (view_visible (destroyedTab t)) = true.
Proof.
  unfold destroyedTab, finalized. cbn.
  by destruct (wc_destroyed t) eqn:Hd, (wc_devTools t); cbn; rewrite ?Hd.
Qed.

Lemma is_destroyed_destroyedS s r : is_live s r = true → is_destroyed (destroyedS r s) r = true.
Proof.
  intros (t & Ht & _)%is_live_Some. unfold is_destroyed, destroyedS.
  rewrite heap_on_tab, decide_True, Ht by done. apply is_destroyed_destroyedTab.
Qed.

Section DestroyedTab.
Variables (s : State) (this : nat).
Hypothesis Hdestroyed : is_destroyed s this = true.

Lemma Tab_destroy_again : Tab_destroy this s = (Ok tt, s, []).
Proof.
  destruct (is_destroyed_Some _ _ Hdestroyed) as (t & Ht & Hd & _).
  unfold Tab_destroy. erewrite bind_deref by exact Ht. by rewrite Hd.
Qed.

Lemma Tab_show_destroyed : Tab_show this s = (Throw TypeError, s, []).
Proof.
  destruct (is_destroyed_Some _ _ Hdestroyed) as (t & Ht & _ & Hw).
  unfold Tab_show, Tab_invalidateLayout. rewrite !bind_assoc.
  erewrite bind_deref by exact Ht. by rewrite Hw.
Qed.

Lemma Tab_hide_destroyed : Tab_hide this s = (Throw TypeError, s, []).
Proof.
  destruct (is_destroyed_Some _ _ Hdestroyed) as (t & Ht & _ & Hw).
  unfold Tab_hide, Tab_stopResizeListener. rewrite !bind_assoc.
  erewrite bind_deref by exact Ht. by rewrite Hw.
Qed.

Lemma tab_calls_destroyed cs : tab_calls cs this s = s.
Proof.
  induction cs as [|c cs IH]; [done|]. cbn [tab_calls].
  destruct c; cbn [tab_call];
    by rewrite ?Tab_show_destroyed, ?Tab_hide_destroyed, ?Tab_destroy_again.
Qed.
End DestroyedTab.

(** C3, as stated, fails: [show] on a destroyed tab throws, because the window
    back-reference it starts from has been cleared. *)
Lemma destroyed_calls_are_noops_fails : ¬ destroyed_calls_are_noops.
Proof.
  intros H.
  pose (s := snd (fst (Tab_new 7 true (Tabs_new [] win0)))).
  specialize (H s 0 (newTab 7) (snd (fst (Tab_destroy 0 s))) eq_refl eq_refl eq_refl CallShow).
  vm_compute in H. discriminate H.
Qed.

(** C3, amended.  Once [destroy] has completed on a tab, the tab stays
    destroyed: a further [destroy] returns normally, [show] and [hide] are
    rejected with a TypeError, each of the three delivers no notification and
    leaves the whole state as it was, and so does every series of them. *)
Theorem destroyed_tab_is_inert s this t :
  heap s !! this = Some t → liveb t = true →
  ∃ s', Tab_destroy this s = (Ok tt, s', []) ∧
        is_destroyed s' this = true ∧
        Tab_destroy this s' = (Ok tt, s', []) ∧
        Tab_show this s' = (Throw TypeError, s', []) ∧
        Tab_hide this s' = (Throw TypeError, s', []) ∧
        ∀ cs, tab_calls cs this s' = s' ∧ is_destroyed (tab_calls cs this s') this = true.
Proof.
  intros Ht Hl. assert (is_live s this = true) as Hlive.
  { unfold is_live. by rewrite Ht. }
  pose proof (is_destroyed_destroyedS _ _ Hlive) as Hd.
  exists (destroyedS this s). split; [by apply Tab_destroy_destroyedS|].
  split; [done|]. split; [by apply Tab_destroy_again|].
  split; [by apply Tab_show_destroyed|]. split; [by apply Tab_hide_destroyed|].
  intros cs. by rewrite tab_calls_destroyed.
Qed.

Lemma destroyed_tab_is_inert_witness :
  let s := snd (fst (Tab_new 7 true (Tabs_new [] win0))) in
  ∃ s', Tab_destroy 0 s = (Ok tt, s', []) ∧
        is_destroyed s' 0 = true ∧
        Tab_destroy 0 s' = (Ok tt, s', []) ∧
        Tab_show 0 s' = (Throw TypeError, s', []) ∧
        Tab_hide 0 s' = (Throw TypeError, s', []) ∧
        ∀ cs, tab_calls cs 0 s' = s' ∧ is_destroyed (tab_calls cs 0 s') 0 = true.
Proof.
  intros s. apply (destroyed_tab_is_inert s 0 (newTab 7)); reflexivity.
Defined.

(** ** Resize subscriptions *)

(** Every [show] adds a subscription; nothing looks for one already there. *)
Lemma Tab_show_subscribes s this :
  is_live s this = true →
  ∃ s', Tab_show this s = (Ok tt, s', []) ∧
        subscriptions s' this = S (subscriptions s this) ∧ is_live s' this = true.
Proof.
  intros Hl. exists (shownS this s). split; [by apply Tab_show_shownS|].
  destruct (is_live_Some _ _ Hl) as (t & Ht & _). split.
  - unfold subscriptions, shownS, on_tab. rewrite Ht. cbn. unfold on.
    rewrite filter_app, length_app, filter_cons_True by done. cbn. lia.
  - unfold shownS. by rewrite is_live_on_tab_same.
Qed.

(** C4 does not hold of the code.  A tab is built on a window and shown twice
    in a row: it then holds two subscriptions to the resize notification, and
    one resize of the window recomputes its layout twice. *)
Theorem show_twice_subscribes_twice :
  let s0 := snd (fst (Tab_new 7 true (Tabs_new [] win0))) in
  let s1 := snd (fst (Tab_show 0 s0)) in
  let s2 := snd (fst (Tab_show 0 s1)) in
  let s3 := snd (fst (resize (1024, 768)%Z s2)) in
  subscriptions s0 0 = 0 ∧ subscriptions s1 0 = 1 ∧ subscriptions s2 0 = 2 ∧
  fst (fst (resize (1024, 768)%Z s2)) = Ok tt ∧
  layouts s3 0 = layouts s2 0 + 2.
Proof. vm_compute. repeat split. Qed.

(** The same happens inside [Tabs.create] whenever a tab is already selected
    ([show] runs once directly and once through [select]).  Such a tab keeps
    a subscription when it is hidden, and is laid out again on every resize;
    it keeps one when it is removed while selected, and the next resize makes
    the stale listener throw. *)
Lemma create_second_tab_subscribes_twice :
  let s2 := run [Create 1; Create 2] (Tabs_new [] win0) in
  let s3 := run [Select 1] s2 in
  let s4 := run [Remove 2] s2 in
  subscriptions s2 1 = 2 ∧
  is_visible s3 1 = false ∧ subscriptions s3 1 = 1 ∧
  layouts (snd (fst (resize (1024, 768)%Z s3))) 1 = layouts s3 1 + 1 ∧
  is_destroyed s4 1 = true ∧ subscriptions s4 1 = 1 ∧
  fst (fst (resize (1024, 768)%Z s4)) = Throw TypeError.
Proof. vm_compute. repeat split. Qed.

(** ** Unknown ids *)

(** C7. [remove] of an id that no tab of the collection carries throws the
    not-found error and leaves the collection, the tabs and the window exactly
    as they were, without any notification. *)
Theorem remove_absent_raises s tabId :
  absent tabId s → Tabs_remove tabId s = (Throw (NotFoundError tabId), s, []).
Proof. apply Tabs_remove_missing. Qed.

(** C8. [select] of an id that resolves to no tab of the collection returns
    normally, emits nothing and leaves the whole state (selection and every
    tab's visibility included) as it was. *)
Theorem select_absent_noop s tabId :
  absent tabId s → Tabs_select tabId s = (Ok tt, s, []).
Proof. apply Tabs_select_missing. Qed.

Lemma remove_absent_raises_witness :
  let s := run [Create 1; Create 2] (Tabs_new [] win0) in
  Tabs_remove 99 s = (Throw (NotFoundError 99), s, []).
Proof.
  intros s. apply (remove_absent_raises s 99). apply Tabs_get_None.
  vm_compute. reflexivity.
Defined.

Lemma select_absent_noop_witness :
  let s := run [Create 1; Create 2] (Tabs_new [] win0) in
  Tabs_select 99 s = (Ok tt, s, []) ∧ selected s = Some 1.
Proof.
  intros s. split; [|vm_compute; reflexivity].
  apply (select_absent_noop s 99). apply Tabs_get_None. vm_compute. reflexivity.
Defined.

(** ** Single selection *)

(** C1, as stated, fails where [tab-created] is emitted for a second tab:
    [create] shows the new tab before it notifies, and hides the previously
    selected one only afterwards, in [select]; the listener sees both shown. *)
Lemma single_selection_everywhere_fails : ¬ single_selection_everywhere.
Proof.
  intros H. specialize (H [] win0 [Create 1; Create 2]).
  assert (NoDup (created [Create 1; Create 2])) as Hnd.
  { cbn. apply NoDup_cons. split; [|apply NoDup_singleton].
    intros [=]%list_elem_of_singleton. }
  apply H in Hnd.
  eapply (Forall_lookup_1 _ _ 4) in Hnd; [|vm_compute; reflexivity].
  destruct Hnd as [Hvis _].
  - intros Hnil. vm_compute in Hnil. discriminate Hnil.
  - vm_compute in Hvis. lia.
Qed.

(** C1, amended.  For every series of create/select/remove calls in which the
    host hands out distinct ids: whenever a call has returned or thrown, and
    wherever [tab-selected] or [tab-destroyed] is emitted, at most one tab of
    a non-empty collection is shown and exactly one tab of the sequence
    carries the selected id (and the selection of an empty collection is
    unset); where [tab-created] is emitted exactly one tab carries the
    selected id and the only tabs shown are the selected one and the new one,
    so at most two. *)
Theorem single_selection_observed h w ops :
  NoDup (created ops) → Forall observed_ok (observations ops (Tabs_new h w)).
Proof.
  intros Hnd. assert (Forall obs_ok (observations ops (Tabs_new h w))) as H.
  { apply Forall_cons. split; [apply wf_Tabs_new|].
    apply observe_ok; [apply wf_Tabs_new|done|]. by intros i _ r ?%elem_of_nil. }
  eapply Forall_impl; [exact H|]. intros [[[tab|tab|tab]|] s]; unfold obs_ok, observed_ok;
    cbn [fst snd]; intros Hs;
    first [ by apply wf_created_selection
          | split; [by apply wf_single_selection|by apply wf_empty_unselected] ].
Qed.

Lemma single_selection_observed_witness :
  let ops := [Create 1; Create 2; Select 1; Remove 1] in
  NoDup (created ops) ∧ Forall observed_ok (observations ops (Tabs_new [] win0)).
Proof.
  intros ops.
  assert (NoDup (created ops)) as Hnd.
  { cbn. apply NoDup_cons. split; [|apply NoDup_singleton].
    intros [=]%list_elem_of_singleton. }
  split; [exact Hnd|]. exact (single_selection_observed [] win0 ops Hnd).
Defined.

(** ** Removal *)

Lemma heap_selectS_other tab s r :
  r ≠ tab → selected s ≠ Some r → heap (selectS tab s) !! r = heap s !! r.
Proof.
  intros Hne Hsel. unfold selectS, shownS, hiddenS. cbn [heap set_selected].
  rewrite heap_on_tab, decide_False by done.
  destruct (selected s) as [cur|]; [|done].
  rewrite heap_on_tab, decide_False; [done|congruence].
Qed.

Lemma is_visible_selectS_target tab s :
  is_live s tab = true → is_visible (selectS tab s) tab = true.
Proof.
  intros Hl. unfold selectS, shownS.
  change (is_visible (set_selected ?o ?s') tab) with (is_visible s' tab).
  apply is_visible_on_tab_eq; [done|].
  destruct (selected s); [|done]. unfold hiddenS. by rewrite is_live_on_tab_same.
Qed.

(** C2. When the selected tab is removed and other tabs remain, the tab that
    slid into its index becomes selected, or the new last tab when the removed
    one was last.  In particular, of [A,B,C] with B selected, removing B
    selects C, and with C selected, removing C selects B. *)
Theorem remove_selected_tie_break s l1 tab l2 tabId :
  wf s → tabList s = l1 ++ tab :: l2 → id_of s tab = Some tabId →
  selected s = Some tab → l1 ++ l2 ≠ [] →
  ∃ s' l, Tabs_remove tabId s = (Ok tt, s', l) ∧
    tabList s' = l1 ++ l2 ∧
    selected s' = match tabList s' !! length l1 with
                  | Some n => Some n
                  | None => last (tabList s')
                  end ∧
    (∀ a c, l1 = [a] → l2 = [c] → selected s' = Some c) ∧
    (∀ a b, l1 = [a; b] → l2 = [] → selected s' = Some b).
Proof.
  intros Hwf Hlist Hid Hsel Hne. do 2 eexists. split; [by apply Tabs_remove_found|].
  unfold removeS. rewrite decide_True by done.
  destruct (next_after l1 l2) as [n|] eqn:Hn.
  2:{ apply next_after_None in Hn as [-> ->]. done. }
  cbn [fst]. rewrite tabList_selectS, selected_selectS. cbn [tabList set_selected].
  erewrite tabList_removed by done. split; [done|]. split; [|split].
  - rewrite lookup_app_r, Nat.sub_diag by lia. unfold next_after in Hn.
    destruct l2 as [|m l2]; cbn; [|done]. by rewrite app_nil_r.
  - intros a c -> ->. by rewrite <-Hn.
  - intros a b -> ->. by rewrite <-Hn.
Qed.

Lemma remove_selected_tie_break_witness :
  let s := run [Create 10; Create 20; Create 30; Select 20] (Tabs_new [] win0) in
  tabList s = [0; 1; 2] ∧ selected s = Some 1 ∧
  ∃ s' l, Tabs_remove 20 s = (Ok tt, s', l) ∧ tabList s' = [0; 2] ∧ selected s' = Some 2.
Proof.
  intros s. split; [vm_compute; reflexivity|]. split; [vm_compute; reflexivity|].
  assert (wf s) as Hwf.
  { apply observe_ok; [apply wf_Tabs_new| |by intros i _ r ?%elem_of_nil].
    apply (bool_decide_unpack _). vm_compute. exact I. }
  destruct (remove_selected_tie_break s [0] 1 [2] 20 Hwf)
    as (s' & l & Hrun & Hl & _ & Hb & _).
  - vm_compute. reflexivity.
  - vm_compute. reflexivity.
  - vm_compute. reflexivity.
  - discriminate.
  - exists s', l. split; [exact Hrun|]. split; [exact Hl|]. by apply (Hb 0 2).
Defined.

(** ** Teardown *)

Lemma terminal_absent s tabId : terminal s → absent tabId s.
Proof. intros (Hnil & _) r. rewrite Hnil. by intros ?%elem_of_nil. Qed.

Lemma terminal_call op s : terminal s → snd (fst (call op s)) = s ∧ snd (call op s) = [].
Proof.
  intros Ht. pose proof Ht as (Hnil & Hsel & Hwin). destruct op as [i|i|i]; cbn [call].
  - by rewrite (bind_throw _ _ _ _ _ _ (Tabs_create_no_window i s Hwin)).
  - by rewrite Tabs_select_missing by by apply terminal_absent.
  - by rewrite Tabs_remove_missing by by apply terminal_absent.
Qed.

Lemma terminal_run ops s : terminal s → run ops s = s.
Proof.
  intros Ht. induction ops as [|op ops IH]; [done|]. cbn [run].
  by rewrite (proj1 (terminal_call op s Ht)).
Qed.

Lemma terminal_destroy s : terminal s → Tabs_destroy s = (Ok tt, s, []).
Proof.
  destruct s as [h w l sel win]. intros (Hnil & Hsel & Hwin). cbn in *. by subst.
Qed.

(** C6. Removing the only tab of a collection destroys the collection: the
    tab is destroyed, the sequence is empty, the selection is cleared, the
    window reference is dropped, and [destroy] has been called on the window
    exactly once: once during this call, and never again, since no later
    create, select, remove or destroy changes the state at all. *)
Theorem remove_last_tab_teardown s tab tabId :
  wf s → tabList s = [tab] → id_of s tab = Some tabId →
  ∃ s' l, Tabs_remove tabId s = (Ok tt, s', l) ∧
    tabList s' = [] ∧ selected s' = None ∧ window s' = false ∧
    is_destroyed s' tab = true ∧
    win_destroyCalls (browserWindow s') = S (win_destroyCalls (browserWindow s)) ∧
    (∀ ops, run ops s' = s') ∧
    Tabs_destroy s' = (Ok tt, s', []).
Proof.
  intros Hwf Hlist Hid.
  assert (selected s = Some tab) as Hsel.
  { pose proof (wf_selected _ Hwf) as Hs. rewrite Hlist in Hs.
    destruct (selected s) as [cur|]; [|done]. by apply list_elem_of_singleton in Hs as ->. }
  do 2 eexists. split; [by apply (Tabs_remove_found s [] tab [])|].
  unfold removeS. rewrite decide_True by done. cbn [next_after last fst app].
  set (s1 := destroyedS tab (set_tabList [] s)).
  assert (window s1 = true) as Hwin.
  { unfold s1, destroyedS. rewrite window_on_tab.
    exact (removed_window s [] tab [] Hwf Hlist). }
  assert (terminal (teardownS (set_selected None s1))) as Hterm.
  { unfold teardownS. cbn [window set_selected]. by rewrite Hwin. }
  destruct Hterm as (Hnil & Hnone & Hgone).
  split; [done|]. split; [done|]. split; [done|]. split; [|split; [|split]].
  - unfold teardownS. cbn [window set_selected]. rewrite Hwin.
    change (is_destroyed s1 tab = true). apply is_destroyed_destroyedS.
    exact (removed_live s [] tab [] Hwf Hlist).
  - unfold teardownS. cbn [window set_selected]. rewrite Hwin. cbn. f_equal.
    unfold s1, destroyedS. by rewrite destroyCalls_on_tab.
  - intros ops. by apply terminal_run.
  - by apply terminal_destroy.
Qed.

Lemma remove_last_tab_teardown_witness :
  let s := run [Create 10] (Tabs_new [] win0) in
  tabList s = [0] ∧
  ∃ s' l, Tabs_remove 10 s = (Ok tt, s', l) ∧
    tabList s' = [] ∧ selected s' = None ∧ window s' = false ∧
    win_destroyCalls (browserWindow s') = 1.
Proof.
  intros s. split; [vm_compute; reflexivity|].
  assert (wf s) as Hwf.
  { apply observe_ok; [apply wf_Tabs_new| |by intros i _ r ?%elem_of_nil].
    apply (bool_decide_unpack _). vm_compute. exact I. }
  destruct (remove_last_tab_teardown s 0 10 Hwf)
    as (s' & l & Hrun & Hl & Hs & Hw & _ & Hn & _).
  - vm_compute. reflexivity.
  - vm_compute. reflexivity.
  - exists s', l. split; [exact Hrun|]. split; [exact Hl|]. split; [exact Hs|].
    split; [exact Hw|]. rewrite Hn. vm_compute. reflexivity.
Defined.

(** ** Order of mutation and notification *)

Lemma is_destroyed_heap s s' r :
  heap s' !! r = heap s !! r → is_destroyed s' r = is_destroyed s r.
Proof. unfold is_destroyed. by intros ->. Qed.

(** C9. [remove] of an id carried by a tab of the collection emits
    [tab-destroyed] for that tab, once, and what the listener then sees is a
    collection whose sequence no longer holds the tab (nor any tab with that
    id) and a tab whose destruction is complete. *)
Theorem tab_destroyed_after_removal s tab tabId :
  wf s → tab ∈ tabList s → id_of s tab = Some tabId →
  ∃ s' l, Tabs_remove tabId s = (Ok tt, s', l) ∧
    (∃ st, filter (λ p, is_TabDestroyed (fst p) = true) l = [(TabDestroyed tab, st)]) ∧
    ∀ r st, (TabDestroyed r, st) ∈ l →
      r = tab ∧ (tab ∉ tabList st) ∧ absent tabId st ∧ is_destroyed st tab = true.
Proof.
  intros Hwf (l1 & l2 & Hlist)%list_elem_of_split Hid.
  do 2 eexists. split; [by apply Tabs_remove_found|].
  set (s1 := destroyedS tab (set_tabList (l1 ++ l2) s)).
  pose proof (removed_not_elem s l1 tab l2 Hwf Hlist) as Hnotin.
  assert (is_destroyed s1 tab = true) as Hd.
  { apply is_destroyed_destroyedS. exact (removed_live s l1 tab l2 Hwf Hlist). }
  assert (∀ r, r ∈ l1 ++ l2 → id_of s1 r ≠ Some tabId) as Habs.
  { intros r Hr. unfold s1. erewrite id_of_removed by done. rewrite <-Hid.
    pose proof (wf_ids _ Hwf) as Hnd. rewrite Hlist in Hnd.
    apply NoDup_fmap_middle in Hnd. by eapply Forall_forall in Hnd. }
  assert (∀ st, tabList st = l1 ++ l2 → heap st !! tab = heap s1 !! tab →
                (∀ r, id_of st r = id_of s1 r) →
                (tab ∉ tabList st) ∧ absent tabId st ∧ is_destroyed st tab = true) as Hst.
  { intros st Htl Hh Hids. split; [by rewrite Htl|]. split.
    - intros r. rewrite Htl, Hids. apply Habs.
    - by rewrite (is_destroyed_heap s1). }
  unfold removeS. fold s1. case_decide as Hsel.
  - destruct (next_after l1 l2) as [n|] eqn:Hn; cbn [fst snd].
    + set (s3 := selectS n (set_selected None s1)).
      assert ((tab ∉ tabList s3) ∧ absent tabId s3 ∧ is_destroyed s3 tab = true) as H3.
      { apply Hst.
        - unfold s3. rewrite tabList_selectS. by eapply tabList_removed.
        - unfold s3. rewrite heap_selectS_other; [done| |done].
          intros ->. by apply Hnotin, next_after_elem.
        - intros r. unfold s3. by rewrite id_of_selectS. }
      split.
      * exists s3. rewrite filter_cons_False by done.
        by rewrite filter_cons_True by done.
      * intros r st [[=]|[[= -> ->]|[]%elem_of_nil]%elem_of_cons]%elem_of_cons. done.
    + assert ((tab ∉ tabList (set_selected None s1)) ∧ absent tabId (set_selected None s1)
              ∧ is_destroyed (set_selected None s1) tab = true) as H2.
      { apply Hst; [by eapply tabList_removed|done..]. }
      split.
      * eexists. by rewrite filter_cons_True by done.
      * intros r st [[= -> ->]|[]%elem_of_nil]%elem_of_cons. done.
  - cbn [fst snd].
    assert ((tab ∉ tabList s1) ∧ absent tabId s1 ∧ is_destroyed s1 tab = true) as H1.
    { apply Hst; [by eapply tabList_removed|done..]. }
    split.
    + eexists. by rewrite filter_cons_True by done.
    + intros r st [[= -> ->]|[]%elem_of_nil]%elem_of_cons. done.
Qed.

Lemma tab_destroyed_after_removal_witness :
  let s := run [Create 10; Create 20; Create 30] (Tabs_new [] win0) in
  tabList s = [0; 1; 2] ∧
  ∃ s' l, Tabs_remove 30 s = (Ok tt, s', l) ∧
    ∀ r st, (TabDestroyed r, st) ∈ l →
      r = 2 ∧ (2 ∉ tabList st) ∧ absent 30 st ∧ is_destroyed st 2 = true.
Proof.
  intros s. split; [vm_compute; reflexivity|].
  assert (wf s) as Hwf.
  { apply observe_ok; [apply wf_Tabs_new| |by intros i _ r ?%elem_of_nil].
    apply (bool_decide_unpack _). vm_compute. exact I. }
  destruct (tab_destroyed_after_removal s 2 30 Hwf) as (s' & l & Hrun & _ & H).
  - change (2 ∈ [0; 1; 2]). do 2 right. left.
  - vm_compute. reflexivity.
  - exists s', l. split; [exact Hrun|exact H].
Defined.

(** ** Creation *)

(** C10. [create] on a collection that has its window, with an id no tab of
    the sequence carries, returns a new tab that is appended at the end of
    the sequence, is the selected tab and the only tab shown, whether or not
    another tab was selected before. *)
Theorem create_selects_new_tab s hostId :
  wf s → window s = true → absent hostId s →
  ∃ tab s' l, Tabs_create hostId s = (Ok tab, s', l) ∧
    (tab ∉ tabList s) ∧ tabList s' = tabList s ++ [tab] ∧
    selected s' = Some tab ∧ id_of s' tab = Some hostId ∧
    is_visible s' tab = true ∧ (∀ r, r ∈ tabList s → is_visible s' r = false).
Proof.
  intros Hwf Hwin Hfresh. pose proof (wf_live _ Hwf) as Hlive.
  exists (length (heap s)), (createS hostId s). eexists. split.
  { apply Tabs_create_live; try done.
    intros cur Hcur. pose proof (wf_selected _ Hwf) as Hs. by rewrite Hcur in Hs. }
  pose proof (tab_fresh s Hlive) as Hnew.
  split; [done|]. unfold createS. split; [|split; [|split; [|split]]].
  - by rewrite tabList_selectS, tabList_attachedS.
  - apply selected_selectS.
  - by rewrite id_of_selectS, id_of_attachedS_new.
  - apply is_visible_selectS_target. by apply is_live_attachedS_new.
  - intros r Hr. destruct (is_visible _ r) eqn:Hv; [exfalso|done].
    pose proof (wf_create hostId s Hwf Hwin Hfresh) as Hwf'.
    apply (wf_visible _ Hwf') in Hv.
    + unfold createS in Hv. rewrite selected_selectS in Hv. congruence.
    + unfold createS. rewrite tabList_selectS, tabList_attachedS by done.
      apply elem_of_app. by left.
Qed.

Lemma create_selects_new_tab_witness :
  let s := run [Create 10; Create 20; Select 10] (Tabs_new [] win0) in
  selected s = Some 0 ∧
  ∃ tab s' l, Tabs_create 30 s = (Ok tab, s', l) ∧
    tabList s' = [0; 1; tab] ∧ selected s' = Some tab.
Proof.
  intros s. split; [vm_compute; reflexivity|].
  assert (wf s) as Hwf.
  { apply observe_ok; [apply wf_Tabs_new| |by intros i _ r ?%elem_of_nil].
    apply (bool_decide_unpack _). vm_compute. exact I. }
  destruct (create_selects_new_tab s 30 Hwf) as (tab & s' & l & Hrun & _ & Hl & Hs & _).
  - vm_compute. reflexivity.
  - apply Tabs_get_None. vm_compute. reflexivity.
  - exists tab, s', l. split; [exact Hrun|]. split; [exact Hl|exact Hs].
Defined.

(** * Further properties of the code *)

(** ** Listener lists *)

Lemma off_absent r l : r ∉ l → off r l = l.
Proof.
  induction l as [|x l IH]; [done|]. intros [Hx Hl]%not_elem_of_cons. cbn.
  rewrite bool_decide_eq_false_2 by done. cbn. by rewrite IH.
Qed.

Lemma off_on r l : off r (on r l) = l.
Proof.
  unfold on. induction l as [|x l IH]; cbn.
  - rewrite bool_decide_eq_true_2 by done. cbn.
    by rewrite bool_decide_eq_false_2 by apply not_elem_of_nil.
  - rewrite (bool_decide_eq_true_2 (r ∈ l ++ [r])).
    + rewrite andb_false_r. by rewrite IH.
    + apply elem_of_app. right. left.
Qed.

Lemma registrations_cons r x l :
  registrations r (x :: l) = (if decide (x = r) then 1 else 0) + registrations r l.
Proof.
  unfold registrations. case_decide.
  - by rewrite filter_cons_True.
  - by rewrite filter_cons_False.
Qed.

Lemma registrations_0 r l : registrations r l = 0 ↔ r ∉ l.
Proof.
  induction l as [|x l IH]; [split; [intros _; apply not_elem_of_nil|done]|].
  rewrite registrations_cons, not_elem_of_cons, <-IH.
  destruct (decide (x = r)) as [->|Hne]; [split; [lia|intros [[] _]; done]|].
  split; [intros H; split; [congruence|lia]|intros [_ H]; lia].
Qed.

Lemma registrations_on r r' l :
  registrations r' (on r l) = registrations r' l + (if decide (r = r') then 1 else 0).
Proof.
  unfold registrations, on. rewrite filter_app, length_app. f_equal.
  case_decide.
  - by rewrite filter_cons_True.
  - by rewrite filter_cons_False.
Qed.

Lemma registrations_off r r' l :
  registrations r' (off r l) =
    if decide (r = r') then pred (registrations r' l) else registrations r' l.
Proof.
  destruct (decide (r = r')) as [<-|Hne].
  - induction l as [|x l IH]; [done|]. cbn [off]. rewrite registrations_cons.
    destruct (decide (x = r)) as [->|Hx].
    + rewrite bool_decide_eq_true_2 by done. cbn [andb].
      destruct (decide (r ∈ l)) as [Hin|Hin].
      * rewrite bool_decide_eq_true_2 by done. cbn [negb].
        rewrite registrations_cons, decide_True, IH by done.
        assert (registrations r l ≠ 0) by (by rewrite registrations_0; intros []).
        lia.
      * rewrite bool_decide_eq_false_2 by done. done.
    + rewrite bool_decide_eq_false_2 by done. cbn [andb].
      by rewrite registrations_cons, decide_False, IH.
  - induction l as [|x l IH]; [done|]. cbn [off].
    destruct (bool_decide (x = r) && negb (bool_decide (r ∈ l))) eqn:Hb.
    + apply andb_prop in Hb as [->%bool_decide_eq_true _].
      by rewrite registrations_cons, decide_False.
    + by rewrite !registrations_cons, IH.
Qed.

(** ** Showing, hiding and destroying one tab *)

Lemma set_resizeListeners_same w :
  set_resizeListeners (win_resizeListeners w) w = w.
Proof. by destruct w. Qed.

Lemma subscriptions_touch this t' w' s r :
  subscriptions (touch this t' w' s) r = registrations r (win_resizeListeners w').
Proof. reflexivity. Qed.

Lemma listeners_unsubscribe this w :
  win_resizeListeners (unsubscribe this w) = off this (win_resizeListeners w).
Proof. reflexivity. Qed.

Lemma listeners_subscribe this w :
  win_resizeListeners (subscribe this w) = on this (win_resizeListeners w).
Proof. reflexivity. Qed.

Lemma unsubscribe_again this w :
  registrations this (win_resizeListeners w) ≤ 1 →
  unsubscribe this (unsubscribe this w) = unsubscribe this w.
Proof.
  intros Hle. unfold unsubscribe, set_resizeListeners. cbn. f_equal.
  apply off_absent, registrations_0.
  rewrite registrations_off, decide_True by done. lia.
Qed.

(** X1. [show] followed by [hide] on a tab in use leaves the window exactly
    as it was, the listener list included: the subscription [show] made is
    the one [hide] removes.  The tab ends hidden, laid out for the current
    window size, and no other object is touched. *)
Theorem show_then_hide_restores_window s this :
  is_live s this = true →
  ∃ s1 s2, Tab_show this s = (Ok tt, s1, []) ∧ Tab_hide this s1 = (Ok tt, s2, []) ∧
    browserWindow s2 = browserWindow s ∧
    is_visible s2 this = false ∧
    bounds_of s2 this = Some (layout (win_size (browserWindow s))) ∧
    (∀ r, r ≠ this → heap s2 !! r = heap s !! r) ∧
    tabList s2 = tabList s ∧ selected s2 = selected s ∧ window s2 = window s.
Proof.
  intros Hl. destruct (is_live_Some _ _ Hl) as (t & Ht & Hw & Hv & _).
  eexists _, _. split; [by apply Tab_show_live|].
  split; [apply Tab_hide_live; [by eapply heap_touch_eq|done..]|].
  cbn [browserWindow touch tabList selected window]. split; [|split; [|split]].
  - unfold unsubscribe, subscribe. cbn. rewrite off_on. by destruct (browserWindow s).
  - unfold is_visible. cbn [heap touch]. rewrite list_insert_insert_eq.
    by rewrite list_lookup_insert_eq by by eapply lookup_lt_Some.
  - unfold bounds_of. cbn [heap touch]. rewrite list_insert_insert_eq.
    by rewrite list_lookup_insert_eq by by eapply lookup_lt_Some.
  - split; [|done]. intros r Hr. cbn [heap touch].
    by rewrite !list_lookup_insert_ne.
Qed.

Lemma show_then_hide_restores_window_witness :
  let s := run [Create 1; Create 2] (Tabs_new [] win0) in
  ∃ s1 s2, Tab_show 0 s = (Ok tt, s1, []) ∧ Tab_hide 0 s1 = (Ok tt, s2, []) ∧
    browserWindow s2 = browserWindow s.
Proof.
  intros s.
  destruct (show_then_hide_restores_window s 0) as (s1 & s2 & H1 & H2 & Hw & _).
  - vm_compute. reflexivity.
  - by exists s1, s2.
Defined.

(** X2. [hide] on a tab in use never fails: the tab becomes invisible, one of
    its subscriptions to the resize notification is removed when it has any,
    and the subscriptions and objects of all other tabs stay as they are.  A
    second [hide] changes nothing at all, provided the tab held at most one
    subscription. *)
Theorem hide_removes_one_subscription s this :
  is_live s this = true →
  ∃ s', Tab_hide this s = (Ok tt, s', []) ∧
    is_visible s' this = false ∧ is_live s' this = true ∧
    subscriptions s' this = pred (subscriptions s this) ∧
    (∀ r, r ≠ this → subscriptions s' r = subscriptions s r ∧ heap s' !! r = heap s !! r) ∧
    (subscriptions s this ≤ 1 → Tab_hide this s' = (Ok tt, s', [])).
Proof.
  intros Hl. destruct (is_live_Some _ _ Hl) as (t & Ht & Hw & Hv & Hwc & Hd).
  eexists. split; [by apply Tab_hide_live|].
  assert (this < length (heap s)) as Hlt by by eapply lookup_lt_Some.
  split; [|split; [|split; [|split]]].
  - unfold is_visible. cbn [heap touch]. by rewrite list_lookup_insert_eq.
  - unfold is_live. cbn [heap touch]. rewrite list_lookup_insert_eq by done.
    unfold liveb. cbn. by rewrite Hw, Hv, Hwc, Hd.
  - rewrite subscriptions_touch, listeners_unsubscribe.
    by rewrite registrations_off, decide_True.
  - intros r Hr. split.
    + rewrite subscriptions_touch, listeners_unsubscribe.
      by rewrite registrations_off, decide_False.
    + cbn [heap touch]. by rewrite list_lookup_insert_ne.
  - intros Hle. erewrite Tab_hide_live; [|by eapply heap_touch_eq|done..].
    cbn [browserWindow touch]. by rewrite touch_touch, unsubscribe_again.
Qed.

Lemma hide_removes_one_subscription_witness :
  let s := run [Create 1; Create 2] (Tabs_new [] win0) in
  subscriptions s 1 = 2 ∧
  ∃ s', Tab_hide 1 s = (Ok tt, s', []) ∧ is_visible s' 1 = false ∧
        subscriptions s' 1 = 1.
Proof.
  intros s. split; [vm_compute; reflexivity|].
  destruct (hide_removes_one_subscription s 1) as (s' & H1 & H2 & _ & H3 & _).
  - vm_compute. reflexivity.
  - exists s'. split; [exact H1|]. split; [exact H2|]. rewrite H3.
    vm_compute. reflexivity.
Defined.

Lemma destroyedTab_fields t :
  tab_id (destroyedTab t) = tab_id t ∧
  view_bounds (destroyedTab t) = view_bounds t ∧
  wc_destroyed (destroyedTab t) = true ∧
  wc_destroyedEvents (destroyedTab t) =
    (if wc_destroyed t then 0 else 1) + wc_destroyedEvents t ∧
  wc_devTools (destroyedTab t) = (if wc_destroyed t then wc_devTools t else false).
Proof.
  unfold destroyedTab, finalized. cbn.
  by destruct (wc_destroyed t) eqn:Hd, (wc_devTools t) eqn:Hv; cbn; rewrite ?Hd, ?Hv.
Qed.

Lemma listeners_detach this w :
  win_resizeListeners (detach this w) = win_resizeListeners w.
Proof. reflexivity. Qed.

Lemma elem_of_childViews_detach r this w :
  r ∈ win_childViews (detach this (unsubscribe this w)) ↔
  r ≠ this ∧ r ∈ win_childViews w.
Proof.
  unfold detach, removeChildView, unsubscribe. cbn. by rewrite list_elem_of_filter.
Qed.

(** X3. [destroy] on a tab in use detaches its view from the window, removes
    one resize subscription, and destroys the [webContents] when the host has
    not done so already: only then are the dev tools closed and is the
    host-level [destroyed] event emitted, once.  It does not take the tab out
    of the collection: the sequence and the selection are as before, and so
    are all other tabs, their views and their subscriptions. *)
Theorem destroy_releases_surface s this t :
  heap s !! this = Some t → liveb t = true →
  ∃ s' t', Tab_destroy this s = (Ok tt, s', []) ∧ heap s' !! this = Some t' ∧
    (this ∉ win_childViews (browserWindow s')) ∧
    subscriptions s' this = pred (subscriptions s this) ∧
    wc_destroyed t' = true ∧
    wc_destroyedEvents t' = (if wc_destroyed t then 0 else 1) + wc_destroyedEvents t ∧
    wc_devTools t' = (if wc_destroyed t then wc_devTools t else false) ∧
    tab_id t' = tab_id t ∧
    tabList s' = tabList s ∧ selected s' = selected s ∧ window s' = window s ∧
    ∀ r, r ≠ this →
      heap s' !! r = heap s !! r ∧ subscriptions s' r = subscriptions s r ∧
      (r ∈ win_childViews (browserWindow s') ↔ r ∈ win_childViews (browserWindow s)).
Proof.
  intros Ht Hl. assert (is_live s this = true) as Hlive.
  { unfold is_live. by rewrite Ht. }
  destruct (is_live_Some _ _ Hlive) as (t0 & Ht0 & Hw & Hv & Hwc & Hd).
  assert (t0 = t) as -> by congruence.
  destruct (destroyedTab_fields t) as (Hid & _ & Hdes & Hev & Hdev).
  exists (touch this (destroyedTab t) (detach this (unsubscribe this (browserWindow s))) s),
         (destroyedTab t).
  split; [by apply Tab_destroy_live|]. split; [by eapply heap_touch_eq|].
  cbn [browserWindow touch tabList selected window].
  split; [|split; [|split; [|split; [|split; [|split; [|split; [|split; [|split]]]]]]]];
    try done.
  - rewrite elem_of_childViews_detach. by intros [? _].
  - rewrite subscriptions_touch, listeners_detach, listeners_unsubscribe.
    by rewrite registrations_off, decide_True.
  - intros r Hr. split; [|split].
    + cbn [heap touch]. by rewrite list_lookup_insert_ne.
    + rewrite subscriptions_touch, listeners_detach, listeners_unsubscribe.
      by rewrite registrations_off, decide_False.
    + rewrite elem_of_childViews_detach. split; [by intros [_ ?]|done].
Qed.

Lemma destroy_releases_surface_witness :
  let s := run [Create 1; Create 2] (Tabs_new [] win0) in
  ∃ s' t', Tab_destroy 1 s = (Ok tt, s', []) ∧ heap s' !! 1 = Some t' ∧
    wc_destroyedEvents t' = 1 ∧ tabList s' = [0; 1] ∧ selected s' = Some 1.
Proof.
  intros s.
  destruct (destroy_releases_surface s 1
    (mkTab 2 true true true false true (Some (Bounds.mk 4 66 792 530)) (Some 8%Z) 2
           false false 0))
    as (s' & t' & H1 & H2 & _ & _ & _ & H3 & _ & _ & H4 & H5 & _).
  - vm_compute. reflexivity.
  - reflexivity.
  - exists s', t'. split; [exact H1|]. split; [exact H2|]. split; [exact H3|].
    split; [rewrite H4|rewrite H5]; vm_compute; reflexivity.
Defined.

(** X4. [loadURL] and [reload] on a destroyed tab throw a TypeError at
    [this.view.webContents], before the host is reached and whatever the host
    would have done; nothing changes. *)
Theorem loadURL_reload_destroyed {U A} (webContents_loadURL : nat → U → M A)
    (webContents_reload : nat → M unit) s this url :
  is_destroyed s this = true →
  Tab_loadURL webContents_loadURL this url s = (Throw TypeError, s, []) ∧
  Tab_reload webContents_reload this s = (Throw TypeError, s, []).
Proof.
  unfold is_destroyed. destruct (heap s !! this) as [t|] eqn:Ht; [|done].
  intros H. assert (tab_view t = false) as Hv.
  { destruct (tab_view t); [|done]. by rewrite !andb_false_r in H. }
  unfold Tab_loadURL, Tab_reload.
  erewrite !bind_deref by exact Ht. by rewrite Hv.
Qed.

Lemma loadURL_reload_destroyed_witness :
  let s := run [Create 1; Create 2; Remove 2] (Tabs_new [] win0) in
  Tab_loadURL (λ _ (_ : nat), ret tt) 1 7 s = (Throw TypeError, s, []) ∧
  Tab_reload (λ _, ret tt) 1 s = (Throw TypeError, s, []).
Proof.
  intros s. apply (loadURL_reload_destroyed (λ _ (_ : nat), ret tt) (λ _, ret tt) s 1 7).
  vm_compute. reflexivity.
Defined.

(** ** Resizing the window *)

Lemma relayout_iter_fields sz n t :
  liveb (Nat.iter n (relayout sz) t) = liveb t ∧
  view_visible (Nat.iter n (relayout sz) t) = view_visible t ∧
  tab_id (Nat.iter n (relayout sz) t) = tab_id t ∧
  view_layouts (Nat.iter n (relayout sz) t) = view_layouts t + n ∧
  (0 < n → view_bounds (Nat.iter n (relayout sz) t) = Some (layout sz)).
Proof.
  induction n as [|n (IH1 & IH2 & IH3 & IH4 & IH5)].
  - cbn. split; [done|]. split; [done|]. split; [done|]. split; lia.
  - rewrite Nat.iter_succ. set (t' := Nat.iter n (relayout sz) t) in *.
    split; [exact IH1|]. split; [exact IH2|]. split; [exact IH3|].
    split; [|done]. cbn. lia.
Qed.

Lemma forEach_invalidateLayout ls : ∀ s,
  Forall (λ r, is_live s r = true) ls →
  ∃ s', forEach Tab_invalidateLayout ls s = (Ok tt, s', []) ∧
    browserWindow s' = browserWindow s ∧ tabList s' = tabList s ∧
    selected s' = selected s ∧ window s' = window s ∧
    ∀ r, heap s' !! r =
           Nat.iter (registrations r ls) (relayout (win_size (browserWindow s)))
             <$> heap s !! r.
Proof.
  induction ls as [|q ls IH]; intros s Hlive.
  - exists s. repeat split; try done. intros r. by destruct (heap s !! r).
  - apply Forall_cons in Hlive as [Hq Hls].
    destruct (is_live_Some _ _ Hq) as (t & Ht & Hw & Hv & _).
    set (sz := win_size (browserWindow s)).
    set (s1 := touch q (relayout sz t) (browserWindow s) s).
    assert (Tab_invalidateLayout q s = (Ok tt, s1, [])) as Hstep
      by by apply Tab_invalidateLayout_live.
    assert (∀ r, heap s1 !! r =
                 if decide (q = r) then relayout sz <$> heap s !! r else heap s !! r)
      as Hheap.
    { intros r. unfold s1. case_decide as Hr.
      - subst r. rewrite Ht. by eapply heap_touch_eq.
      - by apply heap_touch_ne. }
    destruct (IH s1) as (s' & Hrun & Hwin & Hl & Hsel & Hw' & Hh).
    { eapply Forall_impl; [exact Hls|]. intros r Hr. cbn in Hr.
      unfold is_live in *. rewrite Hheap. case_decide; [|done].
      destruct (heap s !! r); [|done]. cbn. exact Hr. }
    exists s'. cbn [forEach]. split.
    { by rewrite (bind_quiet _ _ _ _ _ Hstep). }
    split; [by rewrite Hwin|]. split; [by rewrite Hl|].
    split; [by rewrite Hsel|]. split; [by rewrite Hw'|].
    intros r. rewrite Hh, Hheap, registrations_cons. fold sz.
    change (win_size (browserWindow s1)) with sz.
    case_decide as Hr; [|done]. destruct (heap s !! r) as [tr|]; [|done].
    cbn [fmap option_fmap option_map]. f_equal.
    change (1 + registrations r ls) with (S (registrations r ls)).
    by rewrite Nat.iter_succ_r.
Qed.

(** X5. When every resize listener of the window belongs to a tab in use, a
    resize to [sz] succeeds and recomputes the layout of each tab once per
    subscription it holds: a subscribed tab ends with the bounds of the
    formula for [sz], whether it is visible or hidden; a tab without
    subscription keeps its object untouched; visibility, the collection and
    the listener list do not change. *)
Theorem resize_relayouts_subscribers s sz :
  Forall (λ r, is_live s r = true) (win_resizeListeners (browserWindow s)) →
  ∃ s', resize sz s = (Ok tt, s', []) ∧
    browserWindow s' = set_size sz (browserWindow s) ∧
    tabList s' = tabList s ∧ selected s' = selected s ∧ window s' = window s ∧
    ∀ r, layouts s' r = layouts s r + subscriptions s r ∧
         is_visible s' r = is_visible s r ∧
         (subscriptions s r = 0 → heap s' !! r = heap s !! r) ∧
         (0 < subscriptions s r → bounds_of s' r = Some (layout sz)).
Proof.
  intros Hlive. unfold resize. rewrite bind_modify, bind_gets.
  destruct (forEach_invalidateLayout (win_resizeListeners (browserWindow s))
              (upd_win (set_size sz) s)) as (s' & Hrun & Hwin & Hl & Hsel & Hw & Hh).
  { exact Hlive. }
  exists s'. split; [exact Hrun|]. split; [exact Hwin|]. split; [exact Hl|].
  split; [exact Hsel|]. split; [exact Hw|].
  intros r. specialize (Hh r).
  change (heap s' !! r = Nat.iter (subscriptions s r) (relayout sz) <$> heap s !! r) in Hh.
  unfold layouts, is_visible, bounds_of. rewrite Hh.
  destruct (heap s !! r) as [t|] eqn:Ht; cbn.
  - destruct (relayout_iter_fields sz (subscriptions s r) t) as (_ & H2 & _ & H4 & H5).
    repeat split; [done..| |done].
    intros ->. done.
  - repeat split; try done.
    + assert (r ∉ win_resizeListeners (browserWindow s)) as Hr.
      { intros Hin. eapply Forall_forall in Hlive; [|exact Hin].
        unfold is_live in Hlive. by rewrite Ht in Hlive. }
      apply registrations_0 in Hr. unfold subscriptions, registrations in *.
      by rewrite Hr.
    + intros Hpos. exfalso.
      assert (r ∈ win_resizeListeners (browserWindow s)) as Hin.
      { destruct (decide (r ∈ win_resizeListeners (browserWindow s))) as [|Hn];
          [done|]. apply registrations_0 in Hn.
        unfold subscriptions, registrations in *. lia. }
      eapply Forall_forall in Hlive; [|exact Hin].
      unfold is_live in Hlive. by rewrite Ht in Hlive.
Qed.

Lemma resize_relayouts_subscribers_witness :
  let s := run [Create 1; Create 2; Select 1] (Tabs_new [] win0) in
  is_visible s 1 = false ∧
  ∃ s', resize (1024, 768)%Z s = (Ok tt, s', []) ∧
    bounds_of s' 0 = Some (Bounds.mk 4 66 1016 698) ∧
    bounds_of s' 1 = Some (Bounds.mk 4 66 1016 698).
Proof.
  intros s. split; [vm_compute; reflexivity|].
  destruct (resize_relayouts_subscribers s (1024, 768)%Z) as (s' & H1 & _ & _ & _ & _ & H).
  - apply (bool_decide_unpack _). vm_compute. exact I.
  - exists s'. split; [exact H1|]. split.
    + apply (proj2 (proj2 (proj2 (H 0)))). vm_compute. lia.
    + apply (proj2 (proj2 (proj2 (H 1)))). vm_compute. lia.
Defined.

Lemma bind_ext {A B} (m : M A) (k1 k2 : A → M B) s :
  (∀ a s', k1 a s' = k2 a s') → bind m k1 s = bind m k2 s.
Proof.
  intros H. unfold bind. destruct (m s) as [[[a|e] s1] l1]; [|done]. by rewrite H.
Qed.

Lemma forEach_app f l1 l2 s :
  forEach f (l1 ++ l2) s = bind (forEach f l1) (λ _, forEach f l2) s.
Proof.
  revert s. induction l1 as [|r l1 IH]; intros s; cbn [app forEach].
  - by rewrite bind_ret.
  - rewrite bind_assoc. apply bind_ext. intros _ s'. apply IH.
Qed.

Lemma Tab_invalidateLayout_destroyed s this :
  is_destroyed s this = true → Tab_invalidateLayout this s = (Throw TypeError, s, []).
Proof.
  intros (t & Ht & _ & Hw)%is_destroyed_Some. unfold Tab_invalidateLayout.
  erewrite bind_deref by exact Ht. by rewrite Hw.
Qed.

(** X6. A listener left behind by a destroyed tab stops a resize: the tabs in
    use subscribed before it are laid out for the new size, then the resize
    throws a TypeError, and the tabs subscribed only after it keep their old
    bounds, visible or not. *)
Theorem resize_stops_at_destroyed_listener s sz l1 stale l2 :
  win_resizeListeners (browserWindow s) = l1 ++ stale :: l2 →
  Forall (λ r, is_live s r = true) l1 → is_destroyed s stale = true →
  ∃ s', resize sz s = (Throw TypeError, s', []) ∧
    (∀ r, r ∈ l1 → bounds_of s' r = Some (layout sz)) ∧
    (∀ r, r ∉ l1 → heap s' !! r = heap s !! r).
Proof.
  intros Hls Hlive Hstale. unfold resize. rewrite bind_modify, bind_gets.
  cbn [browserWindow upd_win win_resizeListeners set_size]. rewrite Hls, forEach_app.
  destruct (forEach_invalidateLayout l1 (upd_win (set_size sz) s))
    as (s' & Hrun & _ & _ & _ & _ & Hh); [exact Hlive|].
  exists s'. rewrite (bind_quiet _ _ _ _ _ Hrun). cbn [forEach].
  assert (∀ r, heap s' !! r = Nat.iter (registrations r l1) (relayout sz) <$> heap s !! r)
    as Hheap by exact Hh.
  split; [|split].
  - apply bind_throw, Tab_invalidateLayout_destroyed.
    destruct (decide (stale ∈ l1)) as [Hin|Hnin].
    + eapply Forall_forall in Hlive; [|exact Hin].
      destruct (is_destroyed_Some _ _ Hstale) as (t & Ht & Hd & _).
      destruct (is_live_Some _ _ Hlive) as (t' & Ht' & _ & _ & _ & Hd').
      congruence.
    + rewrite (is_destroyed_heap s); [done|]. rewrite Hheap.
      apply registrations_0 in Hnin. rewrite Hnin. by destruct (heap s !! stale).
  - intros r Hr. unfold bounds_of. rewrite Hheap.
    eapply Forall_forall in Hlive; [|exact Hr].
    destruct (is_live_Some _ _ Hlive) as (t & Ht & _). rewrite Ht. cbn.
    apply relayout_iter_fields.
    destruct (registrations r l1) eqn:Hn; [|lia].
    by apply registrations_0 in Hn.
  - intros r Hr. rewrite Hheap. apply registrations_0 in Hr. rewrite Hr.
    by destruct (heap s !! r).
Qed.

Lemma resize_stops_at_destroyed_listener_witness :
  let s := run [Create 1; Create 2; Remove 2] (Tabs_new [] win0) in
  selected s = Some 0 ∧ is_visible s 0 = true ∧
  ∃ s', resize (1024, 768)%Z s = (Throw TypeError, s', []) ∧
        bounds_of s' 0 = Some (Bounds.mk 4 66 792 530).
Proof.
  intros s. split; [vm_compute; reflexivity|]. split; [vm_compute; reflexivity|].
  destruct (resize_stops_at_destroyed_listener s (1024, 768)%Z [] 1 [0])
    as (s' & H1 & _ & H2).
  - vm_compute. reflexivity.
  - constructor.
  - vm_compute. reflexivity.
  - exists s'. split; [exact H1|]. unfold bounds_of.
    rewrite H2 by apply not_elem_of_nil. vm_compute. reflexivity.
Defined.

(** ** Lookup, creation and removal *)

(** X7. [get] returns the first tab of the sequence that carries the id, and
    nothing exactly when no tab of the sequence carries it. *)
Theorem get_first_with_id s tabId :
  match Tabs_get tabId s with
  | Some r => ∃ l1 l2, tabList s = l1 ++ r :: l2 ∧ id_of s r = Some tabId ∧
                       ∀ r', r' ∈ l1 → id_of s r' ≠ Some tabId
  | None => absent tabId s
  end.
Proof.
  destruct (Tabs_get tabId s) as [r|] eqn:Hget.
  - apply find_Some_split in Hget as (l1 & l2 & Hl & Hr & Hl1).
    exists l1, l2. split; [done|]. split; [by apply has_id_true|].
    intros r' Hr'. apply has_id_false. by eapply Forall_forall in Hl1.
  - by apply Tabs_get_None.
Qed.

Lemma has_id_ext s s' tabId r :
  id_of s' r = id_of s r → has_id s' tabId r = has_id s tabId r.
Proof.
  intros H. destruct (has_id s tabId r) eqn:Hs.
  - apply has_id_true. rewrite H. by apply has_id_true.
  - apply has_id_false. rewrite H. by apply has_id_false.
Qed.

Lemma find_ext {A} (p q : A → bool) l :
  (∀ a, a ∈ l → p a = q a) → List.find p l = List.find q l.
Proof.
  induction l as [|a l IH]; [done|]. intros H. simpl.
  rewrite (H a) by left. destruct (q a); [done|]. apply IH.
  intros b Hb. apply H. by right.
Qed.

Lemma find_app_Some {A} (p : A → bool) l1 l2 a :
  List.find p l1 = Some a → List.find p (l1 ++ l2) = Some a.
Proof.
  induction l1 as [|b l1 IH]; [done|]. simpl. destruct (p b); [done|]. apply IH.
Qed.

Lemma find_drop_middle {A} (p : A → bool) l1 a l2 :
  p a = false → List.find p (l1 ++ a :: l2) = List.find p (l1 ++ l2).
Proof.
  intros Ha. induction l1 as [|b l1 IH]; simpl; [by rewrite Ha|].
  destruct (p b); [done|]. apply IH.
Qed.

Lemma Tabs_get_same_ids s s' tabId :
  tabList s' = tabList s → (∀ r, r ∈ tabList s → id_of s' r = id_of s r) →
  Tabs_get tabId s' = Tabs_get tabId s.
Proof.
  intros Hl Hid. unfold Tabs_get. rewrite Hl. apply find_ext.
  intros r Hr. by apply has_id_ext, Hid.
Qed.

(** X8. After [create] has returned a tab for a new id, [get] of that id
    returns this tab, and every id that resolved before resolves to the same
    tab as before. *)
Theorem create_then_get s hostId :
  wf s → window s = true → absent hostId s →
  ∃ tab s' l, Tabs_create hostId s = (Ok tab, s', l) ∧
    Tabs_get hostId s' = Some tab ∧
    ∀ i r, Tabs_get i s = Some r → Tabs_get i s' = Some r.
Proof.
  intros Hwf Hwin Hfresh. pose proof (wf_live _ Hwf) as Hlive.
  exists (length (heap s)), (createS hostId s). eexists. split.
  { apply Tabs_create_live; try done.
    intros cur Hcur. pose proof (wf_selected _ Hwf) as Hs. by rewrite Hcur in Hs. }
  assert (∀ i, Tabs_get i (createS hostId s) = Tabs_get i (attachedS hostId s)) as Hsame.
  { intros i. apply Tabs_get_same_ids; [apply tabList_selectS|].
    intros r _. apply id_of_selectS. }
  split.
  - rewrite Hsame. by apply Tabs_get_attachedS.
  - intros i r Hget. rewrite Hsame. unfold Tabs_get in *.
    rewrite tabList_attachedS. apply find_app_Some. rewrite <-Hget.
    apply find_ext. intros q Hq. by apply has_id_ext, id_of_attachedS_old.
Qed.

Lemma create_then_get_witness :
  let s := run [Create 10; Create 20] (Tabs_new [] win0) in
  ∃ tab s' l, Tabs_create 30 s = (Ok tab, s', l) ∧
    Tabs_get 30 s' = Some tab ∧ Tabs_get 10 s' = Some 0.
Proof.
  intros s.
  assert (wf s) as Hwf.
  { apply observe_ok; [apply wf_Tabs_new| |by intros i _ r ?%elem_of_nil].
    apply (bool_decide_unpack _). vm_compute. exact I. }
  destruct (create_then_get s 30 Hwf) as (tab & s' & l & H1 & H2 & H3).
  - vm_compute. reflexivity.
  - apply Tabs_get_None. vm_compute. reflexivity.
  - exists tab, s', l. split; [exact H1|]. split; [exact H2|].
    apply H3. vm_compute. reflexivity.
Defined.

Lemma id_of_removeS s l1 tab l2 r :
  id_of (fst (removeS l1 tab l2 s)) r = id_of s r.
Proof.
  unfold removeS. case_decide; cbn [fst].
  - destruct (next_after l1 l2); cbn [fst].
    + rewrite id_of_selectS.
      change (id_of (set_selected None ?s') r) with (id_of s' r).
      apply (id_of_removed s l1 tab l2).
    + unfold teardownS. destruct (window _);
        change (id_of (destroyedS tab (set_tabList (l1 ++ l2) s)) r = id_of s r);
        apply (id_of_removed s l1 tab l2).
  - apply (id_of_removed s l1 tab l2).
Qed.

Lemma tabList_removeS s l1 tab l2 :
  tabList (fst (removeS l1 tab l2 s)) =
    if decide (selected s = Some tab ∧ l1 ++ l2 = []) then [] else l1 ++ l2.
Proof.
  unfold removeS. destruct (decide (selected s = Some tab)) as [Hs|Hs]; cbn [fst].
  - destruct (next_after l1 l2) as [n|] eqn:Hn; cbn [fst].
    + rewrite tabList_selectS. cbn [tabList set_selected].
      rewrite (tabList_removed s l1 tab l2). rewrite decide_False; [done|].
      intros [_ Hnil]. apply next_after_elem in Hn. rewrite Hnil in Hn.
      by apply elem_of_nil in Hn.
    + apply next_after_None in Hn as [-> ->]. rewrite decide_True by done.
      unfold teardownS. by destruct (window _).
  - rewrite (tabList_removed s l1 tab l2). rewrite decide_False; [done|].
    by intros [? _].
Qed.

(** X9. After [remove] of an id, [get] of that id returns nothing, and every
    other id resolves to the same tab as before. *)
Theorem remove_then_get s tab tabId :
  wf s → tab ∈ tabList s → id_of s tab = Some tabId →
  ∃ s' l, Tabs_remove tabId s = (Ok tt, s', l) ∧
    Tabs_get tabId s' = None ∧
    ∀ i, i ≠ tabId → Tabs_get i s' = Tabs_get i s.
Proof.
  intros Hwf (l1 & l2 & Hlist)%list_elem_of_split Hid.
  do 2 eexists. split; [by apply Tabs_remove_found|].
  assert (∀ i, Tabs_get i (fst (removeS l1 tab l2 s)) =
               List.find (has_id s i)
                 (if decide (selected s = Some tab ∧ l1 ++ l2 = []) then [] else l1 ++ l2))
    as Hget.
  { intros i. unfold Tabs_get. rewrite tabList_removeS. apply find_ext.
    intros r _. apply has_id_ext, id_of_removeS. }
  assert (∀ i, List.find (has_id s i)
                 (if decide (selected s = Some tab ∧ l1 ++ l2 = []) then [] else l1 ++ l2)
               = List.find (has_id s i) (l1 ++ l2)) as Hfind.
  { intros i. case_decide as Hd; [|done]. destruct Hd as [_ ->]. done. }
  split.
  - rewrite Hget, Hfind. apply find_none.
    pose proof (wf_ids _ Hwf) as Hnd. rewrite Hlist in Hnd.
    apply NoDup_fmap_middle in Hnd. eapply Forall_impl; [exact Hnd|].
    intros r Hr. apply has_id_false. congruence.
  - intros i Hi. rewrite Hget, Hfind. unfold Tabs_get. rewrite Hlist.
    symmetry. apply find_drop_middle. apply has_id_false. congruence.
Qed.

Lemma remove_then_get_witness :
  let s := run [Create 10; Create 20; Create 30] (Tabs_new [] win0) in
  ∃ s' l, Tabs_remove 20 s = (Ok tt, s', l) ∧
    Tabs_get 20 s' = None ∧ Tabs_get 30 s' = Some 2.
Proof.
  intros s.
  assert (wf s) as Hwf.
  { apply observe_ok; [apply wf_Tabs_new| |by intros i _ r ?%elem_of_nil].
    apply (bool_decide_unpack _). vm_compute. exact I. }
  destruct (remove_then_get s 1 20 Hwf) as (s' & l & H1 & H2 & H3).
  - change (1 ∈ [0; 1; 2]). right. left.
  - vm_compute. reflexivity.
  - exists s', l. split; [exact H1|]. split; [exact H2|].
    rewrite H3 by done. vm_compute. reflexivity.
Defined.

(** ** Notifications *)

(** X10. [create] emits exactly two notifications, [tab-created] and then
    [tab-selected], both for the tab it returns. *)
Theorem create_notifies_created_then_selected s hostId :
  wf s → window s = true → absent hostId s →
  ∃ tab s' l, Tabs_create hostId s = (Ok tab, s', l) ∧
    events l = [TabCreated tab; TabSelected tab].
Proof.
  intros Hwf Hwin Hfresh.
  exists (length (heap s)), (createS hostId s). eexists. split.
  { apply Tabs_create_live; try done; [by apply wf_live|].
    intros cur Hcur. pose proof (wf_selected _ Hwf) as Hs. by rewrite Hcur in Hs. }
  reflexivity.
Qed.

Lemma create_notifies_created_then_selected_witness :
  let s := run [Create 10; Create 20] (Tabs_new [] win0) in
  ∃ tab s' l, Tabs_create 30 s = (Ok tab, s', l) ∧
    events l = [TabCreated tab; TabSelected tab].
Proof.
  intros s.
  assert (wf s) as Hwf.
  { apply observe_ok; [apply wf_Tabs_new| |by intros i _ r ?%elem_of_nil].
    apply (bool_decide_unpack _). vm_compute. exact I. }
  apply (create_notifies_created_then_selected s 30 Hwf).
  - vm_compute. reflexivity.
  - apply Tabs_get_None. vm_compute. reflexivity.
Defined.

(** X11. [remove] of the tab between [l1] and [l2] emits [tab-destroyed] for
    it last.  When the tab was selected and another tab remains, the
    [tab-selected] of the successor comes first; otherwise [tab-destroyed] is
    the only notification: none is emitted for the teardown that follows the
    removal of the last tab. *)
Theorem remove_notifies_selected_then_destroyed s l1 tab l2 tabId :
  wf s → tabList s = l1 ++ tab :: l2 → id_of s tab = Some tabId →
  ∃ s' l, Tabs_remove tabId s = (Ok tt, s', l) ∧
    events l =
      match (if decide (selected s = Some tab) then next_after l1 l2 else None) with
      | Some n => [TabSelected n; TabDestroyed tab]
      | None => [TabDestroyed tab]
      end.
Proof.
  intros Hwf Hlist Hid. do 2 eexists. split; [by apply Tabs_remove_found|].
  unfold removeS. case_decide; [|done]. by destruct (next_after l1 l2).
Qed.

Lemma remove_notifies_selected_then_destroyed_witness :
  let s := run [Create 10; Create 20; Create 30] (Tabs_new [] win0) in
  ∃ s' l, Tabs_remove 30 s = (Ok tt, s', l) ∧
    events l = [TabSelected 1; TabDestroyed 2].
Proof.
  intros s.
  assert (wf s) as Hwf.
  { apply observe_ok; [apply wf_Tabs_new| |by intros i _ r ?%elem_of_nil].
    apply (bool_decide_unpack _). vm_compute. exact I. }
  destruct (remove_notifies_selected_then_destroyed s [0; 1] 2 [] 30 Hwf)
    as (s' & l & H1 & H2).
  - vm_compute. reflexivity.
  - vm_compute. reflexivity.
  - exists s', l. split; [exact H1|]. rewrite H2. vm_compute. reflexivity.
Defined.

(** ** Selection *)

Lemma browserWindow_on_tab r f g s :
  is_live s r = true → browserWindow (on_tab r f g s) = g (browserWindow s).
Proof. intros (t & Ht & _)%is_live_Some. unfold on_tab. by rewrite Ht. Qed.

Lemma selectS_before_show tab s :
  selectS tab s = set_selected (Some tab) (shownS tab (before_show s)).
Proof. reflexivity. Qed.

Section BeforeShow.
Variable s : State.
Hypothesis Hsel : ∀ cur, selected s = Some cur → is_live s cur = true.

Lemma is_live_before_show r : is_live (before_show s) r = is_live s r.
Proof.
  unfold before_show. destruct (selected s); [|done].
  unfold hiddenS. by rewrite is_live_on_tab_same.
Qed.

Lemma win_size_before_show :
  win_size (browserWindow (before_show s)) = win_size (browserWindow s).
Proof.
  unfold before_show. destruct (selected s) as [cur|] eqn:Hcur; [|done].
  unfold hiddenS. by rewrite browserWindow_on_tab by by apply Hsel.
Qed.

Lemma listeners_before_show :
  win_resizeListeners (browserWindow (before_show s)) =
    match selected s with
    | Some cur => off cur (win_resizeListeners (browserWindow s))
    | None => win_resizeListeners (browserWindow s)
    end.
Proof.
  unfold before_show. destruct (selected s) as [cur|] eqn:Hcur; [|done].
  unfold hiddenS. by rewrite browserWindow_on_tab by by apply Hsel.
Qed.

Lemma heap_before_show r :
  selected s ≠ Some r → heap (before_show s) !! r = heap s !! r.
Proof.
  intros Hr. unfold before_show. destruct (selected s) as [cur|]; [|done].
  unfold hiddenS. rewrite heap_on_tab, decide_False; [done|congruence].
Qed.

Lemma listeners_selectS tab :
  is_live s tab = true →
  win_resizeListeners (browserWindow (selectS tab s)) =
    on tab (match selected s with
            | Some cur => off cur (win_resizeListeners (browserWindow s))
            | None => win_resizeListeners (browserWindow s)
            end).
Proof.
  intros Hl. rewrite selectS_before_show. cbn [browserWindow set_selected].
  unfold shownS. rewrite browserWindow_on_tab by by rewrite is_live_before_show.
  by rewrite listeners_subscribe, listeners_before_show.
Qed.

Lemma heap_selectS_shown tab :
  is_live s tab = true →
  ∃ t0, heap (before_show s) !! tab = Some t0 ∧
        heap (selectS tab s) !! tab = Some (shownTab (win_size (browserWindow s)) t0).
Proof.
  intros Hl. rewrite <-is_live_before_show in Hl.
  destruct (is_live_Some _ _ Hl) as (t0 & Ht0 & _). exists t0. split; [done|].
  rewrite selectS_before_show. cbn [heap set_selected]. unfold shownS.
  by rewrite heap_on_tab, decide_True, Ht0, win_size_before_show.
Qed.
End BeforeShow.

(** X12. [select] of an id that resolves to [tab] makes [tab] the selected
    tab, shows it with the bounds of the layout formula for the current
    window size, and leaves every other tab of the sequence hidden; the order
    of the sequence is unchanged, no object other than the target and the
    previous selection is touched, and the one notification, [tab-selected],
    is delivered on the final state. *)
Theorem select_shows_only_target s tabId tab :
  wf s → Tabs_get tabId s = Some tab →
  ∃ s', Tabs_select tabId s = (Ok tt, s', [(TabSelected tab, s')]) ∧
    selected s' = Some tab ∧ tabList s' = tabList s ∧
    is_visible s' tab = true ∧
    bounds_of s' tab = Some (layout (win_size (browserWindow s))) ∧
    (∀ r, r ∈ tabList s → r ≠ tab → is_visible s' r = false) ∧
    (∀ r, r ≠ tab → selected s ≠ Some r → heap s' !! r = heap s !! r).
Proof.
  intros Hwf Hget.
  assert (tab ∈ tabList s) as Hin.
  { apply find_Some_split in Hget as (l1 & l2 & -> & _).
    apply elem_of_app. right. left. }
  pose proof (Forall_live_elem _ _ (wf_live _ Hwf) Hin) as Hlive.
  assert (∀ cur, selected s = Some cur → is_live s cur = true) as Hsel
    by (intros cur; by apply wf_selected_live).
  exists (selectS tab s). split; [by apply Tabs_select_found|].
  split; [done|]. split; [apply tabList_selectS|].
  split; [by apply is_visible_selectS_target|]. split; [|split].
  - destruct (heap_selectS_shown s Hsel tab Hlive) as (t0 & _ & Ht).
    unfold bounds_of. by rewrite Ht.
  - intros r Hr Hne. destruct (is_visible (selectS tab s) r) eqn:Hv; [exfalso|done].
    pose proof (wf_select _ _ _ Hwf Hget) as Hwf'.
    apply (wf_visible _ Hwf') in Hv; [|by rewrite tabList_selectS].
    rewrite selected_selectS in Hv. congruence.
  - intros r Hne Hr. by apply heap_selectS_other.
Qed.

Lemma select_shows_only_target_witness :
  let s := run [Create 10; Create 20; Create 30] (Tabs_new [] win0) in
  selected s = Some 2 ∧
  ∃ s', Tabs_select 10 s = (Ok tt, s', [(TabSelected 0, s')]) ∧
    selected s' = Some 0 ∧ is_visible s' 0 = true ∧ is_visible s' 2 = false.
Proof.
  intros s. split; [vm_compute; reflexivity|].
  assert (wf s) as Hwf.
  { apply observe_ok; [apply wf_Tabs_new| |by intros i _ r ?%elem_of_nil].
    apply (bool_decide_unpack _). vm_compute. exact I. }
  destruct (select_shows_only_target s 10 0 Hwf) as (s' & H1 & H2 & _ & H3 & _ & H4 & _).
  - vm_compute. reflexivity.
  - exists s'. split; [exact H1|]. split; [exact H2|]. split; [exact H3|].
    apply H4; [|done]. change (2 ∈ [0; 1; 2]). do 2 right. left.
Defined.

(** X13. Selecting the tab that is already selected keeps it selected and
    shown, recomputes its layout once, and does not add a subscription to
    the resize notification when it holds one ([hide] removes the one [show]
    adds again); no other tab is touched. *)
Theorem reselect_keeps_subscriptions s tab tabId :
  wf s → selected s = Some tab → id_of s tab = Some tabId →
  ∃ s', Tabs_select tabId s = (Ok tt, s', [(TabSelected tab, s')]) ∧
    selected s' = Some tab ∧ is_visible s' tab = true ∧
    subscriptions s' tab = Nat.max 1 (subscriptions s tab) ∧
    layouts s' tab = S (layouts s tab) ∧
    ∀ r, r ≠ tab → heap s' !! r = heap s !! r ∧ subscriptions s' r = subscriptions s r.
Proof.
  intros Hwf Hcur Hid.
  pose proof (wf_selected_live _ _ Hwf Hcur) as Hlive.
  assert (∀ cur, selected s = Some cur → is_live s cur = true) as Hsel
    by (intros cur; by apply wf_selected_live).
  assert (Tabs_get tabId s = Some tab) as Hget.
  { apply Tabs_get_unique; [by apply wf_ids| |done].
    pose proof (wf_selected _ Hwf) as Hs. by rewrite Hcur in Hs. }
  exists (selectS tab s). split; [by apply Tabs_select_found|].
  split; [done|]. split; [by apply is_visible_selectS_target|].
  assert (∀ r, subscriptions (selectS tab s) r =
               registrations r (on tab (off tab (win_resizeListeners (browserWindow s)))))
    as Hsub.
  { intros r. unfold subscriptions. fold (registrations r).
    change (length (filter (λ r', r' = r) ?l)) with (registrations r l).
    by rewrite (listeners_selectS s Hsel tab Hlive), Hcur. }
  split; [|split].
  - rewrite Hsub, registrations_on, registrations_off, !decide_True by done.
    unfold subscriptions. fold (registrations tab (win_resizeListeners (browserWindow s))).
    change (length (filter (λ r', r' = tab) ?l)) with (registrations tab l). lia.
  - destruct (heap_selectS_shown s Hsel tab Hlive) as (t0 & Ht0 & Ht).
    unfold layouts. rewrite Ht. unfold before_show in Ht0. rewrite Hcur in Ht0.
    unfold hiddenS in Ht0. rewrite heap_on_tab, decide_True in Ht0 by done.
    destruct (heap s !! tab) as [t|]; [|done]. injection Ht0 as <-. reflexivity.
  - intros r Hne. split.
    + apply heap_selectS_other; [done|]. rewrite Hcur. congruence.
    + rewrite Hsub, registrations_on, registrations_off, !decide_False by done.
      unfold subscriptions, registrations. lia.
Qed.

Lemma reselect_keeps_subscriptions_witness :
  let s := run [Create 10; Create 20] (Tabs_new [] win0) in
  subscriptions s 1 = 2 ∧
  ∃ s', Tabs_select 20 s = (Ok tt, s', [(TabSelected 1, s')]) ∧ subscriptions s' 1 = 2.
Proof.
  intros s. split; [vm_compute; reflexivity|].
  assert (wf s) as Hwf.
  { apply observe_ok; [apply wf_Tabs_new| |by intros i _ r ?%elem_of_nil].
    apply (bool_decide_unpack _). vm_compute. exact I. }
  destruct (reselect_keeps_subscriptions s 1 20 Hwf) as (s' & H1 & _ & _ & H2 & _).
  - vm_compute. reflexivity.
  - vm_compute. reflexivity.
  - exists s'. split; [exact H1|]. rewrite H2. vm_compute. reflexivity.
Defined.

(** X14. If the selected tab has been destroyed directly, by [tab.destroy()]
    and not by [remove], [select] of any id of the collection throws a
    TypeError at [this.selected.hide()] and changes nothing: the selection
    stays on the destroyed tab. *)
Theorem select_after_direct_destroy s cur tabId tab :
  selected s = Some cur → is_destroyed s cur = true → Tabs_get tabId s = Some tab →
  Tabs_select tabId s = (Throw TypeError, s, []).
Proof.
  intros Hcur Hd Hget. unfold Tabs_select.
  rewrite bind_gets, Hget, bind_assoc, bind_gets, Hcur.
  by rewrite (bind_throw _ _ _ _ _ _ (Tab_hide_destroyed s cur Hd)).
Qed.

Lemma select_after_direct_destroy_witness :
  let s := snd (fst (Tab_destroy 1 (run [Create 10; Create 20] (Tabs_new [] win0)))) in
  Tabs_select 10 s = (Throw TypeError, s, []).
Proof.
  intros s. apply (select_after_direct_destroy s 1 10 0); vm_compute; reflexivity.
Defined.

(** ** Removal of a tab that is not selected *)

(** X15. [remove] of a tab that is not the selected one takes it out of the
    sequence, keeping the order of the others, destroys it and emits
    [tab-destroyed]; the selection, the window and every other tab (object
    and subscriptions) stay as they were. *)
Theorem remove_unselected_keeps_selection s l1 tab l2 tabId :
  wf s → tabList s = l1 ++ tab :: l2 → id_of s tab = Some tabId →
  selected s ≠ Some tab →
  ∃ s', Tabs_remove tabId s = (Ok tt, s', [(TabDestroyed tab, s')]) ∧
    tabList s' = l1 ++ l2 ∧ selected s' = selected s ∧ window s' = true ∧
    is_destroyed s' tab = true ∧
    ∀ r, r ≠ tab → heap s' !! r = heap s !! r ∧ subscriptions s' r = subscriptions s r.
Proof.
  intros Hwf Hlist Hid Hsel.
  exists (destroyedS tab (set_tabList (l1 ++ l2) s)).
  pose proof (Tabs_remove_found s l1 tab l2 tabId Hwf Hlist Hid) as Hrun.
  unfold removeS in Hrun. rewrite decide_False in Hrun by done.
  split; [exact Hrun|]. split; [by eapply tabList_removed|].
  split; [by eapply selected_removed|].
  split; [rewrite (window_removed s l1 tab l2); by eapply removed_window|].
  pose proof (removed_live s l1 tab l2 Hwf Hlist) as Hlive.
  split; [by apply is_destroyed_destroyedS|].
  intros r Hne. split.
  - unfold destroyedS. rewrite heap_on_tab, decide_False; [done|congruence].
  - unfold subscriptions, destroyedS. rewrite browserWindow_on_tab by done.
    rewrite listeners_detach, listeners_unsubscribe.
    change (length (filter (λ r', r' = r) ?l)) with (registrations r l).
    by rewrite registrations_off, decide_False.
Qed.

Lemma remove_unselected_keeps_selection_witness :
  let s := run [Create 10; Create 20; Create 30] (Tabs_new [] win0) in
  ∃ s', Tabs_remove 10 s = (Ok tt, s', [(TabDestroyed 0, s')]) ∧
    tabList s' = [1; 2] ∧ selected s' = Some 2.
Proof.
  intros s.
  assert (wf s) as Hwf.
  { apply observe_ok; [apply wf_Tabs_new| |by intros i _ r ?%elem_of_nil].
    apply (bool_decide_unpack _). vm_compute. exact I. }
  destruct (remove_unselected_keeps_selection s [] 0 [1; 2] 10 Hwf)
    as (s' & H1 & H2 & H3 & _).
  - vm_compute. reflexivity.
  - vm_compute. reflexivity.
  - vm_compute. discriminate.
  - exists s'. split; [exact H1|]. split; [exact H2|]. rewrite H3.
    vm_compute. reflexivity.
Defined.

(** ** Teardown of the whole collection *)

Lemma forEach_destroy ls : ∀ s,
  Forall (λ r, is_live s r = true ∨ is_destroyed s r = true) ls →
  ∃ s', forEach Tab_destroy ls s = (Ok tt, s', []) ∧
    tabList s' = tabList s ∧ selected s' = selected s ∧ window s' = window s ∧
    win_destroyCalls (browserWindow s') = win_destroyCalls (browserWindow s) ∧
    (∀ r, r ∈ ls → is_destroyed s' r = true) ∧
    (∀ r, r ∉ ls → heap s' !! r = heap s !! r).
Proof.
  induction ls as [|q ls IH]; intros s Hall.
  - exists s. repeat split; try done. by intros r ?%elem_of_nil.
  - apply Forall_cons in Hall as [Hq Hls].
    assert (∃ s1, Tab_destroy q s = (Ok tt, s1, []) ∧
              tabList s1 = tabList s ∧ selected s1 = selected s ∧ window s1 = window s ∧
              win_destroyCalls (browserWindow s1) = win_destroyCalls (browserWindow s) ∧
              is_destroyed s1 q = true ∧ ∀ r, r ≠ q → heap s1 !! r = heap s !! r)
      as (s1 & Hstep & Hl1 & Hsel1 & Hw1 & Hc1 & Hd1 & Hh1).
    { destruct Hq as [Hlive|Hdead].
      - exists (destroyedS q s). split; [by apply Tab_destroy_destroyedS|].
        unfold destroyedS.
        rewrite tabList_on_tab, selected_on_tab, window_on_tab, destroyCalls_on_tab by done.
        repeat split; [by apply is_destroyed_destroyedS|].
        intros r Hr. rewrite heap_on_tab, decide_False; [done|congruence].
      - exists s. split; [by apply Tab_destroy_again|]. by repeat split. }
    destruct (IH s1) as (s' & Hrun & Hl & Hsel & Hw & Hc & Hd & Hh).
    { eapply Forall_impl; [exact Hls|]. intros r Hr. cbn in Hr.
      destruct (decide (r = q)) as [->|Hne]; [by right|].
      unfold is_live, is_destroyed in *. by rewrite Hh1. }
    exists s'. cbn [forEach]. split; [by rewrite (bind_quiet _ _ _ _ _ Hstep)|].
    split; [congruence|]. split; [congruence|]. split; [congruence|].
    split; [congruence|]. split.
    + intros r [->|Hr]%elem_of_cons; [|by apply Hd].
      destruct (decide (q ∈ ls)) as [Hin|Hnin]; [by apply Hd|].
      by rewrite (is_destroyed_heap s1) by by apply Hh.
    + intros r [Hne Hr]%not_elem_of_cons. by rewrite Hh, Hh1.
Qed.

(** X16. [Tabs.destroy] on a collection whose tabs are in use or already
    destroyed destroys every tab of the sequence, empties the sequence,
    clears the selection and, when the collection still has its window, calls
    [destroy] on it once and drops it.  It emits no notification, not even
    [tab-destroyed] for the tabs it destroys, and a second call changes
    nothing. *)
Theorem destroy_tears_down s :
  Forall (λ r, is_live s r = true ∨ is_destroyed s r = true) (tabList s) →
  ∃ s', Tabs_destroy s = (Ok tt, s', []) ∧
    terminal s' ∧
    (∀ r, r ∈ tabList s → is_destroyed s' r = true) ∧
    win_destroyCalls (browserWindow s') =
      (if window s then 1 else 0) + win_destroyCalls (browserWindow s) ∧
    Tabs_destroy s' = (Ok tt, s', []).
Proof.
  intros Hall. destruct (forEach_destroy _ _ Hall)
    as (s1 & Hrun & Hl & Hsel & Hw & Hc & Hd & Hh).
  set (s2 := set_selected None (set_tabList [] s1)).
  set (s' := if window s
             then set_tabs_window false (upd_win destroyWindow s2) else s2).
  assert (Tabs_destroy s = (Ok tt, s', [])) as Hdes.
  { unfold Tabs_destroy. rewrite bind_gets.
    rewrite (bind_quiet _ _ _ _ _ Hrun), !bind_modify, bind_gets.
    cbn [window set_selected set_tabList]. rewrite Hw. unfold s'.
    destruct (window s); cbn [when]; [|done]. by rewrite bind_modify. }
  assert (terminal s') as Hterm.
  { unfold terminal, s'. destruct (window s) eqn:Hwin; cbn; [done|].
    by rewrite Hw. }
  exists s'. split; [exact Hdes|]. split; [exact Hterm|]. split; [|split].
  - intros r Hr. rewrite (is_destroyed_heap s1); [by apply Hd|].
    unfold s'. by destruct (window s).
  - unfold s'. destruct (window s); cbn; by rewrite Hc.
  - by apply terminal_destroy.
Qed.

Lemma destroy_tears_down_witness :
  let s := run [Create 10; Create 20; Create 30] (Tabs_new [] win0) in
  ∃ s', Tabs_destroy s = (Ok tt, s', []) ∧ terminal s' ∧
    is_destroyed s' 0 = true ∧ win_destroyCalls (browserWindow s') = 1.
Proof.
  intros s. destruct (destroy_tears_down s) as (s' & H1 & H2 & H3 & H4 & _).
  - apply (bool_decide_unpack _). vm_compute. exact I.
  - exists s'. split; [exact H1|]. split; [exact H2|]. split.
    + apply H3. change (0 ∈ [0; 1; 2]). left.
    + rewrite H4. vm_compute. reflexivity.
Defined.

(** ** Create followed by remove *)



(** ** The selected tab is the one shown *)

Lemma subscriptions_registrations s r :
  subscriptions s r = registrations r (win_resizeListeners (browserWindow s)).
Proof. reflexivity. Qed.

Lemma selected_shown_selectS tab s :
  is_live s tab = true → (∀ cur, selected s = Some cur → is_live s cur = true) →
  selected_shown (selectS tab s).
Proof.
  intros Hl Hsel cur. rewrite selected_selectS. intros [= <-].
  split; [by apply is_visible_selectS_target|].
  rewrite subscriptions_registrations, (listeners_selectS s Hsel tab Hl).
  rewrite registrations_on, decide_True by done. lia.
Qed.

Lemma listeners_attachedS hostId s :
  win_resizeListeners (browserWindow (attachedS hostId s)) =
    on (length (heap s)) (win_resizeListeners (browserWindow s)).
Proof.
  unfold attachedS, shownS. rewrite browserWindow_on_tab; [done|].
  unfold is_live. by rewrite heap_createdS_new.
Qed.

Lemma selected_shown_attachedS hostId s :
  wf s → selected_shown s → selected_shown (attachedS hostId s).
Proof.
  intros Hwf Hshown cur. pose proof (wf_live _ Hwf) as Hlive.
  rewrite selected_attachedS, subscriptions_registrations, listeners_attachedS.
  rewrite registrations_on.
  destruct (selected s) as [c|] eqn:Hc; intros [= <-].
  - destruct (Hshown c Hc) as [Hv Hs].
    pose proof (wf_selected _ Hwf) as Hin. rewrite Hc in Hin.
    rewrite is_visible_attachedS_old by done.
    split; [done|]. rewrite subscriptions_registrations in Hs. lia.
  - destruct (heap_attachedS_new hostId s) as (t & Ht & _ & _ & Hv).
    unfold is_visible. rewrite Ht. split; [done|].
    rewrite decide_True by done. lia.
Qed.

Lemma subscriptions_destroyedS_other tab s r :
  is_live s tab = true → r ≠ tab →
  subscriptions (destroyedS tab s) r = subscriptions s r.
Proof.
  intros Hl Hne. rewrite !subscriptions_registrations. unfold destroyedS.
  rewrite browserWindow_on_tab by done.
  rewrite listeners_detach, listeners_unsubscribe.
  by rewrite registrations_off, decide_False.
Qed.

Lemma selected_shown_removeS s l1 tab l2 :
  wf s → selected_shown s → tabList s = l1 ++ tab :: l2 →
  selected_shown (fst (removeS l1 tab l2 s)) ∧
  Forall (λ p, selected_shown (snd p)) (snd (removeS l1 tab l2 s)).
Proof.
  intros Hwf Hshown Hlist. unfold removeS.
  set (s1 := destroyedS tab (set_tabList (l1 ++ l2) s)).
  pose proof (removed_live s l1 tab l2 Hwf Hlist) as Hlive.
  destruct (decide (selected s = Some tab)) as [Hsel|Hsel].
  - destruct (next_after l1 l2) as [n|] eqn:Hn; cbn [fst snd].
    + assert (selected_shown (selectS n (set_selected None s1))) as H3.
      { apply selected_shown_selectS; [|done].
        apply (is_live_removed s l1 tab l2 Hwf Hlist). by apply next_after_elem. }
      split; [done|]. by repeat apply Forall_cons_2.
    + split.
      * intros cur. unfold teardownS. by destruct (window _).
      * apply Forall_cons_2; [|done]. by intros cur.
  - assert (selected_shown s1) as H1.
    { intros cur. unfold s1. rewrite (selected_removed s l1 tab l2). intros Hcur.
      destruct (Hshown cur Hcur) as [Hv Hs].
      assert (cur ≠ tab) as Hne by congruence. split.
      - unfold destroyedS. by rewrite is_visible_on_tab_ne.
      - by rewrite subscriptions_destroyedS_other. }
    cbn [fst snd]. split; [done|]. by apply Forall_cons_2.
Qed.

Lemma call_selected_shown op s :
  wf s → selected_shown s → (∀ i, op = Create i → absent i s) →
  selected_shown (snd (fst (call op s))) ∧
  Forall (λ p, selected_shown (snd p)) (snd (call op s)).
Proof.
  intros Hwf Hshown Hfresh.
  assert (∀ cur, selected s = Some cur → is_live s cur = true) as Hsel
    by (intros cur; by apply wf_selected_live).
  destruct op as [i|i|i].
  - rewrite call_Create by auto. destruct (window s) eqn:Hwin; cbn [fst snd]; [|done].
    pose proof (selected_shown_attachedS i s Hwf Hshown) as Hmid.
    assert (selected_shown (createS i s)) as Hfin.
    { apply selected_shown_selectS.
      - apply is_live_attachedS_new.
      - intros cur. rewrite selected_attachedS.
        pose proof (wf_selected _ Hwf) as Hin.
        destruct (selected s) as [c|]; intros [= <-].
        + by apply is_live_attachedS_old; [apply wf_live|].
        + apply is_live_attachedS_new. }
    split; [done|]. by repeat apply Forall_cons_2.
  - rewrite call_Select by done. destruct (Tabs_get i s) as [tab|] eqn:Hget;
      cbn [fst snd]; [|done].
    assert (selected_shown (selectS tab s)) as Hfin.
    { apply selected_shown_selectS; [|done].
      apply (Forall_live_elem _ _ (wf_live _ Hwf)).
      apply find_Some_split in Hget as (l1 & l2 & -> & _).
      apply elem_of_app. right. left. }
    split; [done|]. by apply Forall_cons_2.
  - destruct (call_Remove i s Hwf) as [(l1 & tab & l2 & Hl & Hid & ->)|[Habs ->]];
      cbn [fst snd]; [|done].
    by apply selected_shown_removeS.
Qed.

Lemma observe_selected_shown ops : ∀ s,
  wf s → selected_shown s → NoDup (created ops) →
  (∀ i, i ∈ created ops → absent i s) →
  Forall (λ o, selected_shown (snd o)) (observe ops s).
Proof.
  induction ops as [|op ops IH]; intros s Hwf Hshown Hnd Hfresh; cbn [observe].
  - constructor.
  - assert (∀ i, op = Create i → absent i s) as Hop.
    { intros i ->. apply Hfresh. left. }
    destruct (call_wf op s Hwf Hop) as (Hwf' & _ & Habs).
    destruct (call_selected_shown op s Hwf Hshown Hop) as [Hfin Hev].
    destruct (call op s) as [[res s'] l] eqn:Hcall. cbn [fst snd] in *.
    assert (NoDup (created ops) ∧ ∀ i, i ∈ created ops → absent i s') as [Hnd' Hfresh'].
    { destruct op as [j|j|j]; cbn [created] in *.
      - apply NoDup_cons in Hnd as [Hj Hnd]. split; [done|]. intros i Hi.
        apply Habs; [apply Hfresh; by right|]. intros [= ->]. done.
      - split; [done|]. intros i Hi. apply Habs; [by apply Hfresh|done].
      - split; [done|]. intros i Hi. apply Habs; [by apply Hfresh|done]. }
    apply Forall_app. split.
    + unfold notified. apply Forall_fmap. eapply Forall_impl; [exact Hev|]. by intros [].
    + apply Forall_cons_2; [done|]. by apply IH.
Qed.

Lemma filter_only {A} (P : A → Prop) `{∀ x, Decision (P x)} (l : list A) a :
  NoDup l → a ∈ l → P a → (∀ x, x ∈ l → P x → x = a) → filter P l = [a].
Proof.
  intros Hnd (l1 & l2 & ->)%list_elem_of_split Ha Huniq.
  apply NoDup_app in Hnd as (_ & H1 & [H2 _]%NoDup_cons).
  rewrite filter_app, filter_cons_True by done.
  rewrite !filter_none; [done| |].
  - apply Forall_forall. intros x Hx HP. apply H2.
    rewrite <-(Huniq x); [done| |done]. apply elem_of_app. right. by right.
  - apply Forall_forall. intros x Hx HP. apply (H1 x Hx).
    rewrite (Huniq x); [left| |done]. apply elem_of_app. by left.
Qed.

Lemma visible_tabs_selected s :
  wf s → selected_shown s → visible_tabs s = option_list (selected s).
Proof.
  intros Hwf Hshown. pose proof (wf_selected _ Hwf) as Hsel.
  destruct (selected s) as [cur|] eqn:Hcur; cbn.
  - apply filter_only.
    + eapply NoDup_fmap_1, wf_ids, Hwf.
    + done.
    + by apply Hshown.
    + intros r Hr Hv. pose proof (wf_visible _ Hwf r Hr Hv). congruence.
  - unfold visible_tabs. by rewrite Hsel.
Qed.

(** X18. At every observation point of every series of create/select/remove
    calls on a new collection (distinct ids from the host), the selected tab
    is visible and holds a subscription to the resize notification; once a
    call has returned or thrown, the visible tabs of the sequence are exactly
    the selected tab, or none when the collection is empty. *)
Theorem selected_tab_is_shown h w ops :
  NoDup (created ops) →
  Forall (λ o, selected_shown (snd o)) (observations ops (Tabs_new h w)) ∧
  Forall (λ o, fst o = None → visible_tabs (snd o) = option_list (selected (snd o)))
         (observations ops (Tabs_new h w)).
Proof.
  intros Hnd.
  assert (selected_shown (Tabs_new h w)) as H0 by (by intros cur).
  assert (∀ i, i ∈ created ops → absent i (Tabs_new h w)) as Hfresh
    by (by intros i _ r ?%elem_of_nil).
  assert (Forall (λ o, selected_shown (snd o)) (observations ops (Tabs_new h w))) as H.
  { apply Forall_cons_2; [done|].
    by apply observe_selected_shown; [apply wf_Tabs_new|..]. }
  split; [exact H|].
  assert (Forall obs_ok (observations ops (Tabs_new h w))) as Hobs.
  { apply Forall_cons. split; [apply wf_Tabs_new|].
    by apply observe_ok; [apply wf_Tabs_new|..]. }
  apply Forall_forall. intros [e st] Hin. cbn [fst snd]. intros ->.
  eapply Forall_forall in H; [|exact Hin]. eapply Forall_forall in Hobs; [|exact Hin].
  by apply visible_tabs_selected.
Qed.

Lemma selected_tab_is_shown_witness :
  let ops := [Create 1; Create 2; Select 1; Remove 1] in
  NoDup (created ops) ∧
  Forall (λ o, selected_shown (snd o)) (observations ops (Tabs_new [] win0)).
Proof.
  intros ops.
  assert (NoDup (created ops)) as Hnd.
  { cbn. apply NoDup_cons. split; [|apply NoDup_singleton].
    intros [=]%list_elem_of_singleton. }
  split; [exact Hnd|]. exact (proj1 (selected_tab_is_shown [] win0 ops Hnd)).
Defined.

(** ** The collection as a strip of ids *)

Lemma the_id_id_of s r : the_id s r = default 0%Z (id_of s r).
Proof. unfold the_id, id_of. by destruct (heap s !! r). Qed.

Lemma id_of_live s r : is_live s r = true → id_of s r = Some (the_id s r).
Proof.
  intros (t & Ht & _)%is_live_Some. unfold id_of, the_id. by rewrite Ht.
Qed.

Lemma the_id_ext s s' r : id_of s' r = id_of s r → the_id s' r = the_id s r.
Proof. intros H. by rewrite !the_id_id_of, H. Qed.

Lemma elem_of_ids s i :
  Forall (λ r, is_live s r = true) (tabList s) →
  i ∈ the_id s <$> tabList s ↔ ¬ absent i s.
Proof.
  intros Hlive. rewrite list_elem_of_fmap. split.
  - intros (r & -> & Hr) Habs. apply (Habs r Hr).
    by apply id_of_live, (Forall_live_elem s).
  - intros Hn. destruct (Tabs_get i s) as [r|] eqn:Hget.
    + apply find_Some_split in Hget as (l1 & l2 & Hl & Hid%has_id_true & _).
      assert (r ∈ tabList s) as Hr by (rewrite Hl; apply elem_of_app; right; left).
      exists r. split; [|done].
      rewrite (id_of_live s r) in Hid by by apply (Forall_live_elem s). congruence.
    + by apply Tabs_get_None in Hget.
Qed.

Lemma ids_distinct_middle s l1 tab l2 :
  wf s → tabList s = l1 ++ tab :: l2 →
  Forall (λ r, the_id s r ≠ the_id s tab) (l1 ++ l2).
Proof.
  intros Hwf Hlist. pose proof (wf_ids _ Hwf) as Hnd. rewrite Hlist in Hnd.
  apply NoDup_fmap_middle in Hnd. apply Forall_forall. intros r Hr Heq.
  eapply Forall_forall in Hnd; [|exact Hr]. apply Hnd.
  destruct (rest_elem s l1 tab l2 Hwf Hlist r Hr) as [Hin _].
  rewrite !id_of_live; [by rewrite Heq| |].
  - apply (Forall_live_elem _ _ (wf_live _ Hwf)). rewrite Hlist.
    apply elem_of_app. right. left.
  - by apply (Forall_live_elem _ _ (wf_live _ Hwf)).
Qed.

Lemma strip_of_createS hostId s :
  wf s → window s = true → absent hostId s →
  strip_of (createS hostId s) = strip_call (Create hostId) (strip_of s).
Proof.
  intros Hwf Hwin Hfresh. pose proof (wf_live _ Hwf) as Hlive.
  unfold strip_of, strip_call. cbn [strip_open strip_ids]. rewrite Hwin.
  unfold createS. rewrite tabList_selectS, tabList_attachedS, selected_selectS.
  rewrite window_selectS, window_attachedS, Hwin, fmap_app. cbn [fmap option_fmap option_map list_fmap].
  assert (the_id (selectS (length (heap s)) (attachedS hostId s)) (length (heap s)) = hostId)
    as Hnew.
  { rewrite the_id_id_of, id_of_selectS. by rewrite id_of_attachedS_new. }
  rewrite Hnew. f_equal. f_equal.
  apply list_fmap_ext. intros k r Hr. apply the_id_ext.
  rewrite id_of_selectS. apply id_of_attachedS_old; [done|].
  by eapply list_elem_of_lookup_2.
Qed.

Lemma strip_of_selectS s tabId tab :
  wf s → Tabs_get tabId s = Some tab →
  strip_of (selectS tab s) = strip_call (Select tabId) (strip_of s).
Proof.
  intros Hwf Hget. pose proof (wf_live _ Hwf) as Hlive.
  apply find_Some_split in Hget as (l1 & l2 & Hl & Hid%has_id_true & _).
  assert (tab ∈ tabList s) as Hin by (rewrite Hl; apply elem_of_app; right; left).
  assert (the_id s tab = tabId) as Hthe.
  { rewrite (id_of_live s tab) in Hid by by apply (Forall_live_elem s). congruence. }
  unfold strip_of, strip_call. cbn [strip_open strip_ids].
  rewrite bool_decide_eq_true_2.
  2:{ apply list_elem_of_fmap. by exists tab. }
  rewrite tabList_selectS, selected_selectS, window_selectS. cbn.
  f_equal.
  - apply list_fmap_ext. intros k r _. apply the_id_ext, id_of_selectS.
  - f_equal. rewrite <-Hthe. apply the_id_ext, id_of_selectS.
Qed.

Lemma strip_call_absent s op i :
  Forall (λ r, is_live s r = true) (tabList s) → absent i s →
  op = Select i ∨ op = Remove i → strip_call op (strip_of s) = strip_of s.
Proof.
  intros Hlive Habs [-> | ->]; cbn [strip_call strip_of strip_ids].
  - rewrite bool_decide_eq_false_2; [done|]. by rewrite elem_of_ids; [intros []|].
  - rewrite findIndex_none; [done|]. apply Forall_fmap, Forall_forall.
    intros r Hr. cbn. apply bool_decide_eq_false. intros Heq.
    apply (Habs r Hr). rewrite id_of_live by by apply (Forall_live_elem s).
    by rewrite Heq.
Qed.

Lemma the_id_removeS s l1 tab l2 r :
  the_id (fst (removeS l1 tab l2 s)) r = the_id s r.
Proof. apply the_id_ext, id_of_removeS. Qed.

Lemma strip_of_removeS s l1 tab l2 tabId :
  wf s → tabList s = l1 ++ tab :: l2 → id_of s tab = Some tabId →
  strip_of (fst (removeS l1 tab l2 s)) = strip_call (Remove tabId) (strip_of s).
Proof.
  intros Hwf Hlist Hid. pose proof (wf_live _ Hwf) as Hlive.
  pose proof (removed_live s l1 tab l2 Hwf Hlist) as Htab.
  assert (the_id s tab = tabId) as Hthe.
  { rewrite (id_of_live s tab) in Hid by done. congruence. }
  pose proof (ids_distinct_middle s l1 tab l2 Hwf Hlist) as Hdist.
  rewrite Hthe in Hdist. apply Forall_app in Hdist as [Hd1 Hd2].
  unfold strip_call.
  change (strip_ids (strip_of s)) with (the_id s <$> tabList s).
  change (strip_selected (strip_of s)) with (the_id s <$> selected s).
  change (strip_open (strip_of s)) with (window s).
  rewrite Hlist, fmap_app, fmap_cons, Hthe.
  rewrite findIndex_middle.
  2:{ apply Forall_fmap. eapply Forall_impl; [exact Hd1|]. intros r Hr. cbn.
      by apply bool_decide_eq_false. }
  2:{ by apply bool_decide_eq_true. }
  cbv beta iota zeta. rewrite delete_middle, <-fmap_app.
  assert (strip_of (fst (removeS l1 tab l2 s)) =
          mkStrip (the_id s <$> tabList (fst (removeS l1 tab l2 s)))
                  (the_id s <$> selected (fst (removeS l1 tab l2 s)))
                  (window (fst (removeS l1 tab l2 s)))) as ->.
  { unfold strip_of. f_equal.
    - apply list_fmap_ext. intros k r _. apply the_id_removeS.
    - destruct (selected _); [|done]. cbn. f_equal. apply the_id_removeS. }
  rewrite tabList_removeS. unfold removeS.
  set (s1 := destroyedS tab (set_tabList (l1 ++ l2) s)).
  destruct (decide (selected s = Some tab)) as [Hsel|Hsel].
  - rewrite Hsel. cbn [fmap option_fmap option_map]. rewrite Hthe.
    rewrite (bool_decide_eq_true_2 (Some tabId = Some tabId)) by done.
    destruct (next_after l1 l2) as [n|] eqn:Hn; cbn [fst].
    + pose proof (next_after_elem _ _ _ Hn) as Hin.
      rewrite decide_False.
      2:{ intros [_ Hnil]. rewrite Hnil in Hin. by apply elem_of_nil in Hin. }
      rewrite bool_decide_eq_false_2.
      2:{ intros Hnil%fmap_nil_inv. rewrite Hnil in Hin. by apply elem_of_nil in Hin. }
      rewrite selected_selectS, window_selectS. cbn [window set_selected].
      unfold s1. rewrite (window_removed s l1 tab l2). f_equal.
      rewrite fmap_app, lookup_app_r, length_fmap, Nat.sub_diag by (by rewrite length_fmap).
      unfold next_after in Hn. destruct l2 as [|m l2].
      * cbn. by rewrite app_nil_r, fmap_last, Hn.
      * cbn. by injection Hn as ->.
    + apply next_after_None in Hn as [-> ->]. rewrite decide_True by done.
      cbn [app fmap list_fmap]. rewrite bool_decide_eq_true_2 by done.
      unfold teardownS. cbn [window set_selected].
      unfold s1. rewrite (window_removed s [] tab []).
      by rewrite (removed_window s [] tab [] Hwf Hlist).
  - rewrite decide_False by (by intros [? _]). cbn [fst].
    unfold s1. rewrite (selected_removed s l1 tab l2), (window_removed s l1 tab l2).
    pose proof (wf_selected _ Hwf) as Hin.
    destruct (selected s) as [cur|] eqn:Hcur; [|by rewrite Hlist in Hin; destruct l1].
    assert (cur ∈ l1 ++ l2) as Hrest.
    { rewrite Hlist in Hin.
      apply elem_of_app in Hin as [?|[->|?]%elem_of_cons]; [|done|];
        apply elem_of_app; auto. }
    rewrite bool_decide_eq_false_2.
    2:{ intros Hnil%fmap_nil_inv. rewrite Hnil in Hrest. by apply elem_of_nil in Hrest. }
    cbn [fmap option_fmap option_map].
    rewrite bool_decide_eq_false_2; [done|]. intros [= Heq].
    assert (Forall (λ r, the_id s r ≠ tabId) (l1 ++ l2)) as Hall
      by (by apply Forall_app).
    eapply Forall_forall in Hall; [|exact Hrest]. done.
Qed.

Lemma strip_of_call op s :
  wf s → (∀ i, op = Create i → absent i s) →
  strip_of (snd (fst (call op s))) = strip_call op (strip_of s).
Proof.
  intros Hwf Hfresh. pose proof (wf_live _ Hwf) as Hlive. destruct op as [i|i|i].
  - rewrite call_Create by auto. destruct (window s) eqn:Hwin; cbn [fst snd].
    + apply strip_of_createS; auto.
    + unfold strip_call, strip_of. cbn [strip_open]. by rewrite Hwin.
  - rewrite call_Select by done. destruct (Tabs_get i s) as [tab|] eqn:Hget; cbn [fst snd].
    + by apply strip_of_selectS.
    + symmetry. apply (strip_call_absent s (Select i) i); [done| |by left].
      by apply Tabs_get_None.
  - destruct (call_Remove i s Hwf) as [(l1 & tab & l2 & Hl & Hid & ->)|[Habs ->]];
      cbn [fst snd].
    + by apply strip_of_removeS.
    + symmetry. by apply (strip_call_absent s (Remove i) i); [| |right].
Qed.

Lemma strip_of_run ops : ∀ s,
  wf s → NoDup (created ops) → (∀ i, i ∈ created ops → absent i s) →
  strip_of (run ops s) = strip_run ops (strip_of s).
Proof.
  induction ops as [|op ops IH]; intros s Hwf Hnd Hfresh; cbn [run strip_run]; [done|].
  assert (∀ i, op = Create i → absent i s) as Hop.
  { intros i ->. apply Hfresh. left. }
  destruct (call_wf op s Hwf Hop) as (Hwf' & _ & Habs).
  rewrite <-(strip_of_call op s Hwf Hop). apply IH; [done| |].
  - destruct op; cbn [created] in Hnd; [by apply NoDup_cons in Hnd as [_ ?]|done..].
  - intros i Hi. apply Habs.
    + apply Hfresh. destruct op; cbn [created]; [by right|done..].
    + intros ->. cbn [created] in Hnd. by apply NoDup_cons in Hnd as [? _].
Qed.

(** X19. For every series of create/select/remove calls on a new collection
    (distinct ids from the host), the ids of the sequence in order, the id of
    the selected tab and whether the collection still has its window are
    those of the list program [strip_run]: create appends and selects, select
    selects a present id, remove deletes, moves the selection to the
    successor or else to the new last id, and closes the strip for good when
    it becomes empty. *)
Theorem strip_refinement h w ops :
  NoDup (created ops) →
  strip_of (run ops (Tabs_new h w)) = strip_run ops (mkStrip [] None true).
Proof.
  intros Hnd. apply (strip_of_run ops (Tabs_new h w)); [apply wf_Tabs_new|done|].
  by intros i _ r ?%elem_of_nil.
Qed.

Lemma strip_refinement_witness :
  let ops := [Create 10; Create 20; Create 30; Select 20; Remove 20; Remove 30] in
  NoDup (created ops) ∧
  strip_of (run ops (Tabs_new [] win0)) = mkStrip [10%Z] (Some 10%Z) true.
Proof.
  intros ops.
  assert (NoDup (created ops)) as Hnd.
  { apply (bool_decide_unpack _). vm_compute. exact I. }
  split; [exact Hnd|]. rewrite (strip_refinement [] win0 ops Hnd).
  vm_compute. reflexivity.
Defined.

(** ** The registry of ElectronChromeExtensions instances *)

Section Registry.
Context {L E : Type}.
Variables (checkLicense : option L → option E) (setup : nat → nat → option E).
Variable defaultSession : nat.

Local Abbreviation construct' := (construct checkLicense setup defaultSession).
Local Abbreviation constructions' := (constructions checkLicense setup defaultSession).

Lemma construct_keeps_entries this opts (m : gmap nat nat) session x :
  m !! session = Some x → snd (construct' this opts m) !! session = Some x.
Proof.
  intros Hx. unfold construct. destruct (checkLicense _); [done|].
  case_bool_decide as Hreg; [done|].
  assert (default defaultSession (opts ≫= opt_session) ≠ session) as Hne.
  { intros Heq. apply Hreg. rewrite Heq, Hx. by eexists. }
  destruct (setup _ _); cbn [snd]; by rewrite lookup_insert_ne.
Qed.

(** X20. An entry of the registry is permanent: whatever constructions
    follow, with whatever outcome, a session that has an instance keeps that
    very instance. *)
Theorem registration_is_permanent calls (m : gmap nat nat) session x :
  fromSession session m = Some x →
  fromSession session (constructions' calls m) = Some x.
Proof.
  unfold fromSession. revert m.
  induction calls as [|[this opts] calls IH]; intros m Hx; [done|].
  cbn [constructions]. by apply IH, construct_keeps_entries.
Qed.

(** X21. A construction that passes the license check for a session without
    instance, and whose later steps do not throw, returns the new object;
    [fromSession] then gives this object for the session (the default session
    when the options name none), and what it gives for every other session is
    unchanged. *)
Theorem construct_then_fromSession this opts (m : gmap nat nat) :
  checkLicense (opt_license <$> opts) = None →
  fromSession (session_of defaultSession opts) m = None →
  setup (session_of defaultSession opts) this = None →
  fst (construct' this opts m) = inr this ∧
  fromSession (session_of defaultSession opts) (snd (construct' this opts m)) = Some this ∧
  ∀ session, session ≠ session_of defaultSession opts →
    fromSession session (snd (construct' this opts m)) = fromSession session m.
Proof.
  unfold fromSession, session_of, construct. intros -> Hfree Hsetup.
  rewrite bool_decide_eq_false_2 by (rewrite Hfree; by intros [? [=]]).
  rewrite Hsetup. cbn [fst snd]. split; [done|]. split.
  - by rewrite lookup_insert_eq.
  - intros session Hne. by rewrite lookup_insert_ne.
Qed.

(** X22. A session gets at most one instance.  Once a construction has passed
    the license check for a session without instance, the new object is
    registered for it, even when a later step of that construction throws;
    every further construction for the session that passes the license check
    throws the instance-exists error and leaves the registry as it is. *)
Theorem one_instance_per_session this1 opts1 this2 opts2 (m : gmap nat nat) :
  checkLicense (opt_license <$> opts1) = None →
  fromSession (session_of defaultSession opts1) m = None →
  checkLicense (opt_license <$> opts2) = None →
  session_of defaultSession opts2 = session_of defaultSession opts1 →
  let m1 := snd (construct' this1 opts1 m) in
  fromSession (session_of defaultSession opts1) m1 = Some this1 ∧
  construct' this2 opts2 m1 = (inl InstanceExists, m1).
Proof.
  intros Hl1 Hfree Hl2 Hsame m1. unfold fromSession, session_of in *.
  assert (m1 !! default defaultSession (opts1 ≫= opt_session) = Some this1) as Hreg.
  { unfold m1, construct. rewrite Hl1.
    rewrite bool_decide_eq_false_2 by (rewrite Hfree; by intros [? [=]]).
    destruct (setup _ _); cbn [snd]; by rewrite lookup_insert_eq. }
  split; [exact Hreg|]. unfold construct at 1. rewrite Hl2, Hsame.
  rewrite bool_decide_eq_true_2; [done|]. rewrite Hreg. by eexists.
Qed.
End Registry.

Lemma registration_is_permanent_witness :
  let check := λ l : option bool, if l is Some true then None else Some 1 in
  let m := snd (construct check (λ _ _, None) 0 7 (Some (mkOptions true (Some 3))) ∅) in
  fromSession 3 m = Some 7 ∧
  fromSession 3 (constructions check (λ _ _, None) 0
                   [(8, Some (mkOptions true (Some 3))); (9, None);
                    (10, Some (mkOptions true None))] m) = Some 7.
Proof.
  intros check m.
  assert (fromSession 3 m = Some 7) as H by (vm_compute; reflexivity).
  split; [exact H|]. by apply registration_is_permanent.
Defined.

Lemma construct_then_fromSession_witness :
  let check := λ l : option bool, if l is Some true then None else Some 1 in
  let r := construct check (λ _ _, None) 0 7 (Some (mkOptions true None)) ∅ in
  fst r = inr 7 ∧ fromSession 0 (snd r) = Some 7.
Proof.
  intros check r.
  destruct (construct_then_fromSession check (λ _ _, None) 0 7
              (Some (mkOptions true None)) ∅) as (H1 & H2 & _);
    [reflexivity..|].
  split; [exact H1|exact H2].
Defined.

Lemma one_instance_per_session_witness :
  let check := λ l : option bool, if l is Some true then None else Some 1 in
  let setup := λ _ this : nat, if bool_decide (this = 7) then Some 2 else None in
  let r1 := construct check setup 0 7 (Some (mkOptions true (Some 3))) ∅ in
  fst r1 = inl (Thrown 2) ∧ fromSession 3 (snd r1) = Some 7 ∧
  construct check setup 0 8 (Some (mkOptions true (Some 3))) (snd r1)
    = (inl InstanceExists, snd r1).
Proof.
  intros check setup r1. split; [vm_compute; reflexivity|].
  apply (one_instance_per_session check setup 0 7 (Some (mkOptions true (Some 3)))
           8 (Some (mkOptions true (Some 3))) ∅); reflexivity.
Defined.
